(** * Quote calculator of the print-shop dashboard

    A shallow embedding of [src/components/CalculatorView.tsx]: the unit
    conversion table, the three price memos, the three append handlers, the
    quote list operations and the hand-off to the sale-creation callback.

    JavaScript numbers are modelled as exact rationals extended with [NaN]
    and the two infinities, so that the comparisons the handlers use as
    guards ([<= 0], [<], [||]) behave on the special values as they do in
    the browser.  Binary rounding and the sign of zero are not modelled. *)

From Stdlib Require Import QArith Qabs Qround Lqa ZArith Lia List String Ascii Bool.
From Stdlib Require Import DecimalString.
Import ListNotations.

Set Implicit Arguments.

Local Open Scope string_scope.

(** ** JavaScript numbers *)

Inductive number : Type :=
| NaN
| NegInf
| Fin (q : Q)
| PosInf.

Declare Scope num_scope.
Delimit Scope num_scope with num.
Bind Scope num_scope with number.

Module Num.

Definition Qltb (a b : Q) : bool := negb (Qle_bool b a).

(** Sign of a rational: [Lt] negative, [Eq] zero, [Gt] positive. *)
Definition Qsign (a : Q) : comparison := (Qnum a ?= 0)%Z.

Definition of_Z (z : Z) : number := Fin (inject_Z z).

Definition add (x y : number) : number :=
  match x, y with
  | NaN, _ | _, NaN => NaN
  | Fin a, Fin b => Fin (a + b)
  | PosInf, NegInf | NegInf, PosInf => NaN
  | PosInf, _ | _, PosInf => PosInf
  | NegInf, _ | _, NegInf => NegInf
  end.

Definition scale_inf (positive : bool) (a : Q) : number :=
  match Qsign a with
  | Eq => NaN
  | Gt => if positive then PosInf else NegInf
  | Lt => if positive then NegInf else PosInf
  end.

Definition mul (x y : number) : number :=
  match x, y with
  | NaN, _ | _, NaN => NaN
  | Fin a, Fin b => Fin (a * b)
  | Fin a, PosInf | PosInf, Fin a => scale_inf true a
  | Fin a, NegInf | NegInf, Fin a => scale_inf false a
  | PosInf, PosInf | NegInf, NegInf => PosInf
  | PosInf, NegInf | NegInf, PosInf => NegInf
  end.

Definition div (x y : number) : number :=
  match x, y with
  | NaN, _ | _, NaN => NaN
  | Fin a, Fin b =>
      match Qsign b with
      | Eq => match Qsign a with
              | Eq => NaN
              | Gt => PosInf
              | Lt => NegInf
              end
      | _ => Fin (a / b)
      end
  | Fin _, (PosInf | NegInf) => Fin 0
  | PosInf, Fin b => match Qsign b with Lt => NegInf | _ => PosInf end
  | NegInf, Fin b => match Qsign b with Lt => PosInf | _ => NegInf end
  | (PosInf | NegInf), (PosInf | NegInf) => NaN
  end.

(** [x < y] and [x <= y]: both are false as soon as one side is [NaN]. *)
Definition ltb (x y : number) : bool :=
  match x, y with
  | NaN, _ | _, NaN => false
  | Fin a, Fin b => Qltb a b
  | NegInf, (Fin _ | PosInf) => true
  | Fin _, PosInf => true
  | _, _ => false
  end.

Definition leb (x y : number) : bool :=
  match x, y with
  | NaN, _ | _, NaN => false
  | Fin a, Fin b => Qle_bool a b
  | NegInf, _ => true
  | _, PosInf => true
  | _, _ => false
  end.

(** Truthiness of a number: everything but [NaN] and zero. *)
Definition truthy (x : number) : bool :=
  match x with
  | NaN => false
  | Fin a => negb (Qeq_bool a 0)
  | _ => true
  end.

(** [x || d] on numbers. *)
Definition or_else (x d : number) : number := if truthy x then x else d.

(** Same numeric value; [NaN] equals nothing, as with [===]. *)
Definition eq (x y : number) : Prop :=
  match x, y with
  | Fin a, Fin b => a == b
  | PosInf, PosInf | NegInf, NegInf => True
  | _, _ => False
  end.

Definition eqb (x y : number) : bool :=
  match x, y with
  | Fin a, Fin b => Qeq_bool a b
  | PosInf, PosInf | NegInf, NegInf => true
  | _, _ => false
  end.

(** Same value, [NaN] included: the equality of [Object.is] up to the sign
    of zero. *)
Definition same (x y : number) : Prop :=
  match x, y with
  | NaN, NaN | PosInf, PosInf | NegInf, NegInf => True
  | Fin a, Fin b => a == b
  | _, _ => False
  end.

Definition is_finite (x : number) : Prop :=
  match x with Fin _ => True | _ => False end.

(** [Math.round]: the integer nearest to [x], ties towards +infinity. *)
Definition round (x : number) : number :=
  match x with
  | Fin a => of_Z (Qfloor (a + (1 # 2)))
  | _ => x
  end.

End Num.

Infix "+" := Num.add : num_scope.
Infix "*" := Num.mul : num_scope.
Infix "/" := Num.div : num_scope.
Infix "<?" := Num.ltb : num_scope.
Infix "<=?" := Num.leb : num_scope.
Infix "||" := Num.or_else : num_scope.
Infix "=n=" := Num.eq (at level 70, no associativity).

Notation "0" := (Fin 0) : num_scope.
Notation "1" := (Fin 1) : num_scope.

(** ** The browser functions the component calls

    [trim], [parseFloat], [parseInt], [toFixed] and the [Intl] number
    formatter belong to the JavaScript runtime, not to the repository; the
    component is modelled over any implementation of them. *)

Class Runtime : Type := {
  trim : string -> string;
  parseFloat : string -> number;
  parseInt : string -> number;
  toFixed : number -> nat -> string;
  intl_format : number -> string
}.

(** ** Types of [src/firebase.ts] *)

Module SaleItem.
Record t : Type := make {
  itemId : string;
  name : string;
  quantity : number;
  price : number
}.
End SaleItem.

Module StockItem.
Record t : Type := make {
  skuId : string;
  categoryId : string;
  width : number;
  itemName : string;
  totalStockMeters : number;
  reorderLevel : number;
  lastPurchasePricePerRoll_UGX : number
}.
End StockItem.

Module PricingTier.
Record t : Type := make {
  id : string;
  name : string;
  value : number;
  categoryId : string
}.
End PricingTier.

(** [minPrice] is declared as a number, but the component reads it as
    [minPrice || 0] everywhere: a stored document may lack the field, which
    is [None] here. *)
Module InventoryItem.
Record t : Type := make {
  id : string;
  name : string;
  category : string;
  quantity : number;
  price : number;
  minPrice : option number;
  attr1 : option string;
  attr2 : option string;
  attr3 : option string;
  attr4 : option string;
  attr5 : option string
}.
End InventoryItem.

(** ** Constants of the component *)

Inductive Unit : Type := unit_m | unit_ft | unit_in | unit_cm.

Definition CONVERSION_TO_METER (u : Unit) : number :=
  match u with
  | unit_m => Fin 1
  | unit_cm => Fin (1 # 100)
  | unit_in => Fin (254 # 10000)
  | unit_ft => Fin (3048 # 10000)
  end.

Inductive PaperSize : Type := A5 | A4 | A3 | A2 | A1 | A0.

Record Sheet : Type := { sheet_width : number; sheet_height : number }.

Definition PAPER_SIZES (n : PaperSize) : Sheet :=
  match n with
  | A5 => {| sheet_width := Fin (148 # 10); sheet_height := Fin 21 |}
  | A4 => {| sheet_width := Fin 21; sheet_height := Fin (297 # 10) |}
  | A3 => {| sheet_width := Fin (297 # 10); sheet_height := Fin 42 |}
  | A2 => {| sheet_width := Fin 42; sheet_height := Fin (594 # 10) |}
  | A1 => {| sheet_width := Fin (594 # 10); sheet_height := Fin (841 # 10) |}
  | A0 => {| sheet_width := Fin (841 # 10); sheet_height := Fin (1189 # 10) |}
  end.

Inductive TabId : Type :=
  large_format | dtf | embroidery | bizhub | supplies | products | others.

Inductive DtfPreset : Type := DtfA4 | DtfA3.

(** ** Component state

    One field per [useState] hook that the handlers read or write, grouped
    as the source groups them.  The category and filter selection of the
    catalog tab only narrows the list a product is picked from and is left
    out, and so is the effect that resets the fee and the catalog form when
    the tab is switched: the properties below hold for every state, whether
    or not the interface can reach it. *)

Module Dim.
Record t : Type := make {
  length : number;
  lengthUnit : Unit;
  width : number;
  widthUnit : Unit;
  selectedStockItem : string;
  selectedTier : string;
  dimQuantity : number;
  dtfPreset : option DtfPreset
}.
End Dim.

Module Simple.
Record t : Type := make {
  selectedProduct : option InventoryItem.t;
  negotiatedPrice : number;
  simpleQuantity : number
}.
End Simple.

Module Manual.
Record t : Type := make {
  manualItemName : string;
  manualPrice : number;
  manualQuantity : number
}.
End Manual.

Record State : Type := {
  activeTab : TabId;
  quoteItems : list SaleItem.t;
  dim : Dim.t;
  extraAmount : number;
  extraAmountLabel : string;
  simple_form : Simple.t;
  manual_form : Manual.t
}.

Record Props : Type := {
  stockItems : list StockItem.t;
  pricingTiers : list PricingTier.t
}.

(** What a handler does besides updating the state: the toasts it raises
    and the calls it makes to [onCreateSale]; and how it completes. *)

Inductive Effect : Type :=
| Toast (message : string) (kind : string)
| CreateSale (items : list SaleItem.t).

Inductive Completion : Type := Returns | Throws.

Record Outcome : Type := {
  next : State;
  effects : list Effect;
  completion : Completion
}.

Definition Z_to_string (z : Z) : string :=
  DecimalString.NilZero.string_of_int (Z.to_int z).

(** [Array.prototype.filter] with the index passed to the callback. *)
Fixpoint filter_from {A : Type} (f : A -> nat -> bool) (i : nat) (l : list A)
  : list A :=
  match l with
  | [] => []
  | x :: r => if f x i then x :: filter_from f (S i) r else filter_from f (S i) r
  end.

Definition Array_filter {A : Type} (f : A -> nat -> bool) (l : list A) : list A :=
  filter_from f 0 l.

(** [a || b] on strings: the empty string is falsy. *)
Definition str_or (a b : string) : string :=
  if (a =? "")%string then b else a.

(** [[...].filter(Boolean).join(sep)] on optional strings. *)
Definition present (attrs : list (option string)) : list string :=
  flat_map (fun a => match a with
                     | Some s => if (s =? "")%string then [] else [s]
                     | None => []
                     end) attrs.

Section Component.

Context {rt : Runtime}.

Definition formatUGX (amount : number) : string :=
  match amount with
  | NaN => "0 UGX"
  | _ => intl_format (Num.round amount) ++ " UGX"
  end.

Definition remove_commas (val : string) : string :=
  string_of_list_ascii
    (filter (fun c => negb (Ascii.eqb c ","%char)) (list_ascii_of_string val)).

Definition parseCommaString (val : string) : number :=
  let cleaned := remove_commas val in
  if (cleaned =? "")%string then 0%num else parseFloat cleaned.

(** *** Unit conversion *)

Definition toMeters (value : number) (u : Unit) : number :=
  (value * CONVERSION_TO_METER u)%num.

(** The numbers [UnitConverterDisplay] formats, before [toFixed]. *)
Definition converted (valM : number) (u : Unit) : number :=
  match u with
  | unit_m => valM
  | unit_cm => (valM * Fin 100)%num
  | unit_ft => (valM / CONVERSION_TO_METER unit_ft)%num
  | unit_in => (valM / CONVERSION_TO_METER unit_in)%num
  end.

Record Conversions : Type := {
  conv_m : string;
  conv_cm : string;
  conv_ft : string;
  conv_in : string
}.

Definition conversions (valM : number) : Conversions :=
  {| conv_m := toFixed (converted valM unit_m) 2;
     conv_cm := toFixed (converted valM unit_cm) 1;
     conv_ft := toFixed (converted valM unit_ft) 2;
     conv_in := toFixed (converted valM unit_in) 2 |}.

(** The round trip the specification names: [fromMeters] divides by the
    factor [toMeters] multiplied by. *)
Definition fromMeters_spec (meters : number) (u : Unit) : number :=
  (meters / CONVERSION_TO_METER u)%num.

(** *** Derived values (the [useMemo] hooks) *)

Definition isDTF (st : State) : bool :=
  match activeTab st with dtf => true | _ => false end.

Definition lengthInMeters (st : State) : number :=
  toMeters (Dim.length (dim st)) (Dim.lengthUnit (dim st)).

Definition widthInMeters (st : State) : number :=
  toMeters (Dim.width (dim st)) (Dim.widthUnit (dim st)).

Definition find_stock (p : Props) (sku : string) : option StockItem.t :=
  find (fun i => (StockItem.skuId i =? sku)%string) (stockItems p).

Definition tiersForSelectedItem (p : Props) (st : State) : list PricingTier.t :=
  if (Dim.selectedStockItem (dim st) =? "")%string then []
  else match find_stock p (Dim.selectedStockItem (dim st)) with
       | None => []
       | Some i =>
           if (StockItem.categoryId i =? "")%string then []
           else filter (fun tier => (PricingTier.categoryId tier
                                     =? StockItem.categoryId i)%string)
                       (pricingTiers p)
       end.

Definition selectedMultiplier (p : Props) (st : State) : number :=
  if (Dim.selectedTier (dim st) =? "")%string then 0%num
  else match find (fun t => (PricingTier.id t =? Dim.selectedTier (dim st))%string)
                  (tiersForSelectedItem p st) with
       | Some t => (PricingTier.value t || 0)%num
       | None => 0%num
       end.

Definition totalDimPrice (p : Props) (st : State) : number :=
  let basePrice :=
    if isDTF st then
      match Dim.dtfPreset (dim st) with
      | Some DtfA4 => (Fin 5000 * Dim.dimQuantity (dim st))%num
      | Some DtfA3 => (Fin 10000 * Dim.dimQuantity (dim st))%num
      | None => (lengthInMeters st * Fin 15000 * Dim.dimQuantity (dim st))%num
      end
    else
      let lengthCM := (lengthInMeters st * Fin 100)%num in
      let widthCM := (widthInMeters st * Fin 100)%num in
      (lengthCM * widthCM * selectedMultiplier p st * Dim.dimQuantity (dim st))%num
  in (basePrice + extraAmount st)%num.

Definition totalSimplePrice (st : State) : number :=
  (Simple.negotiatedPrice (simple_form st) * Simple.simpleQuantity (simple_form st)
   + extraAmount st)%num.

Definition totalManualPrice (st : State) : number :=
  (Manual.manualPrice (manual_form st) * Manual.manualQuantity (manual_form st))%num.

Definition totalQuotePrice (st : State) : number :=
  fold_left (fun acc item => (acc + SaleItem.price item * SaleItem.quantity item)%num)
            (quoteItems st) 0%num.

(** The total as the specification words it: the sum over the items of
    quantity times unit price. *)
Fixpoint sum_quantity_times_price (items : list SaleItem.t) : number :=
  match items with
  | [] => 0%num
  | item :: rest =>
      (SaleItem.quantity item * SaleItem.price item
       + sum_quantity_times_price rest)%num
  end.

(** *** State updates *)

Definition with_dim (st : State) (d : Dim.t) : State :=
  {| activeTab := activeTab st; quoteItems := quoteItems st; dim := d;
     extraAmount := extraAmount st; extraAmountLabel := extraAmountLabel st;
     simple_form := simple_form st; manual_form := manual_form st |}.

Definition with_quote (st : State) (q : list SaleItem.t) : State :=
  {| activeTab := activeTab st; quoteItems := q; dim := dim st;
     extraAmount := extraAmount st; extraAmountLabel := extraAmountLabel st;
     simple_form := simple_form st; manual_form := manual_form st |}.

Definition setLength (v : number) (d : Dim.t) : Dim.t :=
  Dim.make v (Dim.lengthUnit d) (Dim.width d) (Dim.widthUnit d)
           (Dim.selectedStockItem d) (Dim.selectedTier d) (Dim.dimQuantity d)
           (Dim.dtfPreset d).

Definition setLengthUnit (u : Unit) (d : Dim.t) : Dim.t :=
  Dim.make (Dim.length d) u (Dim.width d) (Dim.widthUnit d)
           (Dim.selectedStockItem d) (Dim.selectedTier d) (Dim.dimQuantity d)
           (Dim.dtfPreset d).

Definition setWidth (v : number) (d : Dim.t) : Dim.t :=
  Dim.make (Dim.length d) (Dim.lengthUnit d) v (Dim.widthUnit d)
           (Dim.selectedStockItem d) (Dim.selectedTier d) (Dim.dimQuantity d)
           (Dim.dtfPreset d).

Definition setWidthUnit (u : Unit) (d : Dim.t) : Dim.t :=
  Dim.make (Dim.length d) (Dim.lengthUnit d) (Dim.width d) u
           (Dim.selectedStockItem d) (Dim.selectedTier d) (Dim.dimQuantity d)
           (Dim.dtfPreset d).

Definition setDimQuantity (v : number) (d : Dim.t) : Dim.t :=
  Dim.make (Dim.length d) (Dim.lengthUnit d) (Dim.width d) (Dim.widthUnit d)
           (Dim.selectedStockItem d) (Dim.selectedTier d) v (Dim.dtfPreset d).

Definition setDtfPreset (v : option DtfPreset) (d : Dim.t) : Dim.t :=
  Dim.make (Dim.length d) (Dim.lengthUnit d) (Dim.width d) (Dim.widthUnit d)
           (Dim.selectedStockItem d) (Dim.selectedTier d) (Dim.dimQuantity d) v.

(** *** Input handlers of the dimension form *)

Definition onLengthChange (value : string) (st : State) : State :=
  let d := setLength (parseFloat value || 0)%num (dim st) in
  with_dim st (if isDTF st then setDtfPreset None d else d).

Definition onWidthChange (value : string) (st : State) : State :=
  with_dim st (setWidth (parseFloat value || 0)%num (dim st)).

Definition onDimQuantityChange (value : string) (st : State) : State :=
  with_dim st (setDimQuantity (parseInt value || 1)%num (dim st)).

Definition onMaterialChange (value : string) (st : State) : State :=
  with_dim st (Dim.make (Dim.length (dim st)) (Dim.lengthUnit (dim st))
                        (Dim.width (dim st)) (Dim.widthUnit (dim st))
                        value (Dim.selectedTier (dim st))
                        (Dim.dimQuantity (dim st)) (Dim.dtfPreset (dim st))).

Definition onTierChange (value : string) (st : State) : State :=
  with_dim st (Dim.make (Dim.length (dim st)) (Dim.lengthUnit (dim st))
                        (Dim.width (dim st)) (Dim.widthUnit (dim st))
                        (Dim.selectedStockItem (dim st)) value
                        (Dim.dimQuantity (dim st)) (Dim.dtfPreset (dim st))).

(** *** Input handlers of the catalog and manual forms, and of the fee *)

Definition with_simple (st : State) (f : Simple.t) : State :=
  {| activeTab := activeTab st; quoteItems := quoteItems st; dim := dim st;
     extraAmount := extraAmount st; extraAmountLabel := extraAmountLabel st;
     simple_form := f; manual_form := manual_form st |}.

Definition with_manual (st : State) (f : Manual.t) : State :=
  {| activeTab := activeTab st; quoteItems := quoteItems st; dim := dim st;
     extraAmount := extraAmount st; extraAmountLabel := extraAmountLabel st;
     simple_form := simple_form st; manual_form := f |}.

Definition onProductClick (item : InventoryItem.t) (st : State) : State :=
  with_simple st (Simple.make (Some item) (InventoryItem.price item)
                              (Simple.simpleQuantity (simple_form st))).

Definition onNegotiatedPriceChange (value : string) (st : State) : State :=
  with_simple st (Simple.make (Simple.selectedProduct (simple_form st))
                              (parseCommaString value)
                              (Simple.simpleQuantity (simple_form st))).

Definition onSimpleQuantityChange (value : string) (st : State) : State :=
  with_simple st (Simple.make (Simple.selectedProduct (simple_form st))
                              (Simple.negotiatedPrice (simple_form st))
                              (parseInt value || 1)%num).

Definition onExtraAmountChange (value : string) (st : State) : State :=
  {| activeTab := activeTab st; quoteItems := quoteItems st; dim := dim st;
     extraAmount := parseCommaString value;
     extraAmountLabel := extraAmountLabel st;
     simple_form := simple_form st; manual_form := manual_form st |}.

Definition onManualNameChange (value : string) (st : State) : State :=
  with_manual st (Manual.make value (Manual.manualPrice (manual_form st))
                              (Manual.manualQuantity (manual_form st))).

Definition onManualPriceChange (value : string) (st : State) : State :=
  with_manual st (Manual.make (Manual.manualItemName (manual_form st))
                              (parseCommaString value)
                              (Manual.manualQuantity (manual_form st))).

Definition onManualQuantityChange (value : string) (st : State) : State :=
  with_manual st (Manual.make (Manual.manualItemName (manual_form st))
                              (Manual.manualPrice (manual_form st))
                              (parseFloat value || 0)%num).

Definition handlePresetClick (n : PaperSize) (st : State) : State :=
  let size := PAPER_SIZES n in
  if isDTF st then
    match n with
    | A4 => with_dim st (setLengthUnit unit_cm
                           (setLength (Fin (297 # 10)) (setDtfPreset (Some DtfA4) (dim st))))
    | A3 => with_dim st (setLengthUnit unit_cm
                           (setLength (Fin 42) (setDtfPreset (Some DtfA3) (dim st))))
    | _ => with_dim st (setLengthUnit unit_cm
                          (setLength (sheet_height size) (setDtfPreset None (dim st))))
    end
  else
    with_dim st (setLengthUnit unit_cm (setWidthUnit unit_cm
                   (setLength (sheet_height size) (setWidth (sheet_width size) (dim st))))).

(** *** Handlers *)

Definition reject (st : State) (message : string) : Outcome :=
  {| next := st; effects := [Toast message "error"]; completion := Returns |}.

Definition dimItemName (stockItem : StockItem.t) (st : State) : string :=
  let base :=
    if isDTF st then
      match Dim.dtfPreset (dim st) with
      | Some DtfA4 => StockItem.itemName stockItem ++ " (A4)"
      | Some DtfA3 => StockItem.itemName stockItem ++ " (A3)"
      | None => StockItem.itemName stockItem ++ " (Custom Length: "
                  ++ toFixed (lengthInMeters st) 2 ++ "m)"
      end
    else StockItem.itemName stockItem ++ " (" ++ toFixed (lengthInMeters st) 2
           ++ "m x " ++ toFixed (widthInMeters st) 2 ++ "m)"
  in
  if (Fin 0 <? extraAmount st)%num
  then base ++ " + " ++ str_or (trim (extraAmountLabel st)) "Extra" ++ ": "
         ++ formatUGX (extraAmount st)
  else base.

Definition handleAddDimToQuote (now : Z) (p : Props) (st : State) : Outcome :=
  if (Dim.selectedStockItem (dim st) =? "")%string
  then reject st "Please select a material/roll."
  else if negb (isDTF st) && (Dim.selectedTier (dim st) =? "")%string
  then reject st "Please select a pricing tier."
  else if (totalDimPrice p st <=? 0)%num
  then reject st "Calculated price must be greater than zero."
  else
    match find_stock p (Dim.selectedStockItem (dim st)) with
    | None => {| next := st; effects := []; completion := Returns |}
    | Some stockItem =>
        let newItem :=
          {| SaleItem.itemId := "calc-" ++ StockItem.skuId stockItem ++ "-"
                                  ++ Z_to_string now;
             SaleItem.name := dimItemName stockItem st;
             SaleItem.quantity := Dim.dimQuantity (dim st);
             SaleItem.price := (totalDimPrice p st / Dim.dimQuantity (dim st))%num |} in
        let d := setDimQuantity 1%num (dim st) in
        {| next :=
             {| activeTab := activeTab st;
                quoteItems := (quoteItems st ++ [newItem])%list;
                dim := if isDTF st then setDtfPreset None d else d;
                extraAmount := 0%num;
                extraAmountLabel := "";
                simple_form := simple_form st;
                manual_form := manual_form st |};
           effects := [];
           completion := Returns |}
    end.

Definition floor_of (product : InventoryItem.t) : number :=
  match InventoryItem.minPrice product with
  | Some v => (v || 0)%num
  | None => 0%num
  end.

Definition simpleItemName (product : InventoryItem.t) (st : State) : string :=
  let attributes :=
    String.concat " | "
      (present [InventoryItem.attr1 product; InventoryItem.attr2 product;
                InventoryItem.attr3 product; InventoryItem.attr4 product;
                InventoryItem.attr5 product]) in
  let displayName :=
    if (attributes =? "")%string then InventoryItem.name product
    else InventoryItem.name product ++ " (" ++ attributes ++ ")" in
  if (Fin 0 <? extraAmount st)%num
  then displayName ++ " (+ " ++ str_or (trim (extraAmountLabel st)) "Extra Fee/Design"
         ++ ": " ++ formatUGX (extraAmount st) ++ ")"
  else displayName.

Definition handleAddSimpleToQuote (now : Z) (st : State) : Outcome :=
  match Simple.selectedProduct (simple_form st) with
  | None => reject st "Please select a product from the filtered list."
  | Some selectedProduct =>
      if (Simple.simpleQuantity (simple_form st) <=? 0)%num
      then reject st "Quantity must be greater than 0."
      else if (Simple.negotiatedPrice (simple_form st) <? floor_of selectedProduct)%num
      then reject st ("Price cannot be below the minimum discount price of "
                        ++ formatUGX (floor_of selectedProduct) ++ ".")
      else
        let newItem :=
          {| SaleItem.itemId := "simple-" ++ InventoryItem.id selectedProduct ++ "-"
                                  ++ Z_to_string now;
             SaleItem.name := simpleItemName selectedProduct st;
             SaleItem.quantity := Simple.simpleQuantity (simple_form st);
             SaleItem.price :=
               (Simple.negotiatedPrice (simple_form st)
                + extraAmount st / Simple.simpleQuantity (simple_form st))%num |} in
        {| next :=
             {| activeTab := activeTab st;
                quoteItems := (quoteItems st ++ [newItem])%list;
                dim := dim st;
                extraAmount := 0%num;
                extraAmountLabel := "";
                simple_form := Simple.make None 0%num 1%num;
                manual_form := manual_form st |};
           effects := [];
           completion := Returns |}
  end.

Definition handleAddManualToQuote (now : Z) (st : State) : Outcome :=
  if (trim (Manual.manualItemName (manual_form st)) =? "")%string
  then reject st "Please enter an item name."
  else if (Manual.manualPrice (manual_form st) <=? 0)%num
  then reject st "Price must be greater than zero."
  else if (Manual.manualQuantity (manual_form st) <=? 0)%num
  then reject st "Quantity must be greater than zero."
  else
    let newItem :=
      {| SaleItem.itemId := "manual-" ++ Z_to_string now;
         SaleItem.name := trim (Manual.manualItemName (manual_form st));
         SaleItem.quantity := Manual.manualQuantity (manual_form st);
         SaleItem.price := Manual.manualPrice (manual_form st) |} in
    {| next :=
         {| activeTab := activeTab st;
            quoteItems := (quoteItems st ++ [newItem])%list;
            dim := dim st;
            extraAmount := extraAmount st;
            extraAmountLabel := extraAmountLabel st;
            simple_form := simple_form st;
            manual_form := Manual.make "" 0%num 1%num |};
       effects := [];
       completion := Returns |}.

Definition handleClearQuote (st : State) : State := with_quote st [].

Definition handleRemoveQuoteItem (index : nat) (st : State) : State :=
  with_quote st (Array_filter (fun _ i => negb (i =? index)%nat) (quoteItems st)).

(** [onCreateSale] is a callback of type [(items) => void]: all the
    component can observe of it is whether the call returns or throws.  A
    throw leaves [handleCreateSaleClick] at the call, before
    [handleClearQuote]. *)
Definition handleCreateSaleClick (onCreateSale : list SaleItem.t -> Completion)
  (st : State) : Outcome :=
  if (List.length (quoteItems st) =? 0)%nat
  then reject st "Your quote is empty. Add items to create a sale."
  else
    match onCreateSale (quoteItems st) with
    | Throws => {| next := st; effects := [CreateSale (quoteItems st)];
                   completion := Throws |}
    | Returns => {| next := handleClearQuote st;
                    effects := [CreateSale (quoteItems st)];
                    completion := Returns |}
    end.

(** *** Reading an outcome *)

(** The handler refused: it raised one error toast and left the state as it
    was. *)
Definition rejected (st : State) (o : Outcome) : Prop :=
  next o = st /\ exists message : string, effects o = [Toast message "error"].

(** The handler appended [item] at the end of the quote. *)
Definition appended (st : State) (o : Outcome) (item : SaleItem.t) : Prop :=
  quoteItems (next o) = (quoteItems st ++ [item])%list.

End Component.

(** ** A reference runtime

    A concrete reading of the browser functions, used to run the component
    on explicit inputs.  It covers plain decimal text ([-12.5], [100]):
    exponents, hexadecimal prefixes and the words [Infinity] and [NaN] are
    not parsed, the formatter groups the integral part only, and infinite
    values are written by name. *)

Module Reference.

Definition is_space (c : ascii) : bool :=
  let n := N_of_ascii c in
  ((9 <=? n)%N && (n <=? 13)%N) || (n =? 32)%N.

Fixpoint drop_spaces (s : string) : string :=
  match s with
  | String c r => if is_space c then drop_spaces r else s
  | EmptyString => s
  end.

Definition reverse (s : string) : string :=
  string_of_list_ascii (rev (list_ascii_of_string s)).

Definition trim (s : string) : string :=
  reverse (drop_spaces (reverse (drop_spaces s))).

Definition digit_of (c : ascii) : option Z :=
  let n := Z.of_N (N_of_ascii c) in
  if ((48 <=? n) && (n <=? 57))%Z then Some (n - 48)%Z else None.

(** Reads a run of digits: its value, its length and the text after it. *)
Fixpoint read_digits (s : string) (acc : Z) (n : nat) : Z * nat * string :=
  match s with
  | String c r =>
      match digit_of c with
      | Some d => read_digits r (acc * 10 + d)%Z (S n)
      | None => (acc, n, s)
      end
  | EmptyString => (acc, n, s)
  end.

Definition read_sign (s : string) : bool * string :=
  match s with
  | String "-" r => (true, r)
  | String "+" r => (false, r)
  | _ => (false, s)
  end.

Definition parseInt (s : string) : number :=
  let (negative, r) := read_sign (drop_spaces s) in
  let '(v, n, _) := read_digits r 0 0 in
  match n with
  | O => NaN
  | _ => Num.of_Z (if negative then - v else v)
  end.

Definition parseFloat (s : string) : number :=
  let (negative, r) := read_sign (drop_spaces s) in
  let '(v, n, rest) := read_digits r 0 0 in
  let '(f, k, _) :=
    match rest with
    | String "." r' => read_digits r' 0 0
    | _ => (0%Z, O, rest)
    end in
  match (n + k)%nat with
  | O => NaN
  | _ =>
      let a := (inject_Z v + inject_Z f / inject_Z (10 ^ Z.of_nat k))%Q in
      Fin (if negative then - a else a)
  end.

Fixpoint zeros (n : nat) : string :=
  match n with
  | O => ""
  | S k => "0" ++ zeros k
  end.

Definition pad_left (d : nat) (s : string) : string :=
  zeros (d - String.length s) ++ s.

Definition toFixed (x : number) (d : nat) : string :=
  match x with
  | NaN => "NaN"
  | PosInf => "Infinity"
  | NegInf => "-Infinity"
  | Fin a =>
      let s := (10 ^ Z.of_nat d)%Z in
      let n := Qfloor (Qabs a * inject_Z s + (1 # 2)) in
      (if Num.Qltb a 0 then "-" else "")
        ++ Z_to_string (n / s)
        ++ match d with
           | O => ""
           | _ => "." ++ pad_left d (Z_to_string (n mod s))
           end
  end.

(** Inserts a comma before every group of three digits, on reversed text. *)
Fixpoint group_rev (l : list ascii) (k : nat) : list ascii :=
  match l with
  | [] => []
  | c :: r =>
      match k with
      | 3%nat => ","%char :: c :: group_rev r 1
      | _ => c :: group_rev r (S k)
      end
  end.

Definition group (digits : string) : string :=
  string_of_list_ascii (rev (group_rev (rev (list_ascii_of_string digits)) 0)).

Definition intl_format (x : number) : string :=
  match x with
  | NaN => "NaN"
  | PosInf => "Infinity"
  | NegInf => "-Infinity"
  | Fin a =>
      let z := Qfloor a in
      (if (z <? 0)%Z then "-" else "") ++ group (Z_to_string (Z.abs z))
  end.

Definition runtime : Runtime :=
  Build_Runtime trim parseFloat parseInt toFixed intl_format.

End Reference.

(** ** Sample data

    The state the component starts in (the arguments of its [useState]
    hooks) and a small catalogue to run the handlers on. *)

Definition initial_state : State :=
  {| activeTab := large_format;
     quoteItems := [];
     dim := Dim.make (Fin 100) unit_cm (Fin 60) unit_cm "" "" 1%num None;
     extraAmount := 0%num;
     extraAmountLabel := "";
     simple_form := Simple.make None 0%num 1%num;
     manual_form := Manual.make "" 0%num 1%num |}.

Definition vinyl : StockItem.t :=
  StockItem.make "SKU-1" "cat-vinyl" (Fin (137 # 100)) "Vinyl" (Fin 50) (Fin 10)
                 (Fin 400000).

Definition film : StockItem.t :=
  StockItem.make "SKU-2" "cat-dtf" (Fin (60 # 100)) "DTF Film" (Fin 100) (Fin 10)
                 (Fin 900000).

Definition tier5 : PricingTier.t := PricingTier.make "T1" "Standard" (Fin 5) "cat-vinyl".

Definition sample_props : Props :=
  {| stockItems := [vinyl; film]; pricingTiers := [tier5] |}.

(** The film tab with preset A4 active, three copies, no extra fee. *)
Definition film_preset_state (l : number) : State :=
  {| activeTab := dtf;
     quoteItems := [];
     dim := Dim.make l unit_cm (Fin 60) unit_cm "SKU-2" "" (Fin 3) (Some DtfA4);
     extraAmount := 0%num;
     extraAmountLabel := "";
     simple_form := Simple.make None 0%num 1%num;
     manual_form := Manual.make "" 0%num 1%num |}.

Definition tshirt : InventoryItem.t :=
  InventoryItem.make "P-1" "T-Shirt" "Garments" (Fin 40) (Fin 10000)
                     (Some (Fin 8000)) (Some "Red") (Some "XL") None None None.

(** A product stored with a negative minimum price. *)
Definition clearance : InventoryItem.t :=
  InventoryItem.make "P-2" "Offcut" "Garments" (Fin 5) (Fin 0)
                     (Some (Fin (-100))) None None None None None.

(** A product stored without a minimum price. *)
Definition sticker : InventoryItem.t :=
  InventoryItem.make "P-3" "Sticker" "Bizhub" (Fin 500) (Fin 1000)
                     None None None None None None.

Definition delivery : SaleItem.t :=
  SaleItem.make "manual-1" "Delivery" 1%num (Fin 20000).

(** The catalog tab with [product] picked, a negotiated price, a quantity
    and an extra fee entered, on top of a quote holding [items]. *)
Definition catalog_state (items : list SaleItem.t) (product : InventoryItem.t)
  (negotiated qty extra : number) : State :=
  {| activeTab := products;
     quoteItems := items;
     dim := dim initial_state;
     extraAmount := extra;
     extraAmountLabel := "";
     simple_form := Simple.make (Some product) negotiated qty;
     manual_form := manual_form initial_state |}.

(** The film tab with preset A4 active and a selected roll id that is not,
    or no longer, among the stock items. *)
Definition vanished_roll_state : State :=
  {| activeTab := dtf;
     quoteItems := [delivery];
     dim := Dim.make (Fin (297 # 10)) unit_cm (Fin 60) unit_cm "SKU-9" "" 1%num
                     (Some DtfA4);
     extraAmount := 0%num;
     extraAmountLabel := "";
     simple_form := Simple.make None 0%num 1%num;
     manual_form := Manual.make "" 0%num 1%num |}.

Definition poster : SaleItem.t :=
  SaleItem.make "calc-SKU-1-7" "Vinyl (1.00m x 0.60m)" (Fin 2) (Fin 30000).

Definition banner : SaleItem.t :=
  SaleItem.make "calc-SKU-1-9" "Vinyl (2.00m x 1.00m)" 1%num (Fin 100000).

(** The manual tab with a name, a price and a quantity entered. *)
Definition manual_state (name : string) (price qty : number) : State :=
  with_manual (with_quote initial_state [poster]) (Manual.make name price qty).

(** The area form after a material and a tier are picked. *)
Definition select_roll (sku tier : string) (st : State) : State :=
  onTierChange tier (onMaterialChange sku st).

(** ** The rest of the calculator view

    The hooks and handlers of [CalculatorView.tsx] that the append handlers
    do not read: the catalog filters, the lists offered for selection, the
    effect run when the tab changes and the formatting of the price
    fields.  They are modelled beside [State], which keeps the fields the
    append handlers use. *)

(** [String.prototype.toLowerCase] belongs to the runtime, like the
    functions of [Runtime]. *)
Class Text : Type := {
  toLowerCase : string -> string
}.

(** [s.includes(sub)]. *)
Fixpoint includes (s sub : string) : bool :=
  if String.prefix sub s then true
  else match s with
       | EmptyString => false
       | String _ r => includes r sub
       end.

Module MaterialCategory.
Record t : Type := make {
  id : string;
  name : string;
  isActive : bool
}.
End MaterialCategory.

(** An inventory document: the fields of [InventoryItem.t] together with
    the optional [isConsumable] flag that the catalog list filters on. *)
Record InventoryDoc : Type := {
  doc : InventoryItem.t;
  isConsumable : option bool
}.

Inductive TabType : Type := dimension | simple | manual.

(** The [type] column of [CALCULATOR_TABS]. *)
Definition CALCULATOR_TABS (t : TabId) : TabType :=
  match t with
  | large_format | dtf => dimension
  | embroidery | bizhub | supplies | products => simple
  | others => manual
  end.

(** [activeFilters]: one optional entry per attribute slot; a slot left on
    "all" holds the empty string. *)
Module Filters.
Record t : Type := make {
  attr1 : option string;
  attr2 : option string;
  attr3 : option string;
  attr4 : option string;
  attr5 : option string
}.
Definition empty : t := make None None None None None.
End Filters.

Inductive Slot : Type := slot1 | slot2 | slot3 | slot4 | slot5.

(** The calculator with its catalog selection hooks. *)
Record Calculator : Type := {
  core : State;
  selectedProductCategory : string;
  activeFilters : Filters.t
}.

(** The argument of [formatNumberWithCommas]: [number | string]. *)
Inductive NumberOrString : Type :=
| OfNumber (n : number)
| OfString (s : string).

Section CalculatorView.

Context {rt : Runtime} {text : Text}.

Definition formatNumberWithCommas (val : NumberOrString) : string :=
  match val with
  | OfString "" => ""
  | _ =>
      let num := match val with
                 | OfString s => parseFloat (remove_commas s)
                 | OfNumber n => n
                 end in
      match num with
      | NaN => ""
      | Fin q => if Qeq_bool q 0 then "0" else intl_format num
      | _ => intl_format num
      end
  end.

Definition visiblePaperSizes (st : State) : list PaperSize :=
  if isDTF st then [A4; A3] else [A5; A4; A3; A2; A1; A0].

(** *** Catalog selection *)

Definition with_core (c : Calculator) (st : State) : Calculator :=
  {| core := st; selectedProductCategory := selectedProductCategory c;
     activeFilters := activeFilters c |}.

Definition clear_product (st : State) : State :=
  with_simple st (Simple.make None 0%num (Simple.simpleQuantity (simple_form st))).

Definition onCategoryClick (name : string) (c : Calculator) : Calculator :=
  {| core := clear_product (core c);
     selectedProductCategory := name;
     activeFilters := Filters.empty |}.

Definition set_filter (s : Slot) (value : string) (f : Filters.t) : Filters.t :=
  match s with
  | slot1 => Filters.make (Some value) (Filters.attr2 f) (Filters.attr3 f)
                          (Filters.attr4 f) (Filters.attr5 f)
  | slot2 => Filters.make (Filters.attr1 f) (Some value) (Filters.attr3 f)
                          (Filters.attr4 f) (Filters.attr5 f)
  | slot3 => Filters.make (Filters.attr1 f) (Filters.attr2 f) (Some value)
                          (Filters.attr4 f) (Filters.attr5 f)
  | slot4 => Filters.make (Filters.attr1 f) (Filters.attr2 f) (Filters.attr3 f)
                          (Some value) (Filters.attr5 f)
  | slot5 => Filters.make (Filters.attr1 f) (Filters.attr2 f) (Filters.attr3 f)
                          (Filters.attr4 f) (Some value)
  end.

Definition onFilterChange (s : Slot) (value : string) (c : Calculator) : Calculator :=
  {| core := clear_product (core c);
     selectedProductCategory := selectedProductCategory c;
     activeFilters := set_filter s value (activeFilters c) |}.

Definition filter_of (s : Slot) (f : Filters.t) : option string :=
  match s with
  | slot1 => Filters.attr1 f
  | slot2 => Filters.attr2 f
  | slot3 => Filters.attr3 f
  | slot4 => Filters.attr4 f
  | slot5 => Filters.attr5 f
  end.

Definition attr_of (s : Slot) (item : InventoryItem.t) : option string :=
  match s with
  | slot1 => InventoryItem.attr1 item
  | slot2 => InventoryItem.attr2 item
  | slot3 => InventoryItem.attr3 item
  | slot4 => InventoryItem.attr4 item
  | slot5 => InventoryItem.attr5 item
  end.

(** [activeFilters.attrN && item.attrN !== activeFilters.attrN]. *)
Definition filtered_out (s : Slot) (f : Filters.t) (item : InventoryItem.t) : bool :=
  match filter_of s f with
  | None => false
  | Some v =>
      if (v =? "")%string then false
      else match attr_of s item with
           | Some a => negb (a =? v)%string
           | None => true
           end
  end.

Definition on_supplies (t : TabId) : bool :=
  match t with supplies => true | _ => false end.

Definition consumable (d : InventoryDoc) : bool :=
  match isConsumable d with Some true => true | _ => false end.

Definition keeps (c : Calculator) (d : InventoryDoc) : bool :=
  if negb (InventoryItem.category (doc d) =? selectedProductCategory c)%string
  then false
  else if negb (on_supplies (activeTab (core c))) && consumable d then false
  else if filtered_out slot1 (activeFilters c) (doc d) then false
  else if filtered_out slot2 (activeFilters c) (doc d) then false
  else if filtered_out slot3 (activeFilters c) (doc d) then false
  else if filtered_out slot4 (activeFilters c) (doc d) then false
  else if filtered_out slot5 (activeFilters c) (doc d) then false
  else true.

Definition filteredInventory (inventory : list InventoryDoc) (c : Calculator)
  : list InventoryDoc :=
  if (selectedProductCategory c =? "")%string then []
  else filter (keeps c) inventory.

(** Clicking a row of the filtered list. *)
Definition onProductRowClick (d : InventoryDoc) (c : Calculator) : Calculator :=
  with_core c (onProductClick (doc d) (core c)).

(** *** Rolls offered on the dimension tabs *)

Definition category_name (materialCategories : list MaterialCategory.t)
  (item : StockItem.t) : string :=
  match find (fun c => (MaterialCategory.id c =? StockItem.categoryId item)%string)
             materialCategories with
  | Some cat => toLowerCase (MaterialCategory.name cat)
  | None => ""
  end.

Definition is_film_category (catName : string) : bool :=
  existsb (fun m => includes catName m) ["dtf"; "direct to film"].

Definition availableStockItems (stock : list StockItem.t)
  (materialCategories : list MaterialCategory.t) (tab : TabId) : list StockItem.t :=
  match CALCULATOR_TABS tab with
  | dimension =>
      filter (fun item =>
                let catName := category_name materialCategories item in
                match tab with
                | dtf => is_film_category catName
                | _ => negb (is_film_category catName)
                end) stock
  | _ => []
  end.

(** The roll selector of the film tab. *)
Definition onDtfRollChange (value : string) (p : Props) (st : State) : State :=
  let st1 := onMaterialChange value st in
  match find_stock p value with
  | Some itm =>
      with_dim st1 (setWidthUnit unit_cm
                      (setWidth (StockItem.width itm * Fin 100)%num (dim st1)))
  | None => st1
  end.

(** *** The effect run when the tab, the stock or the categories change *)

Definition setActiveTab (tab : TabId) (c : Calculator) : Calculator :=
  with_core c {| activeTab := tab;
                 quoteItems := quoteItems (core c);
                 dim := dim (core c);
                 extraAmount := extraAmount (core c);
                 extraAmountLabel := extraAmountLabel (core c);
                 simple_form := simple_form (core c);
                 manual_form := manual_form (core c) |}.

Definition dtfItems (p : Props) (materialCategories : list MaterialCategory.t)
  : list StockItem.t :=
  filter (fun item =>
            includes (category_name materialCategories item) "dtf"
            || includes (toLowerCase (StockItem.itemName item)) "dtf")
         (stockItems p).

Definition tabEffect (p : Props) (materialCategories : list MaterialCategory.t)
  (c : Calculator) : Calculator :=
  let st := core c in
  let is_simple := match CALCULATOR_TABS (activeTab st) with
                   | simple => true
                   | _ => false
                   end in
  let d :=
    if isDTF st then
      match dtfItems p materialCategories with
      | first :: _ =>
          if (Dim.selectedStockItem (dim st) =? "")%string
          then Dim.make (Dim.length (dim st)) (Dim.lengthUnit (dim st))
                        (StockItem.width first * Fin 100)%num unit_cm
                        (StockItem.skuId first) (Dim.selectedTier (dim st))
                        (Dim.dimQuantity (dim st)) (Dim.dtfPreset (dim st))
          else dim st
      | [] => dim st
      end
    else dim st in
  {| core := {| activeTab := activeTab st;
                quoteItems := quoteItems st;
                dim := d;
                extraAmount := 0%num;
                extraAmountLabel := "";
                simple_form := if is_simple then Simple.make None 0%num 1%num
                               else simple_form st;
                manual_form := manual_form st |};
     selectedProductCategory := if is_simple then "" else selectedProductCategory c;
     activeFilters := if is_simple then Filters.empty else activeFilters c |}.

Definition same_tab (a b : TabId) : bool :=
  match a, b with
  | large_format, large_format | dtf, dtf | embroidery, embroidery
  | bizhub, bizhub | supplies, supplies | products, products
  | others, others => true
  | _, _ => false
  end.

(** Clicking a tab: the state change, then the effect.  The effect is keyed
    on the active tab, so a click on the tab that is already active changes
    nothing and runs nothing. *)
Definition onTabClick (tab : TabId) (p : Props)
  (materialCategories : list MaterialCategory.t) (c : Calculator) : Calculator :=
  if same_tab tab (activeTab (core c)) then c
  else tabEffect p materialCategories (setActiveTab tab c).

End CalculatorView.

(** ASCII lower-casing, for running the view on sample data. *)
Definition ascii_lower (c : ascii) : ascii :=
  let n := N_of_ascii c in
  if ((65 <=? n) && (n <=? 90))%N then ascii_of_N (n + 32) else c.

Fixpoint lower (s : string) : string :=
  match s with
  | EmptyString => EmptyString
  | String c r => String (ascii_lower c) (lower r)
  end.

Definition reference_text : Text := {| toLowerCase := lower |}.

Definition sample_categories : list MaterialCategory.t :=
  [MaterialCategory.make "cat-vinyl" "Vinyl Banner" true;
   MaterialCategory.make "cat-dtf" "DTF Film" true].

Definition tshirt_blue : InventoryItem.t :=
  InventoryItem.make "P-4" "T-Shirt" "Garments" (Fin 12) (Fin 10000)
                     (Some (Fin 8000)) (Some "Blue") (Some "XL") None None None.

Definition thread : InventoryItem.t :=
  InventoryItem.make "P-5" "Thread" "Garments" (Fin 30) (Fin 3000)
                     (Some (Fin 2500)) (Some "Red") None None None None.

Definition sample_inventory : list InventoryDoc :=
  [{| doc := tshirt; isConsumable := Some false |};
   {| doc := tshirt_blue; isConsumable := None |};
   {| doc := thread; isConsumable := Some true |};
   {| doc := sticker; isConsumable := Some false |}].

(** The view as it is mounted. *)
Definition initial_calculator : Calculator :=
  {| core := initial_state; selectedProductCategory := "";
     activeFilters := Filters.empty |}.

(** ** The application shell and the sales view

    [App.tsx] hands the quote to the sales view, whose [handleCreateSale]
    builds the sale and calls [handleAddSale]; that one stores the sale and
    lowers the stock of the products sold.  The calls to the document store
    are asynchronous; each is modelled by its outcome, given as an
    argument, and the handlers run to completion in source order.  The
    random [id] of a toast is left out. *)

Definition num_neg (x : number) : number :=
  match x with
  | NaN => NaN
  | NegInf => PosInf
  | PosInf => NegInf
  | Fin a => Fin (- a)
  end.

(** [x - y]. *)
Definition num_sub (x y : number) : number := (x + num_neg y)%num.

(** [x >= y] and [x > y]. *)
Definition num_geb (x y : number) : bool := (y <=? x)%num.
Definition num_gtb (x y : number) : bool := (y <? x)%num.

Infix "-" := num_sub : num_scope.
Infix ">=?" := num_geb (at level 70, no associativity) : num_scope.
Infix ">?" := num_gtb (at level 70, no associativity) : num_scope.

(** [s.split(sep)] for a one-character separator. *)
Fixpoint split_on (sep : ascii) (s : string) : list string :=
  match s with
  | EmptyString => [""]
  | String c r =>
      if Ascii.eqb c sep then "" :: split_on sep r
      else match split_on sep r with
           | h :: t => String c h :: t
           | [] => [String c ""]
           end
  end.

Module Payment.
Record t : Type := make {
  id : string;
  date : string;
  amount : number;
  recordedBy : string;
  note : option string
}.
End Payment.

Inductive SaleStatus : Type := Paid | Unpaid | Pending | PartiallyPaid.

(** [Omit<Sale, 'id'>]; an optional field that is absent is [None]. *)
Module SaleData.
Record t : Type := make {
  date : string;
  items : list SaleItem.t;
  customerId : string;
  total : number;
  amountPaid : option number;
  status : SaleStatus;
  userId : string;
  userName : option string;
  payments : option (list Payment.t);
  usageLogged : option bool
}.
End SaleData.

Module Sale.
Record t : Type := make {
  id : string;
  data : SaleData.t
}.
End Sale.

Inductive Role : Type := admin | user.

Module User.
Record t : Type := make {
  id : string;
  username : string;
  email : string;
  role : Role
}.
End User.

Record AppState : Type := {
  activeView : string;
  inventory : list InventoryDoc;
  sales : list Sale.t;
  quoteForSale : list SaleItem.t;
  toasts : list (string * string);
  operationLoading : bool
}.

Record SalesState : Type := {
  isAddSaleOpen : bool;
  customerId : string;
  amountPaid : number;
  isPaymentModalOpen : bool;
  payingSale : option Sale.t;
  paymentAmount : number;
  paymentNote : string
}.

(** The outcome of a promise of the document store. *)
Inductive Remote (T : Type) : Type :=
| Resolves (v : T)
| Rejects.

Arguments Resolves {T} v.
Arguments Rejects {T}.

Section Shell.

Context {rt : Runtime}.

(** *** [App.tsx] *)

Definition addToast (message type : string) (app : AppState) : AppState :=
  {| activeView := activeView app; inventory := inventory app; sales := sales app;
     quoteForSale := quoteForSale app;
     toasts := (toasts app ++ [(message, type)])%list;
     operationLoading := operationLoading app |}.

Definition setOperationLoading (b : bool) (app : AppState) : AppState :=
  {| activeView := activeView app; inventory := inventory app; sales := sales app;
     quoteForSale := quoteForSale app; toasts := toasts app;
     operationLoading := b |}.

Definition setSales (f : list Sale.t -> list Sale.t) (app : AppState) : AppState :=
  {| activeView := activeView app; inventory := inventory app;
     sales := f (sales app);
     quoteForSale := quoteForSale app; toasts := toasts app;
     operationLoading := operationLoading app |}.

Definition setInventory (f : list InventoryDoc -> list InventoryDoc)
  (app : AppState) : AppState :=
  {| activeView := activeView app; inventory := f (inventory app);
     sales := sales app;
     quoteForSale := quoteForSale app; toasts := toasts app;
     operationLoading := operationLoading app |}.

Definition setQuoteForSale (q : list SaleItem.t) (app : AppState) : AppState :=
  {| activeView := activeView app; inventory := inventory app; sales := sales app;
     quoteForSale := q; toasts := toasts app;
     operationLoading := operationLoading app |}.

Definition setActiveView (v : string) (app : AppState) : AppState :=
  {| activeView := v; inventory := inventory app; sales := sales app;
     quoteForSale := quoteForSale app; toasts := toasts app;
     operationLoading := operationLoading app |}.

(** [operation] is the outcome of the promise: the value it resolves to
    together with the state update it makes on the way, or a rejection. *)
Definition runAsyncOperation {T : Type}
  (operation : Remote (T * (AppState -> AppState))) (successMessage : string)
  (app : AppState) : option T * AppState :=
  let app1 := setOperationLoading true app in
  match operation with
  | Resolves (result, commit) =>
      (Some result,
       setOperationLoading false (addToast successMessage "success" (commit app1)))
  | Rejects =>
      (None,
       setOperationLoading false
         (addToast "An error occurred. Please try again." "error" app1))
  end.

(** [createDocument('sales', data, setSales, successMessage)]. *)
Definition createSaleDocument (addDoc : Remote string) (data : SaleData.t)
  (successMessage : string) (app : AppState) : option Sale.t * AppState :=
  runAsyncOperation
    match addDoc with
    | Resolves docId =>
        let newDoc := Sale.make docId data in
        Resolves (newDoc, setSales (fun prev => newDoc :: prev))
    | Rejects => Rejects
    end
    successMessage app.

Definition with_quantity (q : number) (d : InventoryDoc) : InventoryDoc :=
  {| doc := InventoryItem.make
              (InventoryItem.id (doc d)) (InventoryItem.name (doc d))
              (InventoryItem.category (doc d)) q (InventoryItem.price (doc d))
              (InventoryItem.minPrice (doc d)) (InventoryItem.attr1 (doc d))
              (InventoryItem.attr2 (doc d)) (InventoryItem.attr3 (doc d))
              (InventoryItem.attr4 (doc d)) (InventoryItem.attr5 (doc d));
     isConsumable := isConsumable d |}.

(** [updateDocument('inventory', id, { quantity }, setInventory,
    successMessage)]. *)
Definition updateInventoryQuantity (updateDoc : Remote unit) (id : string)
  (quantity : number) (successMessage : string) (app : AppState) : AppState :=
  snd (runAsyncOperation
         match updateDoc with
         | Resolves _ =>
             Resolves (tt, setInventory
                             (map (fun item =>
                                     if (InventoryItem.id (doc item) =? id)%string
                                     then with_quantity quantity item else item)))
         | Rejects => Rejects
         end
         successMessage app).

Definition or_field {A : Type} (new old : option A) : option A :=
  match new with
  | Some v => Some v
  | None => old
  end.

(** [{ ...item, ...data }] on sales. *)
Definition merge_sale (item : Sale.t) (data : SaleData.t) : Sale.t :=
  Sale.make (Sale.id item)
    (SaleData.make (SaleData.date data) (SaleData.items data)
       (SaleData.customerId data) (SaleData.total data)
       (or_field (SaleData.amountPaid data) (SaleData.amountPaid (Sale.data item)))
       (SaleData.status data) (SaleData.userId data)
       (or_field (SaleData.userName data) (SaleData.userName (Sale.data item)))
       (or_field (SaleData.payments data) (SaleData.payments (Sale.data item)))
       (or_field (SaleData.usageLogged data) (SaleData.usageLogged (Sale.data item)))).

(** [handleUpdateSale]: [updateDocument('sales', id, data, setSales, ...)]. *)
Definition handleUpdateSale (updateDoc : Remote unit) (sale : Sale.t)
  (app : AppState) : AppState :=
  snd (runAsyncOperation
         match updateDoc with
         | Resolves _ =>
             Resolves (tt, setSales
                             (map (fun item =>
                                     if (Sale.id item =? Sale.id sale)%string
                                     then merge_sale item (Sale.data sale)
                                     else item)))
         | Rejects => Rejects
         end
         "Sale updated successfully." app).

(** The inventory id a sale line refers to; [None] is [undefined]. *)
Definition trueId (item : SaleItem.t) : option string :=
  if String.prefix "simple-" (SaleItem.itemId item)
  then nth_error (split_on "-" (SaleItem.itemId item)) 1
  else Some (SaleItem.itemId item).

(** The loop of [handleAddSale].  [snapshot] is the [inventory] the
    callback closed over; [updateDoc i] is the outcome of the update made
    for the line at position [i]. *)
Fixpoint stockUpdates (snapshot : list InventoryDoc) (updateDoc : nat -> Remote unit)
  (i : nat) (items : list SaleItem.t) (app : AppState) : AppState :=
  match items with
  | [] => app
  | item :: rest =>
      let app' :=
        match find (fun d => match trueId item with
                             | Some t => (InventoryItem.id (doc d) =? t)%string
                             | None => false
                             end) snapshot with
        | Some invItem =>
            updateInventoryQuantity (updateDoc i) (InventoryItem.id (doc invItem))
              (InventoryItem.quantity (doc invItem) - SaleItem.quantity item)%num
              ("Stock updated for " ++ SaleItem.name item) app
        | None => app
        end in
      stockUpdates snapshot updateDoc (S i) rest app'
  end.

Definition handleAddSale (addDoc : Remote string) (updateDoc : nat -> Remote unit)
  (saleData : SaleData.t) (app : AppState) : AppState :=
  let (result, app1) :=
    createSaleDocument addDoc saleData "Sale created successfully." app in
  match result with
  | Some _ => stockUpdates (inventory app) updateDoc 0 (SaleData.items saleData) app1
  | None => app1
  end.

(** The [onCreateSale] prop the shell gives the calculator, and
    [clearQuote]. *)
Definition onCreateSale (items : list SaleItem.t) (app : AppState) : AppState :=
  setActiveView "Sales" (setQuoteForSale items app).

Definition clearQuote (app : AppState) : AppState := setQuoteForSale [] app.

(** What the shell does with an effect of a calculator handler. *)
Definition perform (app : AppState) (e : Effect) : AppState :=
  match e with
  | Toast message kind => addToast message kind app
  | CreateSale items => onCreateSale items app
  end.

(** The "Post Order" button, with the shell's callback, which returns. *)
Definition postOrder (st : State) (app : AppState) : State * AppState :=
  let o := handleCreateSaleClick (fun _ => Returns) st in
  (next o, fold_left perform (effects o) app).

(** *** The sales view *)

Definition totalQuote (app : AppState) : number :=
  fold_left (fun sum item => (sum + SaleItem.price item * SaleItem.quantity item)%num)
            (quoteForSale app) 0%num.

(** The effect on [quoteForSale]. *)
Definition quoteEffect (app : AppState) (sv : SalesState) : SalesState :=
  if (0 <? List.length (quoteForSale app))%nat
  then {| isAddSaleOpen := true; customerId := customerId sv;
          amountPaid := amountPaid sv;
          isPaymentModalOpen := isPaymentModalOpen sv;
          payingSale := payingSale sv; paymentAmount := paymentAmount sv;
          paymentNote := paymentNote sv |}
  else sv.

Definition newSaleData (currentUser : User.t) (saleDate paymentId paymentDate : string)
  (sv : SalesState) (app : AppState) : SaleData.t :=
  {| SaleData.date := saleDate;
     SaleData.items := quoteForSale app;
     SaleData.customerId := customerId sv;
     SaleData.total := totalQuote app;
     SaleData.amountPaid := Some (amountPaid sv);
     SaleData.status :=
       if (amountPaid sv >=? totalQuote app)%num then Paid
       else if (amountPaid sv >? 0)%num then PartiallyPaid
       else Unpaid;
     SaleData.userId := User.id currentUser;
     SaleData.userName := Some (User.username currentUser);
     SaleData.payments :=
       Some (if (amountPaid sv >? 0)%num
             then [Payment.make paymentId paymentDate (amountPaid sv)
                                (User.username currentUser) (Some "Initial payment")]
             else []);
     SaleData.usageLogged := None |}.

Definition handleCreateSale (currentUser : User.t)
  (saleDate paymentId paymentDate : string)
  (addDoc : Remote string) (updateDoc : nat -> Remote unit)
  (sv : SalesState) (app : AppState) : SalesState * AppState :=
  if (customerId sv =? "")%string then (sv, app)
  else
    let saleData := newSaleData currentUser saleDate paymentId paymentDate sv app in
    let app1 := handleAddSale addDoc updateDoc saleData app in
    ({| isAddSaleOpen := false; customerId := ""; amountPaid := 0%num;
        isPaymentModalOpen := isPaymentModalOpen sv;
        payingSale := payingSale sv; paymentAmount := paymentAmount sv;
        paymentNote := paymentNote sv |},
     clearQuote app1).

Definition paid_so_far (sale : Sale.t) : number :=
  match SaleData.amountPaid (Sale.data sale) with
  | Some v => (v || 0)%num
  | None => 0%num
  end.

Definition handleOpenPayment (sale : Sale.t) (sv : SalesState) : SalesState :=
  {| isAddSaleOpen := isAddSaleOpen sv; customerId := customerId sv;
     amountPaid := amountPaid sv;
     isPaymentModalOpen := true;
     payingSale := Some sale;
     paymentAmount := (SaleData.total (Sale.data sale) - paid_so_far sale)%num;
     paymentNote := "" |}.

Definition recordedSale (currentUser : User.t) (paymentId paymentDate : string)
  (sv : SalesState) (sale : Sale.t) : Sale.t :=
  let newAmountPaid := (paid_so_far sale + paymentAmount sv)%num in
  let newPayment :=
    Payment.make paymentId paymentDate (paymentAmount sv)
                 (User.username currentUser) (Some (paymentNote sv)) in
  let d := Sale.data sale in
  Sale.make (Sale.id sale)
    (SaleData.make (SaleData.date d) (SaleData.items d) (SaleData.customerId d)
       (SaleData.total d) (Some newAmountPaid)
       (if (newAmountPaid >=? SaleData.total d)%num then Paid else PartiallyPaid)
       (SaleData.userId d) (SaleData.userName d)
       (Some (match SaleData.payments d with
              | Some l => l
              | None => []
              end ++ [newPayment])%list)
       (SaleData.usageLogged d)).

Definition handleRecordPayment (currentUser : User.t) (paymentId paymentDate : string)
  (updateDoc : Remote unit) (sv : SalesState) (app : AppState)
  : SalesState * AppState :=
  match payingSale sv with
  | None => (sv, app)
  | Some sale =>
      if (paymentAmount sv <=? 0)%num then (sv, app)
      else
        let updatedSale := recordedSale currentUser paymentId paymentDate sv sale in
        let app1 := handleUpdateSale updateDoc updatedSale app in
        ({| isAddSaleOpen := isAddSaleOpen sv; customerId := customerId sv;
            amountPaid := amountPaid sv;
            isPaymentModalOpen := false;
            payingSale := None;
            paymentAmount := paymentAmount sv;
            paymentNote := paymentNote sv |},
         addToast ("Payment of " ++ formatUGX (paymentAmount sv)
                     ++ " recorded for Invoice #" ++ substring 0 8 (Sale.id sale))
                  "success" app1)
  end.

(** The sum of the amounts of a list of payments. *)
Definition payments_total (l : list Payment.t) : number :=
  fold_right (fun pay acc => (Payment.amount pay + acc)%num) 0%num l.

End Shell.

(** Sample shell data. *)

Definition clerk : User.t := User.make "U-1" "amina" "amina@example.org" user.

Definition sample_app : AppState :=
  {| activeView := "Calculator";
     inventory := sample_inventory;
     sales := [];
     quoteForSale := [];
     toasts := [];
     operationLoading := false |}.

Definition sample_sales_view : SalesState :=
  {| isAddSaleOpen := false; customerId := ""; amountPaid := 0%num;
     isPaymentModalOpen := false; payingSale := None; paymentAmount := 0%num;
     paymentNote := "" |}.

Definition with_customer (customer : string) (paid : number) (sv : SalesState)
  : SalesState :=
  {| isAddSaleOpen := isAddSaleOpen sv; customerId := customer; amountPaid := paid;
     isPaymentModalOpen := isPaymentModalOpen sv; payingSale := payingSale sv;
     paymentAmount := paymentAmount sv; paymentNote := paymentNote sv |}.

(** A product whose document id has no hyphen, as the store generates
    them. *)
Definition mug : InventoryItem.t :=
  InventoryItem.make "k3Jx9QpLm2" "Mug" "Gifts" (Fin 20) (Fin 15000)
                     (Some (Fin 12000)) None None None None None.

Definition mug_app : AppState :=
  {| activeView := "Sales";
     inventory := [{| doc := mug; isConsumable := Some false |};
                   {| doc := sticker; isConsumable := Some false |}];
     sales := [];
     quoteForSale := [SaleItem.make "simple-k3Jx9QpLm2-1700000000000" "Mug" (Fin 2)
                                    (Fin 15000);
                      SaleItem.make "simple-k3Jx9QpLm2-1700000000500" "Mug" (Fin 3)
                                    (Fin 14000)];
     toasts := [];
     operationLoading := false |}.

(** A stored sale of 72000 with 20000 paid at creation. *)
Definition open_sale : Sale.t :=
  Sale.make "S-1abcdefgh"
    (newSaleData clerk "2024-01-01" "pay-1" "2024-01-01"
       (with_customer "C-1" (Fin 20000) sample_sales_view) mug_app).

Definition sales_app : AppState :=
  {| activeView := "Sales"; inventory := []; sales := [open_sale];
     quoteForSale := []; toasts := []; operationLoading := false |}.

(** * Properties *)

(** ** Numbers *)

Lemma Qltb_true (a b : Q) : Num.Qltb a b = true <-> a < b.
Proof.
  unfold Num.Qltb. rewrite negb_true_iff, <- not_true_iff_false, Qle_bool_iff.
  split; [apply Qnot_le_lt | apply Qlt_not_le].
Qed.

Lemma Qltb_false (a b : Q) : Num.Qltb a b = false <-> b <= a.
Proof.
  unfold Num.Qltb. rewrite negb_false_iff. apply Qle_bool_iff.
Qed.

Lemma Qle_bool_false (a b : Q) : Qle_bool a b = false <-> b < a.
Proof.
  rewrite <- not_true_iff_false, Qle_bool_iff.
  split; [apply Qnot_le_lt | apply Qlt_not_le].
Qed.

Lemma Qeq_bool_false (a b : Q) : Qeq_bool a b = false <-> ~ a == b.
Proof.
  rewrite <- not_true_iff_false, Qeq_bool_iff. reflexivity.
Qed.

Lemma Qsign_spec (a : Q) :
  match Num.Qsign a with
  | Eq => a == 0
  | Lt => a < 0
  | Gt => 0 < a
  end.
Proof.
  unfold Num.Qsign, Qeq, Qlt. simpl.
  destruct (Z.compare_spec (Qnum a) 0); lia.
Qed.

(** Turns the boolean comparisons on rationals into propositions. *)
Ltac qprop :=
  repeat match goal with
    | H : Num.Qltb _ _ = true |- _ => apply Qltb_true in H
    | H : Num.Qltb _ _ = false |- _ => apply Qltb_false in H
    | H : Qle_bool _ _ = true |- _ => apply Qle_bool_iff in H
    | H : Qle_bool _ _ = false |- _ => apply Qle_bool_false in H
    | H : Qeq_bool _ _ = true |- _ => apply Qeq_bool_iff in H
    | H : Qeq_bool _ _ = false |- _ => apply Qeq_bool_false in H
    | |- Num.Qltb _ _ = true => apply Qltb_true
    | |- Num.Qltb _ _ = false => apply Qltb_false
    | |- Qle_bool _ _ = true => apply Qle_bool_iff
    | |- Qle_bool _ _ = false => apply Qle_bool_false
    | |- Qeq_bool _ _ = true => apply Qeq_bool_iff
    | |- Qeq_bool _ _ = false => apply Qeq_bool_false
    end.

(** Splits on the sign of every rational whose sign a goal inspects. *)
Ltac qsign :=
  repeat match goal with
    | |- context [Num.Qsign ?a] =>
        let H := fresh "Hs" in
        pose proof (Qsign_spec a) as H; destruct (Num.Qsign a)
    | H0 : context [Num.Qsign ?a] |- _ =>
        let H := fresh "Hs" in
        pose proof (Qsign_spec a) as H; destruct (Num.Qsign a)
    end.

Lemma truthy_or_else (x d : number) :
  Num.truthy d = true -> Num.truthy (x || d)%num = true.
Proof.
  intros Hd. unfold Num.or_else. destruct (Num.truthy x) eqn:E; assumption.
Qed.

Lemma or_else_nan (d : number) : (NaN || d)%num = d.
Proof. reflexivity. Qed.

Lemma or_else_truthy (x d : number) : Num.truthy x = true -> (x || d)%num = x.
Proof. intros H. unfold Num.or_else. rewrite H. reflexivity. Qed.

Lemma eq_refl_not_nan (x : number) : x <> NaN -> x =n= x.
Proof. destruct x; simpl; intros H; try reflexivity; try exact I. congruence. Qed.

(** ** Unit conversion *)

Lemma factor_positive (u : Unit) :
  exists f, CONVERSION_TO_METER u = Fin f /\ 0 < f.
Proof.
  destruct u; simpl; eexists; (split; [reflexivity | reflexivity]).
Qed.

(** C3. Converting a length to meters and back gives the length again, for
    each of the four units: both with the division by the unit's factor
    that the specification calls [fromMeters] and with the expressions the
    converted-dimensions display evaluates.  The identity is exact on
    rationals; only [NaN] is not equal to itself. *)
Theorem conversion_round_trip (x : number) (u : Unit) :
  x <> NaN ->
  fromMeters_spec (toMeters x u) u =n= x /\ converted (toMeters x u) u =n= x.
Proof.
  intros Hx.
  destruct x as [| |a|]; [congruence | | |];
    destruct u; unfold fromMeters_spec, converted, toMeters; simpl;
    split; try exact I; qsign; simpl; try field; try lra;
    try (exfalso; revert Hs; unfold Qeq; simpl; lia).
Qed.

(** ** Dimensional pricing *)

(** A quantity field never holds zero or [NaN]: it starts at 1, is reset to
    1, and is otherwise written as [parseInt(text) || 1]. *)
Lemma quantity_fields_truthy {rt : Runtime} (value : string) (st : State) :
  Num.truthy (Dim.dimQuantity (dim (onDimQuantityChange value st))) = true
  /\ Num.truthy (Simple.simpleQuantity (simple_form (onSimpleQuantityChange value st)))
     = true.
Proof.
  split; simpl; apply truthy_or_else; reflexivity.
Qed.

Lemma truthy_finite_nonzero (x : number) (q : Q) :
  Num.truthy x = true -> x = Fin q -> ~ q == 0.
Proof.
  intros Ht ->. simpl in Ht. apply negb_true_iff in Ht. qprop. exact Ht.
Qed.

Lemma ltb_zero_not_leb (t : number) : (0 <? t)%num = true -> (t <=? 0)%num = false.
Proof.
  destruct t as [| |a|]; simpl; try discriminate; try reflexivity.
  intros H. qprop. exact H.
Qed.

Lemma div_mul_cancel (t : number) (q : Q) :
  (0 <? t)%num = true -> ~ q == 0 -> (t / Fin q * Fin q)%num =n= t.
Proof.
  intros Ht Hq.
  destruct t as [| |a|]; simpl in *; try discriminate;
    unfold Num.scale_inf; qsign; simpl; try tauto; try exact I;
    unfold Num.scale_inf; qsign; simpl; try exact I; try lra; try (field; exact Hq).
Qed.

Lemma eq_Fin_trans (x : number) (a b : Q) : x =n= Fin a -> a == b -> x =n= Fin b.
Proof.
  destruct x; simpl; try tauto. intros H1 H2. rewrite H1. exact H2.
Qed.



Lemma conversion_round_trip_witness :
  fromMeters_spec (toMeters (Fin 12) unit_in) unit_in =n= Fin 12
  /\ converted (toMeters (Fin 12) unit_in) unit_in =n= Fin 12.
Proof.
  apply (@conversion_round_trip (Fin 12) unit_in). discriminate.
Defined.

(** ** Film presets *)

Lemma preset_click_selects (st : State) :
  isDTF st = true ->
  Dim.dtfPreset (dim (handlePresetClick A4 st)) = Some DtfA4
  /\ Dim.dtfPreset (dim (handlePresetClick A3 st)) = Some DtfA3.
Proof.
  intros H. unfold handlePresetClick. rewrite H. split; reflexivity.
Qed.

(** C4. On the film tab with a preset selected, the computed total is the
    preset's fixed amount (5000 for A4, 10000 for A3) times the quantity
    plus the extra fee, and it does not change when the length field or its
    unit is changed. *)
Theorem film_preset_total (p : Props) (st : State) (preset : DtfPreset) :
  isDTF st = true ->
  Dim.dtfPreset (dim st) = Some preset ->
  totalDimPrice p st
  = (Fin (match preset with DtfA4 => 5000 | DtfA3 => 10000 end)
     * Dim.dimQuantity (dim st) + extraAmount st)%num
  /\ forall (l : number) (u : Unit),
      totalDimPrice p (with_dim st (setLengthUnit u (setLength l (dim st))))
      = totalDimPrice p st.
Proof.
  intros Htab Hpre. unfold totalDimPrice.
  assert (Htab' : forall d, isDTF (with_dim st d) = isDTF st) by reflexivity.
  split.
  - rewrite Htab, Hpre. destruct preset; reflexivity.
  - intros l u. rewrite Htab', Htab. simpl. rewrite Hpre. reflexivity.
Qed.

(** Preset A4, three copies, no extra fee: 15000, whatever the length. *)
Lemma film_preset_A_three_copies (p : Props) (st : State) :
  isDTF st = true ->
  Dim.dtfPreset (dim st) = Some DtfA4 ->
  Dim.dimQuantity (dim st) = Fin 3 ->
  extraAmount st = 0%num ->
  totalDimPrice p st = Fin 15000.
Proof.
  intros Htab Hpre Hq He.
  unfold totalDimPrice. rewrite Htab, Hpre, Hq, He. reflexivity.
Qed.

Lemma film_preset_total_witness :
  totalDimPrice sample_props (film_preset_state (Fin (297 # 10))) = Fin 15000
  /\ totalDimPrice sample_props
       (with_dim (film_preset_state (Fin (297 # 10)))
          (setLengthUnit unit_m
             (setLength (Fin 2) (dim (film_preset_state (Fin (297 # 10)))))))
     = Fin 15000.
Proof.
  destruct (@film_preset_total sample_props (film_preset_state (Fin (297 # 10)))
              DtfA4 eq_refl eq_refl) as [H1 H2].
  split.
  - rewrite H1. reflexivity.
  - rewrite H2, H1. reflexivity.
Defined.

(** ** Catalog products *)

Lemma floor_of_absent (product : InventoryItem.t) :
  InventoryItem.minPrice product = None -> floor_of product = 0%num.
Proof. intros H. unfold floor_of. rewrite H. reflexivity. Qed.

(** Below the stored minimum is below the effective floor [minPrice || 0]. *)
Lemma below_min_below_floor (product : InventoryItem.t) (v x : number) :
  InventoryItem.minPrice product = Some v ->
  (x <? v)%num = true -> (x <? floor_of product)%num = true.
Proof.
  intros Hm Hlt. unfold floor_of, Num.or_else. rewrite Hm.
  destruct (Num.truthy v) eqn:Ht; [exact Hlt |].
  destruct v as [| |a|], x as [| |b|]; simpl in *;
    try discriminate; try reflexivity.
  apply negb_false_iff in Ht. qprop. lra.
Qed.

(** C5. The catalog append checks, in this order, that a product is
    selected, that the quantity is above zero and that the negotiated price
    is not below the product's floor; each failure raises its own error
    toast, the last one quoting the floor amount.  Whenever the negotiated
    price is below the floor of the selected product the state, and with it
    the quote list, is returned as it was. *)
Theorem simple_append_validation {rt : Runtime} (now : Z) (st : State) :
  (Simple.selectedProduct (simple_form st) = None ->
   handleAddSimpleToQuote now st
   = reject st "Please select a product from the filtered list.")
  /\ (forall product : InventoryItem.t,
        Simple.selectedProduct (simple_form st) = Some product ->
        (Simple.simpleQuantity (simple_form st) <=? 0)%num = true ->
        handleAddSimpleToQuote now st = reject st "Quantity must be greater than 0.")
  /\ (forall product : InventoryItem.t,
        Simple.selectedProduct (simple_form st) = Some product ->
        (Simple.simpleQuantity (simple_form st) <=? 0)%num = false ->
        (Simple.negotiatedPrice (simple_form st) <? floor_of product)%num = true ->
        handleAddSimpleToQuote now st
        = reject st ("Price cannot be below the minimum discount price of "
                       ++ formatUGX (floor_of product) ++ "."))
  /\ (forall product : InventoryItem.t,
        Simple.selectedProduct (simple_form st) = Some product ->
        (Simple.negotiatedPrice (simple_form st) <? floor_of product)%num = true ->
        next (handleAddSimpleToQuote now st) = st
        /\ quoteItems (next (handleAddSimpleToQuote now st)) = quoteItems st
        /\ exists message : string,
            effects (handleAddSimpleToQuote now st) = [Toast message "error"]).
Proof.
  unfold handleAddSimpleToQuote. split; [| split; [| split]].
  - intros Hsel. rewrite Hsel. reflexivity.
  - intros product Hsel Hq. rewrite Hsel, Hq. reflexivity.
  - intros product Hsel Hq Hp. rewrite Hsel, Hq, Hp. reflexivity.
  - intros product Hsel Hp. rewrite Hsel, Hp.
    destruct (_ <=? _)%num; (split; [| split]);
      try reflexivity; eexists; reflexivity.
Qed.

(** Preferred price 10000, floor 8000, negotiated 7000: refused, and the
    quote keeps its one item. *)
Lemma simple_append_validation_witness :
  let st := catalog_state [delivery] tshirt (Fin 7000) 1%num 0%num in
  handleAddSimpleToQuote (rt := Reference.runtime) 0 st
  = reject st "Price cannot be below the minimum discount price of 8,000 UGX."
  /\ quoteItems (next (handleAddSimpleToQuote (rt := Reference.runtime) 0 st))
     = [delivery]
  /\ handleAddSimpleToQuote (rt := Reference.runtime) 0
       (catalog_state [delivery] tshirt (Fin 7000) (Fin (-2)) 0%num)
     = reject (catalog_state [delivery] tshirt (Fin 7000) (Fin (-2)) 0%num)
         "Quantity must be greater than 0.".
Proof.
  intros st.
  destruct (@simple_append_validation Reference.runtime 0 st) as [_ [_ [H3 H4]]].
  destruct (@simple_append_validation Reference.runtime 0
              (catalog_state [delivery] tshirt (Fin 7000) (Fin (-2)) 0%num))
    as [_ [H2 _]].
  split; [| split].
  - exact (H3 tshirt eq_refl eq_refl eq_refl).
  - exact (proj1 (proj2 (H4 tshirt eq_refl eq_refl))).
  - exact (H2 tshirt eq_refl eq_refl).
Defined.

Lemma ltb_leb_trans (x y : number) :
  (x <? 0)%num = true -> (0 <=? y)%num = true -> (x <? y)%num = true.
Proof.
  destruct x as [| |a|], y as [| |b|]; simpl; try discriminate; try reflexivity.
  intros H1 H2. qprop. lra.
Qed.

Lemma floor_not_negative (product : InventoryItem.t) :
  (forall v, InventoryItem.minPrice product = Some v -> (v <? 0)%num = false) ->
  (0 <=? floor_of product)%num = true.
Proof.
  intros H. unfold floor_of.
  destruct (InventoryItem.minPrice product) as [v |]; [| reflexivity].
  specialize (H v eq_refl). unfold Num.or_else.
  destruct (Num.truthy v) eqn:Ht; [| reflexivity].
  destruct v as [| |a|]; simpl in *; try discriminate; try reflexivity.
  qprop. exact H.
Qed.

(** C10, as the code has it.  A product without a stored minimum price has
    floor 0 and the floor check then lets every negotiated price of zero or
    more through; a negative negotiated price is refused for every product
    whose stored minimum is not itself negative. *)
Theorem absent_floor_is_zero {rt : Runtime} (now : Z) (st : State)
  (product : InventoryItem.t) :
  Simple.selectedProduct (simple_form st) = Some product ->
  (InventoryItem.minPrice product = None -> floor_of product = 0%num)
  /\ (InventoryItem.minPrice product = None ->
      (Simple.simpleQuantity (simple_form st) <=? 0)%num = false ->
      (0 <=? Simple.negotiatedPrice (simple_form st))%num = true ->
      exists item : SaleItem.t,
        appended st (handleAddSimpleToQuote now st) item
        /\ SaleItem.price item
           = (Simple.negotiatedPrice (simple_form st)
              + extraAmount st / Simple.simpleQuantity (simple_form st))%num)
  /\ ((forall v, InventoryItem.minPrice product = Some v -> (v <? 0)%num = false) ->
      (Simple.negotiatedPrice (simple_form st) <? 0)%num = true ->
      rejected st (handleAddSimpleToQuote now st)).
Proof.
  intros Hsel. split; [apply floor_of_absent |]. split.
  - intros Hmin Hqty Hneg. unfold handleAddSimpleToQuote, appended.
    rewrite Hsel, Hqty, (floor_of_absent _ Hmin).
    assert (Hlt : (Simple.negotiatedPrice (simple_form st) <? 0)%num = false).
    { destruct (Simple.negotiatedPrice (simple_form st)) as [| |a|];
        simpl in *; try discriminate; try reflexivity. qprop. exact Hneg. }
    rewrite Hlt. eexists. split; reflexivity.
  - intros Hmin Hneg. unfold handleAddSimpleToQuote, rejected.
    rewrite Hsel, (ltb_leb_trans _ _ Hneg (floor_not_negative _ Hmin)).
    destruct (_ <=? _)%num; (split; [reflexivity | eexists; reflexivity]).
Qed.

Lemma absent_floor_is_zero_witness :
  floor_of sticker = 0%num
  /\ (exists item : SaleItem.t,
        appended (catalog_state [] sticker 0%num 1%num 0%num)
          (handleAddSimpleToQuote (rt := Reference.runtime) 0
             (catalog_state [] sticker 0%num 1%num 0%num)) item)
  /\ rejected (catalog_state [] tshirt (Fin (-50)) 1%num 0%num)
       (handleAddSimpleToQuote (rt := Reference.runtime) 0
          (catalog_state [] tshirt (Fin (-50)) 1%num 0%num)).
Proof.
  destruct (@absent_floor_is_zero Reference.runtime 0
              (catalog_state [] sticker 0%num 1%num 0%num) sticker eq_refl)
    as [H1 [H2 _]].
  destruct (@absent_floor_is_zero Reference.runtime 0
              (catalog_state [] tshirt (Fin (-50)) 1%num 0%num) tshirt eq_refl)
    as [_ [_ H3]].
  split; [exact (H1 eq_refl) |]. split.
  - destruct (H2 eq_refl eq_refl eq_refl) as [item [Ha _]]. exists item. exact Ha.
  - apply H3; [| reflexivity].
    intros v Hv. injection Hv as <-. reflexivity.
Defined.

(** A product stored with minimum -100 takes a negotiated price of -50: the
    item is appended with a negative unit price. *)
Lemma negative_floor_admits_negative_price :
  let st := catalog_state [] clearance (Fin (-50)) 1%num 0%num in
  (Simple.negotiatedPrice (simple_form st) <? 0)%num = true
  /\ ~ rejected st (handleAddSimpleToQuote (rt := Reference.runtime) 0 st)
  /\ map (fun item => (SaleItem.price item <? 0)%num)
         (quoteItems (next (handleAddSimpleToQuote (rt := Reference.runtime) 0 st)))
     = [true].
Proof.
  intros st. split; [reflexivity |]. split; [| reflexivity].
  intros [H _]. apply (f_equal quoteItems) in H. discriminate H.
Qed.

(** ** Failure reporting *)

(** C9, as the code has it.  No append handler throws.  A selected roll id
    that passes the three checks of the dimensional append but is not among
    the stock items makes the handler return normally with the state as it
    was and nothing reported. *)
Theorem append_never_throws {rt : Runtime} (now : Z) (p : Props) (st : State) :
  completion (handleAddDimToQuote now p st) = Returns
  /\ completion (handleAddSimpleToQuote now st) = Returns
  /\ completion (handleAddManualToQuote now st) = Returns
  /\ (Dim.selectedStockItem (dim st) = ""
      \/ (isDTF st = false /\ Dim.selectedTier (dim st) = "")
      \/ (totalDimPrice p st <=? 0)%num = true ->
      rejected st (handleAddDimToQuote now p st))
  /\ (Dim.selectedStockItem (dim st) <> "" ->
      (isDTF st = true \/ Dim.selectedTier (dim st) <> "") ->
      (totalDimPrice p st <=? 0)%num = false ->
      find_stock p (Dim.selectedStockItem (dim st)) = None ->
      handleAddDimToQuote now p st
      = {| next := st; effects := []; completion := Returns |}).
Proof.
  split; [| split; [| split; [| split]]].
  - unfold handleAddDimToQuote, reject.
    repeat match goal with
           | |- context [if ?b then _ else _] => destruct b
           | |- context [match find_stock ?p ?s with _ => _ end] =>
               destruct (find_stock p s)
           end; reflexivity.
  - unfold handleAddSimpleToQuote, reject.
    destruct (Simple.selectedProduct (simple_form st)); [| reflexivity].
    repeat match goal with
           | |- context [if ?b then _ else _] => destruct b
           end; reflexivity.
  - unfold handleAddManualToQuote, reject.
    repeat match goal with
           | |- context [if ?b then _ else _] => destruct b
           end; reflexivity.
  - intros Hfail. unfold handleAddDimToQuote, rejected.
    destruct (Dim.selectedStockItem (dim st) =? "") eqn:Eroll; simpl;
      [split; [reflexivity | eexists; reflexivity] |].
    destruct (negb (isDTF st) && (Dim.selectedTier (dim st) =? "")) eqn:Etier; simpl;
      [split; [reflexivity | eexists; reflexivity] |].
    destruct (totalDimPrice p st <=? 0)%num eqn:Etotal; simpl;
      [split; [reflexivity | eexists; reflexivity] |].
    exfalso. destruct Hfail as [H | [[Htab H] | H]].
    + apply String.eqb_eq in H. congruence.
    + apply String.eqb_eq in H. rewrite Htab, H in Etier. discriminate.
    + discriminate.
  - intros Hroll Htier Htotal Hfind. unfold handleAddDimToQuote.
    apply String.eqb_neq in Hroll. rewrite Hroll, Htotal, Hfind.
    destruct Htier as [Htab | Htier].
    + rewrite Htab. reflexivity.
    + apply String.eqb_neq in Htier. rewrite Htier, andb_false_r. reflexivity.
Qed.

Lemma append_never_throws_witness :
  rejected initial_state
    (handleAddDimToQuote (rt := Reference.runtime) 0 sample_props initial_state)
  /\ handleAddDimToQuote (rt := Reference.runtime) 0 sample_props vanished_roll_state
     = {| next := vanished_roll_state; effects := []; completion := Returns |}.
Proof.
  destruct (@append_never_throws Reference.runtime 0 sample_props initial_state)
    as [_ [_ [_ [H1 _]]]].
  destruct (@append_never_throws Reference.runtime 0 sample_props vanished_roll_state)
    as [_ [_ [_ [_ H2]]]].
  split.
  - apply H1. left. reflexivity.
  - apply H2; [discriminate | left; reflexivity | reflexivity | reflexivity].
Defined.

(** The roll "SKU-9" is selected, preset A4 prices the line at 5000, and no
    stock item has that id: the handler completes normally, reports
    nothing and appends nothing. *)
Lemma vanished_roll_is_silent :
  let o := handleAddDimToQuote (rt := Reference.runtime) 0 sample_props
             vanished_roll_state in
  Dim.selectedStockItem (dim vanished_roll_state) = "SKU-9"
  /\ totalDimPrice sample_props vanished_roll_state = Fin 5000
  /\ find_stock sample_props "SKU-9" = None
  /\ completion o = Returns
  /\ effects o = []
  /\ quoteItems (next o) = quoteItems vanished_roll_state.
Proof.
  repeat split.
Qed.

(** ** The quote list *)

Lemma same_refl (x : number) : Num.same x x.
Proof. destruct x; simpl; try exact I. reflexivity. Qed.

Lemma same_trans (x y z : number) : Num.same x y -> Num.same y z -> Num.same x z.
Proof.
  destruct x, y, z; simpl; try tauto. intros H1 H2. rewrite H1. exact H2.
Qed.

Lemma add_same_compat (x x' y y' : number) :
  Num.same x x' -> Num.same y y' -> Num.same (x + y)%num (x' + y')%num.
Proof.
  destruct x, x', y, y'; simpl; try tauto. intros H1 H2. rewrite H1, H2. reflexivity.
Qed.

Lemma add_same_assoc (x y z : number) :
  Num.same (x + y + z)%num (x + (y + z))%num.
Proof.
  destruct x, y, z; simpl; try exact I. ring.
Qed.

Lemma mul_same_comm (x y : number) : Num.same (x * y)%num (y * x)%num.
Proof.
  destruct x, y; simpl; try exact I; try apply same_refl. ring.
Qed.

Lemma add_zero_same (x : number) : Num.same (0 + x)%num x.
Proof. destruct x; simpl; try exact I. ring. Qed.

Lemma fold_total_same (items : list SaleItem.t) (acc : number) :
  Num.same
    (fold_left (fun acc item =>
                  (acc + SaleItem.price item * SaleItem.quantity item)%num) items acc)
    (acc + sum_quantity_times_price items)%num.
Proof.
  revert acc. induction items as [| item rest IH]; intros acc; simpl.
  - destruct acc; simpl; try exact I. ring.
  - eapply same_trans; [apply IH |].
    eapply same_trans; [apply add_same_assoc |].
    apply add_same_compat; [apply same_refl |].
    apply add_same_compat; [apply mul_same_comm | apply same_refl].
Qed.

Lemma total_is_sum (st : State) :
  Num.same (totalQuotePrice st) (sum_quantity_times_price (quoteItems st)).
Proof.
  unfold totalQuotePrice.
  eapply same_trans; [apply fold_total_same | apply add_zero_same].
Qed.

(** Filtering out an index below the starting offset keeps everything. *)
Lemma filter_from_keep {A : Type} (l : list A) (start n : nat) :
  (n < start)%nat ->
  filter_from (fun _ j => negb (j =? n)%nat) start l = l.
Proof.
  revert start. induction l as [| x r IH]; intros start Hn; [reflexivity |].
  cbn [filter_from].
  replace (start =? n)%nat with false by (symmetry; apply Nat.eqb_neq; lia).
  cbn [negb]. f_equal. apply IH. lia.
Qed.

(** Filtering out the index [i] positions after the offset drops exactly
    that position. *)
Lemma filter_from_drop {A : Type} (l : list A) (start i : nat) :
  filter_from (fun _ j => negb (j =? start + i)%nat) start l
  = (firstn i l ++ skipn (S i) l)%list.
Proof.
  revert start i. induction l as [| x r IH]; intros start i.
  - destruct i; reflexivity.
  - cbn [filter_from]. destruct i as [| i].
    + rewrite Nat.add_0_r, Nat.eqb_refl. cbn [negb firstn skipn app].
      apply filter_from_keep. lia.
    + replace (start =? start + S i)%nat with false
        by (symmetry; apply Nat.eqb_neq; lia).
      cbn [negb firstn skipn app]. f_equal.
      replace (start + S i)%nat with (S start + i)%nat by lia.
      apply IH.
Qed.

Lemma remove_quote_item_eq (index : nat) (st : State) :
  quoteItems (handleRemoveQuoteItem index st)
  = (firstn index (quoteItems st) ++ skipn (S index) (quoteItems st))%list.
Proof.
  unfold handleRemoveQuoteItem, Array_filter. simpl.
  apply (filter_from_drop (quoteItems st) 0 index).
Qed.

(** C6. Removing a valid index takes out exactly the item at that position
    (the items before it and the items after it stay, in order, and the
    list is one shorter); the total read from any state is the sum of
    quantity times unit price over the items then in the list, so after a
    removal it is the sum over the items that remain. *)
Theorem remove_and_total (st : State) (index : nat) :
  (index < List.length (quoteItems st))%nat ->
  quoteItems (handleRemoveQuoteItem index st)
  = (firstn index (quoteItems st) ++ skipn (S index) (quoteItems st))%list
  /\ List.length (quoteItems (handleRemoveQuoteItem index st))
     = (List.length (quoteItems st) - 1)%nat
  /\ (forall j : nat,
        nth_error (quoteItems (handleRemoveQuoteItem index st)) j
        = nth_error (quoteItems st) (if (j <? index)%nat then j else S j))
  /\ Num.same (totalQuotePrice st) (sum_quantity_times_price (quoteItems st))
  /\ Num.same (totalQuotePrice (handleRemoveQuoteItem index st))
       (sum_quantity_times_price
          (firstn index (quoteItems st) ++ skipn (S index) (quoteItems st))).
Proof.
  intros Hi. pose proof (remove_quote_item_eq index st) as Heq.
  split; [exact Heq |]. split; [| split; [| split]].
  - rewrite Heq, length_app, length_firstn, length_skipn. lia.
  - intros j. rewrite Heq. destruct (j <? index)%nat eqn:Hj.
    + apply Nat.ltb_lt in Hj.
      rewrite nth_error_app1 by (rewrite length_firstn; lia).
      rewrite nth_error_firstn.
      apply Nat.ltb_lt in Hj. rewrite Hj. reflexivity.
    + apply Nat.ltb_ge in Hj.
      rewrite nth_error_app2 by (rewrite length_firstn; lia).
      rewrite length_firstn, nth_error_skipn. f_equal. lia.
  - apply total_is_sum.
  - rewrite <- Heq. apply total_is_sum.
Qed.

Lemma remove_and_total_witness :
  let st := with_quote initial_state [poster; delivery; banner] in
  quoteItems (handleRemoveQuoteItem 1 st) = [poster; banner]
  /\ Num.same (totalQuotePrice st) (Fin 180000)
  /\ Num.same (totalQuotePrice (handleRemoveQuoteItem 1 st)) (Fin 160000).
Proof.
  intros st.
  destruct (@remove_and_total st 1%nat) as [H1 [_ [_ [H2 H3]]]];
    [simpl; lia |].
  split; [exact H1 |]. split.
  - eapply same_trans; [exact H2 | reflexivity].
  - eapply same_trans; [exact H3 | reflexivity].
Defined.

(** ** Guards on the price of an appended item *)

Lemma not_self_append {A : Type} (l : list A) (x : A) : l <> (l ++ [x])%list.
Proof.
  intros H. apply (f_equal (@List.length A)) in H.
  rewrite length_app in H. simpl in H. lia.
Qed.

Lemma not_leb_zero_positive (t : number) :
  (t <=? 0)%num = false -> t <> NaN -> (0 <? t)%num = true.
Proof.
  destruct t as [| |a|]; simpl; try discriminate; try reflexivity; try congruence.
  intros H _. qprop. exact H.
Qed.

Lemma div_positive (t : number) (q : Q) :
  (0 <? t)%num = true -> 0 < q -> (0 <? t / Fin q)%num = true.
Proof.
  intros Ht Hq. destruct t as [| |a|]; simpl in *; try discriminate;
    qsign; simpl; try reflexivity; try lra.
  qprop. apply Qlt_shift_div_l; lra.
Qed.

Lemma mul_positive_not_leb (x y : number) :
  (x <=? 0)%num = false -> (y <=? 0)%num = false -> (x * y <=? 0)%num = false.
Proof.
  destruct x as [| |a|], y as [| |b|]; simpl; try discriminate; try reflexivity;
    unfold Num.scale_inf; intros H1 H2; qprop; qsign; simpl;
    try reflexivity; try lra.
  qprop. nra.
Qed.

Lemma not_below_nonneg_floor (x f : number) :
  (0 <=? f)%num = true -> (x <? f)%num = false -> x <> NaN -> (0 <=? x)%num = true.
Proof.
  destruct x as [| |a|], f as [| |b|]; simpl; try discriminate; try reflexivity;
    try congruence.
  intros H1 H2 _. qprop. lra.
Qed.

Lemma add_div_nonneg (x e : number) (q : Q) :
  (0 <=? x)%num = true -> (0 <=? e)%num = true -> 0 < q ->
  (0 <=? x + e / Fin q)%num = true.
Proof.
  intros Hx He Hq.
  destruct x as [| |a|], e as [| |b|]; simpl in *; try discriminate;
    qsign; simpl; try reflexivity; try lra.
  qprop. assert (0 <= b / q) by (apply Qle_shift_div_l; lra). lra.
Qed.

(** C2, as the code has it.  The dimensional and film appends refuse a
    computed total of zero or less, and the manual append refuses a price
    times quantity of zero or less, each leaving the state as it was.  An
    item they append has a unit price above zero, given a finite positive
    quantity and a total that is a number in the dimensional handler, and
    a price that is a number in the manual one.  The catalog append checks
    the floor only: the item it appends has a unit price of zero or more
    when the stored minimum is not negative, the negotiated price is a
    number, the extra fee is zero or more and the quantity is finite. *)
Theorem append_price_guards {rt : Runtime} (now : Z) (p : Props) (st : State) :
  ((totalDimPrice p st <=? 0)%num = true ->
   rejected st (handleAddDimToQuote now p st))
  /\ (forall (item : SaleItem.t) (q : Q),
        appended st (handleAddDimToQuote now p st) item ->
        Dim.dimQuantity (dim st) = Fin q -> 0 < q ->
        totalDimPrice p st <> NaN ->
        (0 <? SaleItem.price item)%num = true)
  /\ ((totalManualPrice st <=? 0)%num = true ->
      rejected st (handleAddManualToQuote now st))
  /\ (forall item : SaleItem.t,
        appended st (handleAddManualToQuote now st) item ->
        SaleItem.price item <> NaN ->
        (0 <? SaleItem.price item)%num = true)
  /\ (forall (product : InventoryItem.t) (item : SaleItem.t) (q : Q),
        Simple.selectedProduct (simple_form st) = Some product ->
        appended st (handleAddSimpleToQuote now st) item ->
        (forall v, InventoryItem.minPrice product = Some v -> (v <? 0)%num = false) ->
        Simple.negotiatedPrice (simple_form st) <> NaN ->
        (0 <=? extraAmount st)%num = true ->
        Simple.simpleQuantity (simple_form st) = Fin q ->
        (0 <=? SaleItem.price item)%num = true).
Proof.
  split; [| split; [| split; [| split]]].
  - intros Htotal. unfold handleAddDimToQuote, rejected. rewrite Htotal.
    destruct (Dim.selectedStockItem (dim st) =? ""); simpl;
      [split; [reflexivity | eexists; reflexivity] |].
    destruct (negb (isDTF st) && (Dim.selectedTier (dim st) =? "")); simpl;
      split; try reflexivity; eexists; reflexivity.
  - intros item q Happ Hqty Hq Hnan. revert Happ.
    unfold handleAddDimToQuote, appended.
    destruct (Dim.selectedStockItem (dim st) =? ""); simpl;
      [intros H; destruct (@not_self_append _ _ _ H) |].
    destruct (negb (isDTF st) && (Dim.selectedTier (dim st) =? "")); simpl;
      [intros H; destruct (@not_self_append _ _ _ H) |].
    destruct (totalDimPrice p st <=? 0)%num eqn:Htotal; simpl;
      [intros H; destruct (@not_self_append _ _ _ H) |].
    destruct (find_stock p (Dim.selectedStockItem (dim st))); simpl;
      [| intros H; destruct (@not_self_append _ _ _ H)].
    intros H. apply app_inj_tail in H. destruct H as [_ H]. subst item. simpl.
    rewrite Hqty. apply div_positive; [| exact Hq].
    apply not_leb_zero_positive; assumption.
  - intros Htotal. unfold handleAddManualToQuote, rejected.
    destruct (trim (Manual.manualItemName (manual_form st)) =? ""); simpl;
      [split; [reflexivity | eexists; reflexivity] |].
    destruct (Manual.manualPrice (manual_form st) <=? 0)%num eqn:Hp; simpl;
      [split; [reflexivity | eexists; reflexivity] |].
    destruct (Manual.manualQuantity (manual_form st) <=? 0)%num eqn:Hq; simpl;
      [split; [reflexivity | eexists; reflexivity] |].
    unfold totalManualPrice in Htotal.
    rewrite (mul_positive_not_leb _ _ Hp Hq) in Htotal. discriminate.
  - intros item. unfold handleAddManualToQuote, appended.
    destruct (trim (Manual.manualItemName (manual_form st)) =? ""); simpl;
      [intros H; destruct (@not_self_append _ _ _ H) |].
    destruct (Manual.manualPrice (manual_form st) <=? 0)%num eqn:Hp; simpl;
      [intros H; destruct (@not_self_append _ _ _ H) |].
    destruct (Manual.manualQuantity (manual_form st) <=? 0)%num eqn:Hq; simpl;
      [intros H; destruct (@not_self_append _ _ _ H) |].
    intros H Hnan. apply app_inj_tail in H. destruct H as [_ H]. subst item.
    simpl in *. apply not_leb_zero_positive; assumption.
  - intros product item q Hsel Happ Hmin Hneg Hextra Hqty. revert Happ.
    unfold handleAddSimpleToQuote, appended. rewrite Hsel, Hqty.
    destruct (Fin q <=? 0)%num eqn:Hq; simpl;
      [intros H; destruct (@not_self_append _ _ _ H) |].
    destruct (Simple.negotiatedPrice (simple_form st) <? floor_of product)%num
      eqn:Hfloor; simpl; [intros H; destruct (@not_self_append _ _ _ H) |].
    intros H. apply app_inj_tail in H. destruct H as [_ H]. subst item. simpl.
    simpl in Hq. qprop.
    apply add_div_nonneg; [| exact Hextra | exact Hq].
    eapply not_below_nonneg_floor; [apply floor_not_negative, Hmin | exact Hfloor | exact Hneg].
Qed.

Lemma append_price_guards_witness :
  let dim_out := handleAddDimToQuote (rt := Reference.runtime) 7 sample_props
                   (select_roll "SKU-1" "T1" initial_state) in
  let man_out := handleAddManualToQuote (rt := Reference.runtime) 1
                   (manual_state " Delivery " (Fin 20000) 1%num) in
  let cat_out := handleAddSimpleToQuote (rt := Reference.runtime) 0
                   (catalog_state [] tshirt (Fin 9000) (Fin 2) (Fin 1000)) in
  rejected (select_roll "SKU-1" "" initial_state)
    (handleAddDimToQuote (rt := Reference.runtime) 0 sample_props
       (select_roll "SKU-1" "" initial_state))
  /\ (0 <? SaleItem.price (last (quoteItems (next dim_out)) delivery))%num = true
  /\ rejected (manual_state "Delivery" 0%num 1%num)
       (handleAddManualToQuote (rt := Reference.runtime) 0
          (manual_state "Delivery" 0%num 1%num))
  /\ (0 <? SaleItem.price (last (quoteItems (next man_out)) poster))%num = true
  /\ (0 <=? SaleItem.price (last (quoteItems (next cat_out)) poster))%num = true.
Proof.
  intros dim_out man_out cat_out.
  destruct (@append_price_guards Reference.runtime 0 sample_props
              (select_roll "SKU-1" "" initial_state)) as [H1 _].
  destruct (@append_price_guards Reference.runtime 7 sample_props
              (select_roll "SKU-1" "T1" initial_state)) as [_ [H2 _]].
  destruct (@append_price_guards Reference.runtime 0 sample_props
              (manual_state "Delivery" 0%num 1%num)) as [_ [_ [H3 _]]].
  destruct (@append_price_guards Reference.runtime 1 sample_props
              (manual_state " Delivery " (Fin 20000) 1%num)) as [_ [_ [_ [H4 _]]]].
  destruct (@append_price_guards Reference.runtime 0 sample_props
              (catalog_state [] tshirt (Fin 9000) (Fin 2) (Fin 1000)))
    as [_ [_ [_ [_ H5]]]].
  split; [apply H1; reflexivity |].
  split; [apply (H2 _ 1); [reflexivity | reflexivity | reflexivity | discriminate] |].
  split; [apply H3; reflexivity |].
  split; [apply H4; [reflexivity | discriminate] |].
  apply (H5 tshirt _ 2); try reflexivity; try discriminate.
  intros v Hv. injection Hv as <-. reflexivity.
Defined.

(** Appends that the guards let through.  (a) A catalog product without a
    minimum, negotiated down to 0: the aggregate price is 0 and the item is
    appended.  (b) The same product at 1000 with an extra fee of -5000
    typed in: unit price -4000.  (c) The area form with length -100 and
    quantity -1 typed in: the total is 30000 and the unit price -30000.
    (d) The manual form with letters typed into the price: the price is
    [NaN], it is not [<= 0], and the item is appended. *)
Lemma append_guards_counterexample :
  let free := catalog_state [] sticker 0%num 1%num 0%num in
  let fee := onExtraAmountChange (rt := Reference.runtime) "-5,000"
               (catalog_state [] sticker (Fin 1000) 1%num 0%num) in
  let area := onDimQuantityChange (rt := Reference.runtime) "-1"
                (onLengthChange (rt := Reference.runtime) "-100"
                   (select_roll "SKU-1" "T1" initial_state)) in
  let typed := onManualPriceChange (rt := Reference.runtime) "abc"
                 (manual_state "Delivery" 0%num 1%num) in
  ((totalSimplePrice free <=? 0)%num = true
   /\ map (fun item => Num.eqb (SaleItem.price item) 0%num)
         (quoteItems (next (handleAddSimpleToQuote (rt := Reference.runtime) 0 free)))
      = [true])
  /\ map (fun item => (SaleItem.price item <? 0)%num)
         (quoteItems (next (handleAddSimpleToQuote (rt := Reference.runtime) 0 fee)))
     = [true]
  /\ (Num.eqb (totalDimPrice sample_props area) (Fin 30000) = true
      /\ map (fun item => Num.eqb (SaleItem.price item) (Fin (-30000)))
            (quoteItems (next (handleAddDimToQuote (rt := Reference.runtime) 0
                                 sample_props area)))
         = [true])
  /\ map SaleItem.price
         (quoteItems (next (handleAddManualToQuote (rt := Reference.runtime) 0 typed)))
     = [Fin 30000; NaN].
Proof.
  repeat split.
Qed.

(** ** Dimension input *)

Lemma zero_length_total (fl fw w m k : Q) (e : number) :
  (e <=? 0)%num = true ->
  (Fin 0 * Fin fl * Fin 100 * (Fin w * Fin fw * Fin 100) * Fin m * Fin k + e
   <=? 0)%num = true
  /\ (Fin w * Fin fw * Fin 100 * (Fin 0 * Fin fl * Fin 100) * Fin m * Fin k + e
      <=? 0)%num = true
  /\ (Fin 0 * Fin fl * Fin 15000 * Fin k + e <=? 0)%num = true.
Proof.
  intros He. destruct e as [| |b|]; simpl in *; try discriminate;
    repeat split; try reflexivity; qprop; nra.
Qed.

Lemma converted_zero (f : Q) (u : Unit) : converted (Fin 0 * Fin f)%num u =n= 0%num.
Proof.
  destruct u; simpl; qsign; simpl; try ring; try field;
    try (exfalso; revert Hs; unfold Qeq, Qlt; simpl; lia).
Qed.

(** C8, as the code has it.  Text that does not parse as a number is stored
    as 0 in the length or width field: every converted dimension shown for
    it is 0 and, when the other factors are finite and the extra fee is not
    above zero, the append computed from it is refused.  A negative number
    is stored as it was entered and the meters shown for it are negative. *)
Theorem dimension_input_guard {rt : Runtime} (value : string) (now : Z)
  (p : Props) (st : State) :
  (parseFloat value = NaN ->
   Dim.length (dim (onLengthChange value st)) = 0%num
   /\ Dim.width (dim (onWidthChange value st)) = 0%num
   /\ forall u : Unit,
       converted (lengthInMeters (onLengthChange value st)) u =n= 0%num
       /\ converted (widthInMeters (onWidthChange value st)) u =n= 0%num)
  /\ (parseFloat value = NaN ->
      Num.is_finite (Dim.length (dim st)) ->
      Num.is_finite (Dim.width (dim st)) ->
      Num.is_finite (selectedMultiplier p st) ->
      Num.is_finite (Dim.dimQuantity (dim st)) ->
      (extraAmount st <=? 0)%num = true ->
      rejected (onLengthChange value st)
        (handleAddDimToQuote now p (onLengthChange value st))
      /\ (isDTF st = false ->
          rejected (onWidthChange value st)
            (handleAddDimToQuote now p (onWidthChange value st))))
  /\ (forall q : Q,
        parseFloat value = Fin q -> q < 0 ->
        Dim.length (dim (onLengthChange value st)) = Fin q
        /\ Dim.width (dim (onWidthChange value st)) = Fin q
        /\ (converted (lengthInMeters (onLengthChange value st)) unit_m <? 0)%num
           = true).
Proof.
  split; [| split].
  - intros Hnan. unfold onLengthChange, onWidthChange. rewrite Hnan, or_else_nan.
    split; [destruct (isDTF st); reflexivity |]. split; [reflexivity |].
    intros u. unfold lengthInMeters, widthInMeters, toMeters.
    destruct (factor_positive (Dim.lengthUnit (dim st))) as [fl [Hfl _]].
    destruct (factor_positive (Dim.widthUnit (dim st))) as [fw [Hfw _]].
    split.
    + destruct (isDTF st); simpl; rewrite Hfl; apply converted_zero.
    + simpl. rewrite Hfw. apply converted_zero.
  - intros Hnan Hl Hw Hm Hk He.
    assert (Hreject : forall st', (totalDimPrice p st' <=? 0)%num = true ->
                                  rejected st' (handleAddDimToQuote now p st')).
    { intros st' Htotal. unfold handleAddDimToQuote, rejected. rewrite Htotal.
      destruct (Dim.selectedStockItem (dim st') =? ""); simpl;
        [split; [reflexivity | eexists; reflexivity] |].
      destruct (negb (isDTF st') && (Dim.selectedTier (dim st') =? "")); simpl;
        split; try reflexivity; eexists; reflexivity. }
    destruct (factor_positive (Dim.lengthUnit (dim st))) as [fl [Hfl _]].
    destruct (factor_positive (Dim.widthUnit (dim st))) as [fw [Hfw _]].
    destruct (Dim.length (dim st)) as [| |l|] eqn:El; try contradiction.
    destruct (Dim.width (dim st)) as [| |w|] eqn:Ew; try contradiction.
    destruct (selectedMultiplier p st) as [| |m|] eqn:Em; try contradiction.
    destruct (Dim.dimQuantity (dim st)) as [| |k|] eqn:Ek; try contradiction.
    destruct (zero_length_total fl fw w m k _ He) as [T1 [T2 T3]].
    split.
    + apply Hreject. unfold totalDimPrice, onLengthChange.
      rewrite Hnan, or_else_nan.
      destruct (isDTF st) eqn:Etab.
      * unfold isDTF in *. simpl. rewrite Etab.
        unfold lengthInMeters, toMeters. simpl. rewrite Hfl, Ek. exact T3.
      * unfold isDTF in *. simpl. rewrite Etab.
        change (selectedMultiplier p _) with (selectedMultiplier p st).
        unfold lengthInMeters, widthInMeters, toMeters. simpl.
        rewrite Em, Hfl, Hfw, Ew, Ek. exact T1.
    + intros Etab. apply Hreject. unfold totalDimPrice, onWidthChange.
      rewrite Hnan, or_else_nan. unfold isDTF in *. simpl. rewrite Etab.
      change (selectedMultiplier p _) with (selectedMultiplier p st).
      unfold lengthInMeters, widthInMeters, toMeters. simpl.
      rewrite Em, Hfl, Hfw, El, Ek.
      destruct (zero_length_total fw fl l m k _ He) as [_ [T2' _]]. exact T2'.
  - intros q Hq Hneg. unfold onLengthChange, onWidthChange. rewrite Hq.
    assert (Ht : (Fin q || 0)%num = Fin q).
    { apply or_else_truthy. simpl. apply negb_true_iff. qprop. lra. }
    rewrite Ht. split; [destruct (isDTF st); reflexivity |].
    split; [reflexivity |].
    destruct (factor_positive (Dim.lengthUnit (dim st))) as [fl [Hfl Hpos]].
    unfold lengthInMeters, toMeters.
    destruct (isDTF st); simpl; rewrite Hfl; simpl; qprop; nra.
Qed.

Lemma dimension_input_guard_witness :
  let st := select_roll "SKU-1" "T1" initial_state in
  let cleared := onLengthChange (rt := Reference.runtime) "abc" st in
  Dim.length (dim cleared) = 0%num
  /\ conversions (rt := Reference.runtime) (lengthInMeters cleared)
     = {| conv_m := "0.00"; conv_cm := "0.0"; conv_ft := "0.00"; conv_in := "0.00" |}
  /\ rejected cleared
       (handleAddDimToQuote (rt := Reference.runtime) 0 sample_props cleared)
  /\ Dim.length (dim (onLengthChange (rt := Reference.runtime) "-100" st))
     = Fin (-100).
Proof.
  intros st cleared.
  destruct (@dimension_input_guard Reference.runtime "abc" 0 sample_props st)
    as [H1 [H2 _]].
  destruct (@dimension_input_guard Reference.runtime "-100" 0 sample_props st)
    as [_ [_ H3]].
  split; [exact (proj1 (H1 eq_refl)) |].
  split; [reflexivity |].
  split; [exact (proj1 (H2 eq_refl I I I I eq_refl)) |].
  exact (proj1 (H3 (-100) eq_refl eq_refl)).
Defined.

(** Typing -100 into the length field of the area form: the field holds
    -100 and the display shows -1.00 m and -100.0 cm.  With -60 typed into
    the width as well, the total is 30000 and the line is appended. *)
Lemma negative_dimension_counterexample :
  let st := select_roll "SKU-1" "T1" initial_state in
  let st1 := onLengthChange (rt := Reference.runtime) "-100" st in
  let st2 := onWidthChange (rt := Reference.runtime) "-60" st1 in
  Dim.length (dim st1) = Fin (-100)
  /\ conv_m (conversions (rt := Reference.runtime) (lengthInMeters st1)) = "-1.00"
  /\ conv_cm (conversions (rt := Reference.runtime) (lengthInMeters st1)) = "-100.0"
  /\ Num.eqb (totalDimPrice sample_props st2) (Fin 30000) = true
  /\ effects (handleAddDimToQuote (rt := Reference.runtime) 0 sample_props st2) = []
  /\ map (fun item => Num.eqb (SaleItem.price item) (Fin 30000))
         (quoteItems (next (handleAddDimToQuote (rt := Reference.runtime) 0
                              sample_props st2)))
     = [true].
Proof.
  repeat split.
Qed.

(** ** The handlers on the sample data *)

Example area_item_name :
  map SaleItem.name
      (quoteItems (next (handleAddDimToQuote (rt := Reference.runtime) 7 sample_props
                           (select_roll "SKU-1" "T1" initial_state))))
  = ["Vinyl (1.00m x 0.60m)"].
Proof. reflexivity. Qed.

Example film_item_name :
  map (fun item => (SaleItem.itemId item, SaleItem.name item))
      (quoteItems (next (handleAddDimToQuote (rt := Reference.runtime) 12 sample_props
                           (film_preset_state (Fin (297 # 10))))))
  = [("calc-SKU-2-12", "DTF Film (A4)")].
Proof. reflexivity. Qed.

Example catalog_item_name :
  map SaleItem.name
      (quoteItems (next (handleAddSimpleToQuote (rt := Reference.runtime) 0
                           (catalog_state [] tshirt (Fin 9000) (Fin 2) (Fin 1000)))))
  = ["T-Shirt (Red | XL) (+ Extra Fee/Design: 1,000 UGX)"].
Proof. reflexivity. Qed.

(** Manual entry "Delivery" at 20000, one copy: the item is appended with
    that unit price and the total of the quote grows by 20000. *)
Example manual_delivery :
  let st := manual_state "Delivery" (Fin 20000) 1%num in
  let st' := next (handleAddManualToQuote (rt := Reference.runtime) 1 st) in
  quoteItems st' = [poster; delivery]
  /\ Num.eqb (totalQuotePrice st) (Fin 60000) = true
  /\ Num.eqb (totalQuotePrice st') (Fin 80000) = true.
Proof. repeat split. Qed.

(** * Further properties of the calculator view *)

Lemma same_sym (x y : number) : Num.same x y -> Num.same y x.
Proof. destruct x, y; simpl; try tauto. intros H. symmetry. exact H. Qed.

Lemma eq_same (x y : number) : x =n= y -> Num.same x y.
Proof. destruct x, y; simpl; tauto. Qed.

Lemma Qsign_compat (a b : Q) : a == b -> Num.Qsign a = Num.Qsign b.
Proof.
  intros H. pose proof (Qsign_spec a) as Ha. pose proof (Qsign_spec b) as Hb.
  destruct (Num.Qsign a), (Num.Qsign b); try reflexivity; exfalso; lra.
Qed.

Lemma mul_same_compat (x x' y y' : number) :
  Num.same x x' -> Num.same y y' -> Num.same (x * y)%num (x' * y')%num.
Proof.
  destruct x, x', y, y'; simpl; try tauto; intros H1 H2;
    unfold Num.scale_inf;
    try (rewrite (Qsign_compat H1)); try (rewrite (Qsign_compat H2));
    try apply same_refl.
  rewrite H1, H2. reflexivity.
Qed.

Lemma add_same_comm (x y : number) : Num.same (x + y)%num (y + x)%num.
Proof. destruct x, y; simpl; try exact I. ring. Qed.

(** ** Validation order of the dimensional and manual appends *)

(** The dimensional append checks the roll, then (off the film tab) the
    tier, then the total; the first check that fails decides the message,
    and the film tab never asks for a tier. *)
Theorem dim_validation_order {rt : Runtime} (now : Z) (p : Props) (st : State) :
  (Dim.selectedStockItem (dim st) = "" ->
   handleAddDimToQuote now p st = reject st "Please select a material/roll.")
  /\ (Dim.selectedStockItem (dim st) <> "" ->
      isDTF st = false ->
      Dim.selectedTier (dim st) = "" ->
      handleAddDimToQuote now p st = reject st "Please select a pricing tier.")
  /\ (Dim.selectedStockItem (dim st) <> "" ->
      isDTF st = true \/ Dim.selectedTier (dim st) <> "" ->
      (totalDimPrice p st <=? 0)%num = true ->
      handleAddDimToQuote now p st
      = reject st "Calculated price must be greater than zero.").
Proof.
  unfold handleAddDimToQuote. split; [| split].
  - intros H. rewrite H. reflexivity.
  - intros Hroll Htab Htier. apply String.eqb_neq in Hroll.
    rewrite Hroll, Htab, Htier. reflexivity.
  - intros Hroll Htier Htotal. apply String.eqb_neq in Hroll.
    rewrite Hroll, Htotal.
    destruct Htier as [Htab | Htier].
    + rewrite Htab. reflexivity.
    + apply String.eqb_neq in Htier. rewrite Htier, andb_false_r. reflexivity.
Qed.

Lemma dim_validation_order_witness :
  handleAddDimToQuote (rt := Reference.runtime) 0 sample_props initial_state
  = reject initial_state "Please select a material/roll."
  /\ handleAddDimToQuote (rt := Reference.runtime) 0 sample_props
       (select_roll "SKU-1" "" initial_state)
     = reject (select_roll "SKU-1" "" initial_state) "Please select a pricing tier."
  /\ handleAddDimToQuote (rt := Reference.runtime) 0 sample_props
       (select_roll "SKU-1" "T9" initial_state)
     = reject (select_roll "SKU-1" "T9" initial_state)
         "Calculated price must be greater than zero.".
Proof.
  destruct (@dim_validation_order Reference.runtime 0 sample_props initial_state)
    as [H1 _].
  destruct (@dim_validation_order Reference.runtime 0 sample_props
              (select_roll "SKU-1" "" initial_state)) as [_ [H2 _]].
  destruct (@dim_validation_order Reference.runtime 0 sample_props
              (select_roll "SKU-1" "T9" initial_state)) as [_ [_ H3]].
  split; [exact (H1 eq_refl) |]. split.
  - apply H2; [discriminate | reflexivity | reflexivity].
  - apply H3; [discriminate | right; discriminate | reflexivity].
Defined.

(** The manual append checks the trimmed name, then the price, then the
    quantity; the first check that fails decides the message. *)
Theorem manual_validation_order {rt : Runtime} (now : Z) (st : State) :
  (trim (Manual.manualItemName (manual_form st)) = "" ->
   handleAddManualToQuote now st = reject st "Please enter an item name.")
  /\ (trim (Manual.manualItemName (manual_form st)) <> "" ->
      (Manual.manualPrice (manual_form st) <=? 0)%num = true ->
      handleAddManualToQuote now st = reject st "Price must be greater than zero.")
  /\ (trim (Manual.manualItemName (manual_form st)) <> "" ->
      (Manual.manualPrice (manual_form st) <=? 0)%num = false ->
      (Manual.manualQuantity (manual_form st) <=? 0)%num = true ->
      handleAddManualToQuote now st
      = reject st "Quantity must be greater than zero.").
Proof.
  unfold handleAddManualToQuote. split; [| split].
  - intros H. rewrite H. reflexivity.
  - intros Hname Hp. apply String.eqb_neq in Hname. rewrite Hname, Hp. reflexivity.
  - intros Hname Hp Hq. apply String.eqb_neq in Hname.
    rewrite Hname, Hp, Hq. reflexivity.
Qed.

Lemma manual_validation_order_witness :
  handleAddManualToQuote (rt := Reference.runtime) 0
    (manual_state "   " (Fin (-5)) 0%num)
  = reject (manual_state "   " (Fin (-5)) 0%num) "Please enter an item name."
  /\ handleAddManualToQuote (rt := Reference.runtime) 0
       (manual_state "Delivery" (Fin (-5)) 0%num)
     = reject (manual_state "Delivery" (Fin (-5)) 0%num)
         "Price must be greater than zero."
  /\ handleAddManualToQuote (rt := Reference.runtime) 0
       (manual_state "Delivery" (Fin 5) 0%num)
     = reject (manual_state "Delivery" (Fin 5) 0%num)
         "Quantity must be greater than zero.".
Proof.
  destruct (@manual_validation_order Reference.runtime 0
              (manual_state "   " (Fin (-5)) 0%num)) as [H1 _].
  destruct (@manual_validation_order Reference.runtime 0
              (manual_state "Delivery" (Fin (-5)) 0%num)) as [_ [H2 _]].
  destruct (@manual_validation_order Reference.runtime 0
              (manual_state "Delivery" (Fin 5) 0%num)) as [_ [_ H3]].
  split; [exact (H1 eq_refl) |]. split.
  - apply H2; [discriminate | reflexivity].
  - apply H3; [discriminate | reflexivity | reflexivity].
Defined.

(** ** What the appends store *)

(** On the film tab without a preset, a resolved roll alone is enough (no
    tier is asked for), and the item appended for a total above zero and a
    finite non-zero quantity satisfies unit price x quantity = length in
    meters x 15000 x quantity + extra fee. *)
Theorem film_custom_append {rt : Runtime} (now : Z) (p : Props) (st : State)
  (stockItem : StockItem.t) (q : Q) :
  isDTF st = true ->
  Dim.dtfPreset (dim st) = None ->
  Dim.selectedStockItem (dim st) <> "" ->
  find_stock p (Dim.selectedStockItem (dim st)) = Some stockItem ->
  Dim.dimQuantity (dim st) = Fin q ->
  ~ q == 0 ->
  (0 <? totalDimPrice p st)%num = true ->
  exists item : SaleItem.t,
    appended st (handleAddDimToQuote now p st) item
    /\ SaleItem.quantity item = Fin q
    /\ (SaleItem.price item * SaleItem.quantity item)%num
       =n= (lengthInMeters st * Fin 15000 * Fin q + extraAmount st)%num.
Proof.
  intros Htab Hpre Hroll Hfind Hqty Hq Htotal.
  unfold handleAddDimToQuote, appended.
  apply String.eqb_neq in Hroll.
  rewrite Hroll, Htab, (ltb_zero_not_leb _ Htotal), Hfind. simpl.
  eexists. split; [reflexivity |]. split; [exact Hqty |].
  simpl. rewrite Hqty.
  assert (Hc := div_mul_cancel (totalDimPrice p st) Htotal Hq).
  unfold totalDimPrice in Hc at 2. rewrite Htab, Hpre, Hqty in Hc. exact Hc.
Qed.

Lemma film_custom_append_witness :
  let st := onLengthChange (rt := Reference.runtime) "2"
              (onDtfRollChange "SKU-2" sample_props
                 (core (setActiveTab dtf
                          {| core := initial_state; selectedProductCategory := "";
                             activeFilters := Filters.empty |}))) in
  exists item : SaleItem.t,
    appended st (handleAddDimToQuote (rt := Reference.runtime) 0 sample_props st) item
    /\ (SaleItem.price item * SaleItem.quantity item)%num =n= Fin 300.
Proof.
  intros st.
  destruct (@film_custom_append Reference.runtime 0 sample_props st film 1)
    as [item [Ha [_ Hp]]]; try reflexivity; try discriminate.
  exists item. split; [exact Ha |].
  eapply eq_Fin_trans; [exact Hp | reflexivity].
Defined.

(** A catalog append that passes the checks stores the negotiated price
    plus the fee spread over the quantity: for finite values, unit price x
    quantity is negotiated price x quantity + extra fee, the aggregate the
    form displays. *)
Theorem catalog_append_amortises {rt : Runtime} (now : Z) (st : State)
  (product : InventoryItem.t) (n q e : Q) :
  Simple.selectedProduct (simple_form st) = Some product ->
  Simple.negotiatedPrice (simple_form st) = Fin n ->
  Simple.simpleQuantity (simple_form st) = Fin q ->
  extraAmount st = Fin e ->
  0 < q ->
  (Fin n <? floor_of product)%num = false ->
  exists item : SaleItem.t,
    appended st (handleAddSimpleToQuote now st) item
    /\ SaleItem.quantity item = Fin q
    /\ (SaleItem.price item * SaleItem.quantity item)%num =n= totalSimplePrice st.
Proof.
  intros Hsel Hn Hq He Hpos Hfloor.
  unfold handleAddSimpleToQuote, appended, totalSimplePrice.
  rewrite Hsel, Hn, Hq, He, Hfloor.
  assert (Hle : (Fin q <=? 0)%num = false) by (simpl; qprop; exact Hpos).
  rewrite Hle. eexists. split; [reflexivity |]. split; [reflexivity |].
  simpl. qsign; simpl; try lra. field. lra.
Qed.

Lemma catalog_append_amortises_witness :
  let st := catalog_state [] tshirt (Fin 9000) (Fin 2) (Fin 1000) in
  exists item : SaleItem.t,
    appended st (handleAddSimpleToQuote (rt := Reference.runtime) 0 st) item
    /\ (SaleItem.price item * SaleItem.quantity item)%num =n= Fin 19000.
Proof.
  intros st.
  destruct (@catalog_append_amortises Reference.runtime 0 st tshirt 9000 2 1000)
    as [item [Ha [_ Hp]]]; try reflexivity.
  exists item. split; [exact Ha |].
  eapply eq_Fin_trans; [exact Hp | reflexivity].
Defined.

(** Every append handler either returns the state it was given or adds one
    item at the end of the quote: items already in the quote are never
    dropped, changed or reordered, and the tab is never switched. *)
Theorem appends_only_extend {rt : Runtime} (now : Z) (p : Props) (st : State)
  (o : Outcome) :
  o = handleAddDimToQuote now p st
  \/ o = handleAddSimpleToQuote now st
  \/ o = handleAddManualToQuote now st ->
  activeTab (next o) = activeTab st
  /\ (next o = st \/ exists item : SaleItem.t, appended st o item).
Proof.
  intros [-> | [-> | ->]].
  - unfold handleAddDimToQuote, appended, reject.
    repeat match goal with
           | |- context [if ?b then _ else _] => destruct b
           | |- context [match find_stock ?p ?s with _ => _ end] =>
               destruct (find_stock p s)
           end; simpl; (split; [reflexivity |]);
      try (left; reflexivity); right; eexists; reflexivity.
  - unfold handleAddSimpleToQuote, appended, reject.
    destruct (Simple.selectedProduct (simple_form st));
      [| split; [reflexivity | left; reflexivity]].
    repeat match goal with
           | |- context [if ?b then _ else _] => destruct b
           end; simpl; (split; [reflexivity |]);
      try (left; reflexivity); right; eexists; reflexivity.
  - unfold handleAddManualToQuote, appended, reject.
    repeat match goal with
           | |- context [if ?b then _ else _] => destruct b
           end; simpl; (split; [reflexivity |]);
      try (left; reflexivity); right; eexists; reflexivity.
Qed.

Lemma appends_only_extend_witness :
  let st := manual_state "Delivery" (Fin 20000) 1%num in
  activeTab (next (handleAddManualToQuote (rt := Reference.runtime) 1 st))
  = activeTab st
  /\ (next (handleAddManualToQuote (rt := Reference.runtime) 1 st) = st
      \/ exists item : SaleItem.t,
          appended st (handleAddManualToQuote (rt := Reference.runtime) 1 st) item).
Proof.
  intros st.
  apply (@appends_only_extend Reference.runtime 1 sample_props st).
  right. right. reflexivity.
Defined.

(** After a catalog append went through, the form holds no product: an
    immediate second click is refused and the quote has grown by one item
    only.  The same holds for the manual form when trimming the empty
    string gives the empty string. *)
Theorem second_click_is_refused {rt : Runtime} (now now' : Z) (st : State)
  (item : SaleItem.t) :
  (appended st (handleAddSimpleToQuote now st) item ->
   handleAddSimpleToQuote now' (next (handleAddSimpleToQuote now st))
   = reject (next (handleAddSimpleToQuote now st))
       "Please select a product from the filtered list.")
  /\ (trim "" = "" ->
      appended st (handleAddManualToQuote now st) item ->
      handleAddManualToQuote now' (next (handleAddManualToQuote now st))
      = reject (next (handleAddManualToQuote now st)) "Please enter an item name.").
Proof.
  split.
  - unfold appended, handleAddSimpleToQuote at 1 3 4.
    destruct (Simple.selectedProduct (simple_form st)) as [product |]; simpl;
      [| intros H; destruct (@not_self_append _ _ _ H)].
    destruct (_ <=? _)%num; simpl; [intros H; destruct (@not_self_append _ _ _ H) |].
    destruct (_ <? _)%num; simpl; [intros H; destruct (@not_self_append _ _ _ H) |].
    intros _. reflexivity.
  - intros Htrim. unfold appended, handleAddManualToQuote at 1 3 4.
    destruct (trim (Manual.manualItemName (manual_form st)) =? ""); simpl;
      [intros H; destruct (@not_self_append _ _ _ H) |].
    destruct (Manual.manualPrice (manual_form st) <=? 0)%num; simpl;
      [intros H; destruct (@not_self_append _ _ _ H) |].
    destruct (Manual.manualQuantity (manual_form st) <=? 0)%num; simpl;
      [intros H; destruct (@not_self_append _ _ _ H) |].
    intros _. unfold handleAddManualToQuote. simpl. rewrite Htrim. reflexivity.
Qed.

Lemma second_click_is_refused_witness :
  let st := catalog_state [] tshirt (Fin 9000) (Fin 2) (Fin 1000) in
  let st' := next (handleAddSimpleToQuote (rt := Reference.runtime) 0 st) in
  let mt := manual_state "Delivery" (Fin 20000) 1%num in
  let mt' := next (handleAddManualToQuote (rt := Reference.runtime) 1 mt) in
  handleAddSimpleToQuote (rt := Reference.runtime) 5 st'
  = reject st' "Please select a product from the filtered list."
  /\ handleAddManualToQuote (rt := Reference.runtime) 5 mt'
     = reject mt' "Please enter an item name.".
Proof.
  intros st st' mt mt'.
  split.
  - apply (proj1 (@second_click_is_refused Reference.runtime 0 5 st
                    (last (quoteItems st') delivery))).
    reflexivity.
  - apply (proj2 (@second_click_is_refused Reference.runtime 1 5 mt delivery));
      reflexivity.
Defined.

(** ** More on the quote list *)

(** Removing at an index past the end of the quote changes nothing. *)
Theorem remove_out_of_range (index : nat) (st : State) :
  (List.length (quoteItems st) <= index)%nat ->
  quoteItems (handleRemoveQuoteItem index st) = quoteItems st
  /\ Num.same (totalQuotePrice (handleRemoveQuoteItem index st)) (totalQuotePrice st).
Proof.
  intros Hlen.
  assert (H : quoteItems (handleRemoveQuoteItem index st) = quoteItems st).
  { rewrite remove_quote_item_eq, firstn_all2 by exact Hlen.
    rewrite skipn_all2 by lia. apply app_nil_r. }
  split; [exact H |].
  unfold totalQuotePrice. rewrite H. apply same_refl.
Qed.

Lemma remove_out_of_range_witness :
  quoteItems (handleRemoveQuoteItem 3 (with_quote initial_state [poster; delivery]))
  = [poster; delivery].
Proof.
  apply (@remove_out_of_range 3 (with_quote initial_state [poster; delivery])).
  simpl. lia.
Defined.

Lemma sum_app_same (l1 l2 : list SaleItem.t) :
  Num.same (sum_quantity_times_price (l1 ++ l2))
           (sum_quantity_times_price l1 + sum_quantity_times_price l2)%num.
Proof.
  induction l1 as [| x r IH]; simpl.
  - apply same_sym, add_zero_same.
  - eapply same_trans; [| apply same_sym, add_same_assoc].
    apply add_same_compat; [apply same_refl | exact IH].
Qed.

(** In exact arithmetic (the rounding of binary floating point is not
    modelled), the total before a removal is the total after it plus the
    line that was removed, price x quantity of the item at that index. *)
Theorem remove_lowers_total_by_line (index : nat) (st : State) (item : SaleItem.t) :
  nth_error (quoteItems st) index = Some item ->
  Num.same (totalQuotePrice st)
           (totalQuotePrice (handleRemoveQuoteItem index st)
            + SaleItem.price item * SaleItem.quantity item)%num.
Proof.
  intros Hnth.
  destruct (nth_error_split _ _ Hnth) as [l1 [l2 [Hl Hlen]]].
  eapply same_trans; [apply total_is_sum |].
  eapply same_trans;
    [| apply add_same_compat; [apply same_sym, total_is_sum | apply same_refl]].
  rewrite remove_quote_item_eq, Hl, <- Hlen.
  rewrite firstn_app, firstn_all, Nat.sub_diag, firstn_O, app_nil_r.
  replace (skipn (S (List.length l1)) (l1 ++ item :: l2)) with l2
    by (rewrite skipn_app, skipn_all2 by lia;
        replace (S (List.length l1) - List.length l1)%nat with 1%nat by lia;
        reflexivity).
  eapply same_trans; [apply sum_app_same |].
  eapply same_trans;
    [| apply add_same_compat; [apply same_sym, sum_app_same | apply same_refl]].
  simpl.
  eapply same_trans; [| apply same_sym, add_same_assoc].
  apply add_same_compat; [apply same_refl |].
  eapply same_trans; [apply add_same_comm |].
  apply add_same_compat; [apply same_refl | apply mul_same_comm].
Qed.

Lemma remove_lowers_total_by_line_witness :
  let st := with_quote initial_state [poster; delivery; banner] in
  Num.same (totalQuotePrice st)
           (totalQuotePrice (handleRemoveQuoteItem 1 st) + Fin 20000 * 1)%num.
Proof.
  intros st. apply (@remove_lowers_total_by_line 1 st delivery). reflexivity.
Defined.

(** A successful append raises the total by the unit price times the
    quantity of the appended item. *)
Theorem append_raises_total (st : State) (o : Outcome) (item : SaleItem.t) :
  appended st o item ->
  totalQuotePrice (next o)
  = (totalQuotePrice st + SaleItem.price item * SaleItem.quantity item)%num.
Proof.
  unfold appended, totalQuotePrice. intros H. rewrite H, fold_left_app. reflexivity.
Qed.

Lemma append_raises_total_witness :
  let st := manual_state "Delivery" (Fin 20000) 1%num in
  totalQuotePrice (next (handleAddManualToQuote (rt := Reference.runtime) 1 st))
  = (totalQuotePrice st + Fin 20000 * 1)%num.
Proof.
  intros st.
  apply (@append_raises_total st
           (handleAddManualToQuote (rt := Reference.runtime) 1 st) delivery).
  reflexivity.
Defined.

(** A quote is handed off at most once: after the quote was cleared, or
    after a submission that completed normally, the next submission is
    refused without calling the callback, and the total reads 0. *)
Theorem no_second_handoff (f g : list SaleItem.t -> Completion) (st : State) :
  handleCreateSaleClick g (handleClearQuote st)
  = reject (handleClearQuote st) "Your quote is empty. Add items to create a sale."
  /\ totalQuotePrice (handleClearQuote st) = 0%num
  /\ (completion (handleCreateSaleClick f st) = Returns ->
      handleCreateSaleClick g (next (handleCreateSaleClick f st))
      = reject (next (handleCreateSaleClick f st))
          "Your quote is empty. Add items to create a sale.").
Proof.
  split; [reflexivity |]. split; [reflexivity |].
  unfold handleCreateSaleClick at 1 3 4.
  destruct (quoteItems st) as [| x l] eqn:E; simpl.
  - intros _. unfold handleCreateSaleClick. rewrite E. reflexivity.
  - destruct (f (x :: l)); [intros _; reflexivity | discriminate].
Qed.

Lemma no_second_handoff_witness :
  handleCreateSaleClick (fun _ => Returns)
    (next (handleCreateSaleClick (fun _ => Returns) vanished_roll_state))
  = reject (next (handleCreateSaleClick (fun _ => Returns) vanished_roll_state))
      "Your quote is empty. Add items to create a sale.".
Proof.
  apply (proj2 (proj2 (@no_second_handoff (fun _ => Returns) (fun _ => Returns)
                         vanished_roll_state))).
  reflexivity.
Defined.

(** ** Tier, presets and rolls *)

(** A multiplier other than zero always comes from a tier of the selected
    roll's own category: the selected tier id names a pricing tier whose
    category is that of the stock item the selected roll id resolves to,
    and the multiplier is that tier's value.  A tier left selected from
    another category counts as 0. *)
Theorem multiplier_is_of_roll_category (p : Props) (st : State) :
  Num.truthy (selectedMultiplier p st) = true ->
  exists (stockItem : StockItem.t) (tier : PricingTier.t),
    find_stock p (Dim.selectedStockItem (dim st)) = Some stockItem
    /\ In tier (pricingTiers p)
    /\ PricingTier.id tier = Dim.selectedTier (dim st)
    /\ PricingTier.categoryId tier = StockItem.categoryId stockItem
    /\ selectedMultiplier p st = PricingTier.value tier.
Proof.
  unfold selectedMultiplier, tiersForSelectedItem.
  destruct (Dim.selectedTier (dim st) =? ""); [discriminate |].
  destruct (Dim.selectedStockItem (dim st) =? ""); [discriminate |].
  destruct (find_stock p (Dim.selectedStockItem (dim st))) as [stockItem |];
    [| discriminate].
  destruct (StockItem.categoryId stockItem =? ""); [discriminate |].
  destruct (find _ (filter _ (pricingTiers p))) as [tier |] eqn:Efind;
    [| discriminate].
  intros Ht. apply find_some in Efind. destruct Efind as [Hin Hid].
  apply filter_In in Hin. destruct Hin as [Hin Hcat].
  apply String.eqb_eq in Hid, Hcat.
  exists stockItem, tier. repeat split; try assumption.
  unfold Num.or_else in *. destruct (Num.truthy (PricingTier.value tier));
    [reflexivity | discriminate].
Qed.

Lemma multiplier_is_of_roll_category_witness :
  exists (stockItem : StockItem.t) (tier : PricingTier.t),
    find_stock sample_props "SKU-1" = Some stockItem
    /\ In tier (pricingTiers sample_props)
    /\ PricingTier.id tier = "T1"
    /\ PricingTier.categoryId tier = StockItem.categoryId stockItem
    /\ selectedMultiplier sample_props (select_roll "SKU-1" "T1" initial_state)
       = PricingTier.value tier.
Proof.
  apply (@multiplier_is_of_roll_category sample_props
           (select_roll "SKU-1" "T1" initial_state)).
  reflexivity.
Defined.

(** The tier of the vinyl category selected together with the film roll. *)
Example stale_tier_counts_as_zero :
  selectedMultiplier sample_props (select_roll "SKU-2" "T1" initial_state) = 0%num.
Proof. reflexivity. Qed.

Lemma cm_round_trip_same (x : number) :
  Num.same (x * CONVERSION_TO_METER unit_cm * Fin 100)%num x.
Proof.
  destruct x as [| |a|]; simpl; try exact I. field.
Qed.

(** Off the film tab, a paper size button writes the sheet into the form:
    the centimeters priced are the sheet's height and width, so the total
    is height x width x multiplier x quantity + extra fee. *)
Theorem preset_click_prices_sheet (n : PaperSize) (p : Props) (st : State) :
  isDTF st = false ->
  Num.same (totalDimPrice p (handlePresetClick n st))
           (sheet_height (PAPER_SIZES n) * sheet_width (PAPER_SIZES n)
            * selectedMultiplier p st * Dim.dimQuantity (dim st)
            + extraAmount st)%num.
Proof.
  intros Htab. unfold handlePresetClick, totalDimPrice. rewrite Htab.
  assert (Htab' : forall d, isDTF (with_dim st d) = false) by (intros d; exact Htab).
  rewrite Htab'.
  change (selectedMultiplier p (with_dim st _)) with (selectedMultiplier p st).
  unfold lengthInMeters, widthInMeters, toMeters. simpl.
  apply add_same_compat; [| apply same_refl].
  repeat (apply mul_same_compat; try apply same_refl); apply cm_round_trip_same.
Qed.

Lemma preset_click_prices_sheet_witness :
  Num.same (totalDimPrice sample_props
              (handlePresetClick A4 (select_roll "SKU-1" "T1" initial_state)))
           (Fin (297 # 10) * Fin 21 * Fin 5 * 1 + 0)%num.
Proof.
  apply (@preset_click_prices_sheet A4 sample_props
           (select_roll "SKU-1" "T1" initial_state)).
  reflexivity.
Defined.

(** On the film tab every paper size button shown selects a preset; typing
    into the length field drops the preset, and the total is then length in
    meters x 15000 x quantity + extra fee; the quantity field leaves the
    preset alone. *)
Theorem film_preset_or_custom {rt : Runtime} (value : string) (p : Props)
  (st : State) :
  isDTF st = true ->
  (forall n : PaperSize, In n (visiblePaperSizes st) ->
     Dim.dtfPreset (dim (handlePresetClick n st)) <> None)
  /\ Dim.dtfPreset (dim (onLengthChange value st)) = None
  /\ totalDimPrice p (onLengthChange value st)
     = ((parseFloat value || 0) * CONVERSION_TO_METER (Dim.lengthUnit (dim st))
        * Fin 15000 * Dim.dimQuantity (dim st) + extraAmount st)%num
  /\ Dim.dtfPreset (dim (onDimQuantityChange value st)) = Dim.dtfPreset (dim st).
Proof.
  intros Htab. split; [| split; [| split]].
  - intros n Hin. unfold visiblePaperSizes in Hin. rewrite Htab in Hin.
    unfold handlePresetClick. rewrite Htab.
    destruct Hin as [<- | [<- | []]]; simpl; discriminate.
  - unfold onLengthChange. rewrite Htab. reflexivity.
  - unfold onLengthChange, totalDimPrice. rewrite Htab.
    unfold isDTF in *. simpl. rewrite Htab. reflexivity.
  - reflexivity.
Qed.

Lemma film_preset_or_custom_witness :
  let st := film_preset_state (Fin (297 # 10)) in
  Dim.dtfPreset (dim (onLengthChange (rt := Reference.runtime) "50" st)) = None
  /\ Num.eqb (totalDimPrice sample_props (onLengthChange (rt := Reference.runtime) "50" st))
             (Fin 22500) = true.
Proof.
  intros st.
  destruct (@film_preset_or_custom Reference.runtime "50" sample_props st eq_refl)
    as [_ [H1 [H2 _]]].
  split; [exact H1 |]. rewrite H2. reflexivity.
Defined.

(** Picking a roll on the film tab: when the id resolves, the width field
    is set so that the width in meters is, in exact arithmetic, the roll's
    own width; when it
    does not, the id is stored all the same and the width is left as it
    was. *)
Theorem film_roll_sets_width (value : string) (p : Props) (st : State) :
  Dim.selectedStockItem (dim (onDtfRollChange value p st)) = value
  /\ (forall itm : StockItem.t,
        find_stock p value = Some itm ->
        StockItem.skuId itm = value
        /\ Num.same (widthInMeters (onDtfRollChange value p st)) (StockItem.width itm))
  /\ (find_stock p value = None ->
      widthInMeters (onDtfRollChange value p st) = widthInMeters st).
Proof.
  unfold onDtfRollChange. split; [| split].
  - destruct (find_stock p value); reflexivity.
  - intros itm Hfind. rewrite Hfind. split.
    + apply find_some in Hfind. destruct Hfind as [_ H].
      apply String.eqb_eq in H. exact H.
    + unfold widthInMeters, toMeters. simpl.
      destruct (StockItem.width itm) as [| |a|]; simpl; try exact I. field.
  - intros Hfind. rewrite Hfind. reflexivity.
Qed.

Lemma film_roll_sets_width_witness :
  Num.same (widthInMeters (onDtfRollChange "SKU-2" sample_props initial_state))
           (Fin (60 # 100))
  /\ widthInMeters (onDtfRollChange "SKU-9" sample_props initial_state)
     = widthInMeters initial_state.
Proof.
  destruct (@film_roll_sets_width "SKU-2" sample_props initial_state) as [_ [H1 _]].
  destruct (@film_roll_sets_width "SKU-9" sample_props initial_state) as [_ [_ H2]].
  split; [exact (proj2 (H1 film eq_refl)) | exact (H2 eq_refl)].
Defined.

(** ** Price fields *)

Lemma remove_commas_idempotent (s : string) :
  remove_commas (remove_commas s) = remove_commas s.
Proof.
  unfold remove_commas. rewrite list_ascii_of_string_of_list_ascii.
  f_equal. induction (list_ascii_of_string s) as [| c l IH]; [reflexivity |].
  simpl. destruct (negb (Ascii.eqb c ",")) eqn:E; simpl; rewrite ?E, IH; reflexivity.
Qed.

Lemma remove_commas_chars (s : string) (c : ascii) :
  In c (list_ascii_of_string (remove_commas s))
  <-> In c (list_ascii_of_string s) /\ c <> ","%char.
Proof.
  unfold remove_commas. rewrite list_ascii_of_string_of_list_ascii, filter_In.
  rewrite negb_true_iff. split; intros [Hin Hc]; (split; [exact Hin |]).
  - apply Ascii.eqb_neq. exact Hc.
  - apply Ascii.eqb_neq. exact Hc.
Qed.

Lemma remove_commas_without (s : string) :
  ~ In ","%char (list_ascii_of_string s) -> remove_commas s = s.
Proof.
  intros Hno. unfold remove_commas.
  rewrite <- (string_of_list_ascii_of_string s) at 2. f_equal.
  induction (list_ascii_of_string s) as [| c l IH]; [reflexivity |].
  simpl. destruct (Ascii.eqb_spec c ","%char) as [-> | Hne]; simpl.
  - exfalso. apply Hno. left. reflexivity.
  - f_equal. apply IH. intros H. apply Hno. right. exact H.
Qed.

(** Commas in a price field never reach [parseFloat]: the text it is given
    holds the characters of the field other than commas and no comma, it
    is the field's text itself when that has no comma, and the text is read
    as if the commas were not there.  Text that is empty once the commas
    are gone is read as 0, not [NaN], and shown back as "0"; any other text
    is shown the same whether it is formatted as text or as the number read
    from it. *)
Theorem price_text_reading {rt : Runtime} (s : string) :
  parseCommaString (remove_commas s) = parseCommaString s
  /\ (remove_commas s = "" ->
      parseCommaString s = 0%num
      /\ formatNumberWithCommas (OfNumber (parseCommaString s)) = "0")
  /\ (remove_commas s <> "" ->
      parseCommaString s = parseFloat (remove_commas s)
      /\ formatNumberWithCommas (OfString s)
         = formatNumberWithCommas (OfNumber (parseCommaString s)))
  /\ ~ In ","%char (list_ascii_of_string (remove_commas s))
  /\ (forall c : ascii,
        In c (list_ascii_of_string (remove_commas s))
        <-> In c (list_ascii_of_string s) /\ c <> ","%char)
  /\ (~ In ","%char (list_ascii_of_string s) ->
      remove_commas s = s /\ (s <> "" -> parseCommaString s = parseFloat s)).
Proof.
  unfold parseCommaString. split; [| split; [| split; [| split; [| split]]]].
  - rewrite remove_commas_idempotent. reflexivity.
  - intros H. rewrite H. split; reflexivity.
  - intros H. apply String.eqb_neq in H. rewrite H. split; [reflexivity |].
    unfold formatNumberWithCommas. destruct s; [discriminate H | reflexivity].
  - intros H. apply remove_commas_chars in H. destruct H as [_ H]. congruence.
  - apply remove_commas_chars.
  - intros Hno. rewrite (remove_commas_without s Hno). split; [reflexivity |].
    intros Hs. apply String.eqb_neq in Hs. rewrite Hs. reflexivity.
Qed.

Lemma price_text_reading_witness :
  parseCommaString (rt := Reference.runtime) ",," = 0%num
  /\ parseCommaString (rt := Reference.runtime) "12,500" = Fin 12500
  /\ formatNumberWithCommas (rt := Reference.runtime) (OfString "12500")
     = formatNumberWithCommas (rt := Reference.runtime) (OfNumber (Fin 12500))
  /\ remove_commas "12500" = "12500".
Proof.
  destruct (@price_text_reading Reference.runtime ",,") as [_ [H1 _]].
  destruct (@price_text_reading Reference.runtime "12,500") as [_ [_ [H2 _]]].
  destruct (@price_text_reading Reference.runtime "12500")
    as [_ [_ [H3 [_ [_ H4]]]]].
  split; [exact (proj1 (H1 eq_refl)) |]. split.
  - rewrite (proj1 (H2 ltac:(discriminate))). reflexivity.
  - split; [exact (proj2 (H3 ltac:(discriminate))) |].
    apply H4. simpl. intros [H | [H | [H | [H | [H | []]]]]]; discriminate.
Defined.

Example commas_are_removed :
  remove_commas "1,2,,3" = "123"
  /\ parseCommaString (rt := Reference.runtime) "1,234,567" = Fin 1234567.
Proof. split; reflexivity. Qed.

Example price_field_shows_grouping :
  formatNumberWithCommas (rt := Reference.runtime)
    (OfNumber (parseCommaString (rt := Reference.runtime) "12,500")) = "12,500"
  /\ formatNumberWithCommas (rt := Reference.runtime)
       (OfNumber (parseCommaString (rt := Reference.runtime) "abc")) = "".
Proof. split; reflexivity. Qed.

(** ** Lists offered for selection *)

Lemma keeps_spec (c : Calculator) (d : InventoryDoc) :
  keeps c d = true <->
  InventoryItem.category (doc d) = selectedProductCategory c
  /\ (on_supplies (activeTab (core c)) = false -> consumable d = false)
  /\ forall s : Slot, filtered_out s (activeFilters c) (doc d) = false.
Proof.
  unfold keeps. split.
  - destruct (InventoryItem.category (doc d) =? selectedProductCategory c) eqn:Ec;
      simpl; [| discriminate].
    destruct (on_supplies (activeTab (core c))), (consumable d); simpl;
      try discriminate;
      destruct (filtered_out slot1 _ _) eqn:E1; try discriminate;
      destruct (filtered_out slot2 _ _) eqn:E2; try discriminate;
      destruct (filtered_out slot3 _ _) eqn:E3; try discriminate;
      destruct (filtered_out slot4 _ _) eqn:E4; try discriminate;
      destruct (filtered_out slot5 _ _) eqn:E5; try discriminate;
      intros _; (split; [apply String.eqb_eq; exact Ec |]);
      (split; [intros; congruence | intros []; assumption]).
  - intros [Hc [Hs Hf]]. apply String.eqb_eq in Hc. rewrite Hc. simpl.
    rewrite !Hf.
    destruct (on_supplies (activeTab (core c))); simpl; [reflexivity |].
    rewrite Hs; reflexivity.
Qed.

(** The products offered on a catalog tab: none until a category is picked;
    each one belongs to the picked category, carries the value of every
    filter that is set, and is not a consumable unless the tab is the
    supplies tab. *)
Theorem filtered_inventory_sound (inventory : list InventoryDoc) (c : Calculator)
  (d : InventoryDoc) :
  In d (filteredInventory inventory c) ->
  In d inventory
  /\ selectedProductCategory c <> ""
  /\ InventoryItem.category (doc d) = selectedProductCategory c
  /\ (activeTab (core c) <> supplies -> isConsumable d <> Some true)
  /\ forall (s : Slot) (v : string),
      filter_of s (activeFilters c) = Some v -> v <> "" -> attr_of s (doc d) = Some v.
Proof.
  unfold filteredInventory.
  destruct (selectedProductCategory c =? "") eqn:Esel; [intros [] |].
  intros Hin. apply filter_In in Hin. destruct Hin as [Hin Hk].
  apply keeps_spec in Hk. destruct Hk as [Hc [Hs Hf]].
  split; [exact Hin |]. split; [apply String.eqb_neq; exact Esel |].
  split; [exact Hc |]. split.
  - intros Htab Hcons.
    assert (Hon : on_supplies (activeTab (core c)) = false)
      by (destruct (activeTab (core c)); try reflexivity; congruence).
    specialize (Hs Hon). unfold consumable in Hs. rewrite Hcons in Hs. discriminate.
  - intros s v Hfil Hv. specialize (Hf s). unfold filtered_out in Hf.
    rewrite Hfil in Hf. apply String.eqb_neq in Hv. rewrite Hv in Hf.
    destruct (attr_of s (doc d)) as [a |]; [| discriminate].
    apply negb_false_iff, String.eqb_eq in Hf. congruence.
Qed.

Lemma filtered_inventory_sound_witness :
  let c := onFilterChange slot1 "Red"
             (onCategoryClick "Garments" (setActiveTab embroidery initial_calculator)) in
  filteredInventory sample_inventory c = [{| doc := tshirt; isConsumable := Some false |}]
  /\ InventoryItem.category tshirt = "Garments"
  /\ attr_of slot1 tshirt = Some "Red".
Proof.
  intros c.
  assert (Hin : In {| doc := tshirt; isConsumable := Some false |}
                   (filteredInventory sample_inventory c)) by (left; reflexivity).
  destruct (@filtered_inventory_sound sample_inventory c _ Hin) as [_ [_ [Hc [_ Hf]]]].
  split; [reflexivity |]. split; [exact Hc |].
  apply (Hf slot1 "Red"); [reflexivity | discriminate].
Defined.

Lemma filtered_out_set_other (s s' : Slot) (v : string) (f : Filters.t)
  (item : InventoryItem.t) :
  s <> s' -> filtered_out s' (set_filter s v f) item = filtered_out s' f item.
Proof.
  intros Hne. destruct s, s'; try congruence; reflexivity.
Qed.

Lemma filter_of_set_same (s : Slot) (v : string) (f : Filters.t) :
  filter_of s (set_filter s v f) = Some v.
Proof. destruct s; reflexivity. Qed.

Lemma slot_eq_dec (s s' : Slot) : {s = s'} + {s <> s'}.
Proof. decide equality. Qed.

(** Setting a filter on a slot that was on "all" can only take products off
    the list, and putting a slot back on "all" can only bring products
    back; either way the picked product is dropped, so the append is
    refused until a row is clicked again. *)
Theorem filter_change_narrows {rt : Runtime} (inventory : list InventoryDoc)
  (c : Calculator) (s : Slot) (v : string) (now : Z) :
  (filter_of s (activeFilters c) = None \/ filter_of s (activeFilters c) = Some "" ->
   incl (filteredInventory inventory (onFilterChange s v c))
        (filteredInventory inventory c))
  /\ incl (filteredInventory inventory c)
          (filteredInventory inventory (onFilterChange s "" c))
  /\ handleAddSimpleToQuote now (core (onFilterChange s v c))
     = reject (core (onFilterChange s v c))
         "Please select a product from the filtered list.".
Proof.
  split; [| split].
  - intros Hold d. unfold filteredInventory. simpl.
    destruct (selectedProductCategory c =? ""); [intros [] |].
    rewrite !filter_In. intros [Hin Hk]. split; [exact Hin |].
    apply keeps_spec in Hk. apply keeps_spec.
    destruct Hk as [Hc [Hs Hf]]. simpl in *.
    split; [exact Hc |]. split; [exact Hs |].
    intros s'. destruct (slot_eq_dec s s') as [<- | Hne].
    + unfold filtered_out. destruct Hold as [H | H]; rewrite H; reflexivity.
    + rewrite <- (filtered_out_set_other v (activeFilters c) (doc d) Hne). apply Hf.
  - intros d. unfold filteredInventory. simpl.
    destruct (selectedProductCategory c =? ""); [intros [] |].
    rewrite !filter_In. intros [Hin Hk]. split; [exact Hin |].
    apply keeps_spec in Hk. apply keeps_spec.
    destruct Hk as [Hc [Hs Hf]]. simpl in *.
    split; [exact Hc |]. split; [exact Hs |].
    intros s'. destruct (slot_eq_dec s s') as [<- | Hne].
    + unfold filtered_out. rewrite filter_of_set_same. reflexivity.
    + rewrite (filtered_out_set_other "" (activeFilters c) (doc d) Hne). apply Hf.
  - reflexivity.
Qed.

Lemma filter_change_narrows_witness :
  let c := onCategoryClick "Garments" (setActiveTab embroidery initial_calculator) in
  incl (filteredInventory sample_inventory (onFilterChange slot1 "Red" c))
       (filteredInventory sample_inventory c).
Proof.
  intros c.
  apply (proj1 (@filter_change_narrows Reference.runtime sample_inventory c slot1
                  "Red" 0)).
  left. reflexivity.
Defined.

Example garments_on_two_tabs :
  map (fun d => InventoryItem.id (doc d))
      (filteredInventory sample_inventory
         (onCategoryClick "Garments" (setActiveTab embroidery initial_calculator)))
  = ["P-1"; "P-4"]
  /\ map (fun d => InventoryItem.id (doc d))
         (filteredInventory sample_inventory
            (onCategoryClick "Garments" (setActiveTab supplies initial_calculator)))
     = ["P-1"; "P-4"; "P-5"].
Proof. split; reflexivity. Qed.



Example sample_rolls_by_tab :
  map StockItem.skuId
      (availableStockItems (text := reference_text) (stockItems sample_props)
         sample_categories dtf) = ["SKU-2"]
  /\ map StockItem.skuId
         (availableStockItems (text := reference_text) (stockItems sample_props)
            sample_categories large_format) = ["SKU-1"]
  /\ availableStockItems (text := reference_text) (stockItems sample_props)
       sample_categories products = [].
Proof. repeat split. Qed.

(** ** Switching tabs *)

(** Whenever the tab effect runs, the extra fee and its label are cleared
    and the quote and the tab are left alone.  On a catalog tab it also
    clears the category, the filters and the product, so nothing is offered
    and an append is refused.  On the film tab with no roll selected it
    selects the first roll whose category or name contains "dtf" and sets
    the width to that roll's width (in exact arithmetic); with a roll
    already selected it leaves the dimension form alone. *)
Theorem tab_effect_resets {rt : Runtime} {text : Text} (p : Props)
  (materialCategories : list MaterialCategory.t) (c : Calculator) :
  extraAmount (core (tabEffect p materialCategories c)) = 0%num
  /\ extraAmountLabel (core (tabEffect p materialCategories c)) = ""
  /\ quoteItems (core (tabEffect p materialCategories c)) = quoteItems (core c)
  /\ activeTab (core (tabEffect p materialCategories c)) = activeTab (core c)
  /\ (CALCULATOR_TABS (activeTab (core c)) = simple ->
      (forall inventory : list InventoryDoc,
         filteredInventory inventory (tabEffect p materialCategories c) = [])
      /\ forall now : Z,
          handleAddSimpleToQuote now (core (tabEffect p materialCategories c))
          = reject (core (tabEffect p materialCategories c))
              "Please select a product from the filtered list.")
  /\ (forall (first : StockItem.t) (rest : list StockItem.t),
        isDTF (core c) = true ->
        Dim.selectedStockItem (dim (core c)) = "" ->
        dtfItems p materialCategories = first :: rest ->
        Dim.selectedStockItem (dim (core (tabEffect p materialCategories c)))
        = StockItem.skuId first
        /\ Num.same (widthInMeters (core (tabEffect p materialCategories c)))
                    (StockItem.width first))
  /\ (Dim.selectedStockItem (dim (core c)) <> "" ->
      dim (core (tabEffect p materialCategories c)) = dim (core c)).
Proof.
  split; [reflexivity |]. split; [reflexivity |]. split; [reflexivity |].
  split; [reflexivity |]. split; [| split].
  - intros Htype. unfold tabEffect, filteredInventory, handleAddSimpleToQuote.
    simpl. rewrite Htype. simpl. split; reflexivity.
  - intros first rest Htab Hsel Hitems. unfold tabEffect. simpl.
    rewrite Htab, Hitems, Hsel. simpl. split; [reflexivity |].
    unfold widthInMeters, toMeters. simpl.
    destruct (StockItem.width first) as [| |a|]; simpl; try exact I. field.
  - intros Hsel. apply String.eqb_neq in Hsel. unfold tabEffect. simpl.
    rewrite Hsel.
    destruct (isDTF (core c)); [| reflexivity].
    destruct (dtfItems p materialCategories); reflexivity.
Qed.

Lemma tab_effect_resets_witness :
  let typed := with_core initial_calculator
                 (onExtraAmountChange (rt := Reference.runtime) "5,000"
                    (catalog_state [delivery] tshirt (Fin 9000) 1%num 0%num)) in
  let c := onTabClick (text := reference_text) bizhub sample_props sample_categories
             typed in
  let d := onTabClick (text := reference_text) dtf sample_props sample_categories
             initial_calculator in
  extraAmount (core typed) = Fin 5000
  /\ extraAmount (core c) = 0%num
  /\ handleAddSimpleToQuote (rt := Reference.runtime) 0 (core c)
     = reject (core c) "Please select a product from the filtered list."
  /\ Dim.selectedStockItem (dim (core d)) = "SKU-2"
  /\ Num.same (widthInMeters (core d)) (Fin (60 # 100)).
Proof.
  intros typed c d.
  destruct (@tab_effect_resets Reference.runtime reference_text sample_props
              sample_categories (setActiveTab bizhub typed))
    as [H1 [_ [_ [_ [H2 _]]]]].
  destruct (@tab_effect_resets Reference.runtime reference_text sample_props
              sample_categories (setActiveTab dtf initial_calculator))
    as [_ [_ [_ [_ [_ [H3 _]]]]]].
  split; [reflexivity |]. split; [exact H1 |].
  split; [exact (proj2 (H2 eq_refl) 0%Z) |].
  destruct (H3 film [] eq_refl eq_refl eq_refl) as [H4 H5].
  split; [exact H4 | exact H5].
Defined.


(** * Properties of the shell and the sales view *)

(** ** From a quote line back to the product *)

Lemma string_app_assoc (a b c : string) : (a ++ b) ++ c = a ++ (b ++ c).
Proof. induction a as [| x a IH]; simpl; [reflexivity | rewrite IH; reflexivity]. Qed.

Lemma string_app_nil_r (a : string) : a ++ "" = a.
Proof. induction a as [| x a IH]; simpl; [reflexivity | rewrite IH; reflexivity]. Qed.

Lemma includes_hyphen_cons (c : ascii) (r : string) :
  includes (String c r) "-" = false ->
  Ascii.eqb c "-" = false /\ includes r "-" = false.
Proof.
  cbn [includes String.prefix].
  destruct (ascii_dec "-" c) as [<- | Hne].
  - destruct r; discriminate.
  - intros H. split; [| exact H].
    apply Ascii.eqb_neq. congruence.
Qed.

Lemma split_on_head (a r : string) :
  includes a "-" = false ->
  split_on "-" (a ++ String "-" r) = a :: split_on "-" r.
Proof.
  induction a as [| c a IH]; intros Hfree.
  - reflexivity.
  - apply includes_hyphen_cons in Hfree. destruct Hfree as [Hc Hfree].
    simpl. rewrite Hc, (IH Hfree). reflexivity.
Qed.

(** The id given to a catalog line, "simple-<product id>-<time>", is read
    back by [handleAddSale] as the part of the product id before its first
    hyphen: the whole product id when it has no hyphen, as the ids the
    store generates. *)
Theorem catalog_line_decodes {rt : Runtime} (now : Z) (st : State)
  (product : InventoryItem.t) (item : SaleItem.t) (a rest : string) :
  Simple.selectedProduct (simple_form st) = Some product ->
  appended st (handleAddSimpleToQuote now st) item ->
  InventoryItem.id product = a ++ rest ->
  includes a "-" = false ->
  rest = "" \/ (exists r : string, rest = String "-" r) ->
  trueId item = Some a.
Proof.
  intros Hsel Happ Hid Hfree Hrest. revert Happ.
  unfold handleAddSimpleToQuote, appended. rewrite Hsel.
  destruct (_ <=? _)%num; simpl; [intros H; destruct (@not_self_append _ _ _ H) |].
  destruct (_ <? _)%num; simpl; [intros H; destruct (@not_self_append _ _ _ H) |].
  intros H. apply app_inj_tail in H. destruct H as [_ <-].
  assert (Hp : forall s : string, String.prefix "" s = true)
    by (intros [|]; reflexivity).
  unfold trueId. simpl. rewrite Hid, Hp.
  destruct Hrest as [-> | [r ->]].
  - rewrite string_app_nil_r, split_on_head by exact Hfree. reflexivity.
  - rewrite string_app_assoc. simpl.
    rewrite split_on_head by exact Hfree. reflexivity.
Qed.

Lemma catalog_line_decodes_witness :
  let st := catalog_state [] mug (Fin 15000) (Fin 2) 0%num in
  let st' := catalog_state [] tshirt (Fin 9000) (Fin 2) 0%num in
  trueId (last (quoteItems (next (handleAddSimpleToQuote (rt := Reference.runtime)
                                    1700000000000 st))) delivery)
  = Some "k3Jx9QpLm2"
  /\ trueId (last (quoteItems (next (handleAddSimpleToQuote (rt := Reference.runtime)
                                       1700000000000 st'))) delivery)
     = Some "P".
Proof.
  intros st st'. split.
  - apply (@catalog_line_decodes Reference.runtime 1700000000000 st mug _
             "k3Jx9QpLm2" ""); try reflexivity.
    left. reflexivity.
  - apply (@catalog_line_decodes Reference.runtime 1700000000000 st' tshirt _
             "P" "-1"); try reflexivity.
    right. exists "1". reflexivity.
Defined.

(** The ids of dimensional, film and manual lines ("calc-...",
    "manual-...") are not decoded: [handleAddSale] looks the whole id up
    in the inventory. *)
Theorem other_lines_decode_whole {rt : Runtime} (now : Z) (p : Props) (st : State)
  (item : SaleItem.t) :
  appended st (handleAddDimToQuote now p st) item
  \/ appended st (handleAddManualToQuote now st) item ->
  trueId item = Some (SaleItem.itemId item).
Proof.
  intros [Happ | Happ]; revert Happ.
  - unfold handleAddDimToQuote, appended.
    destruct (Dim.selectedStockItem (dim st) =? ""); simpl;
      [intros H; destruct (@not_self_append _ _ _ H) |].
    destruct (negb (isDTF st) && (Dim.selectedTier (dim st) =? "")); simpl;
      [intros H; destruct (@not_self_append _ _ _ H) |].
    destruct (totalDimPrice p st <=? 0)%num; simpl;
      [intros H; destruct (@not_self_append _ _ _ H) |].
    destruct (find_stock p (Dim.selectedStockItem (dim st))); simpl;
      [| intros H; destruct (@not_self_append _ _ _ H)].
    intros H. apply app_inj_tail in H. destruct H as [_ <-]. reflexivity.
  - unfold handleAddManualToQuote, appended.
    destruct (trim (Manual.manualItemName (manual_form st)) =? ""); simpl;
      [intros H; destruct (@not_self_append _ _ _ H) |].
    destruct (Manual.manualPrice (manual_form st) <=? 0)%num; simpl;
      [intros H; destruct (@not_self_append _ _ _ H) |].
    destruct (Manual.manualQuantity (manual_form st) <=? 0)%num; simpl;
      [intros H; destruct (@not_self_append _ _ _ H) |].
    intros H. apply app_inj_tail in H. destruct H as [_ <-]. reflexivity.
Qed.

Lemma other_lines_decode_whole_witness :
  trueId (last (quoteItems (next (handleAddDimToQuote (rt := Reference.runtime) 7
                                    sample_props
                                    (select_roll "SKU-1" "T1" initial_state))))
               delivery)
  = Some "calc-SKU-1-7".
Proof.
  apply (@other_lines_decode_whole Reference.runtime 7 sample_props
           (select_roll "SKU-1" "T1" initial_state)).
  left. reflexivity.
Defined.

(** ** Storing a sale *)

Lemma update_quantity_frame (u : Remote unit) (id msg : string) (q : number)
  (app : AppState) :
  sales (updateInventoryQuantity u id q msg app) = sales app
  /\ quoteForSale (updateInventoryQuantity u id q msg app) = quoteForSale app
  /\ activeView (updateInventoryQuantity u id q msg app) = activeView app
  /\ map (with_quantity 0%num) (inventory (updateInventoryQuantity u id q msg app))
     = map (with_quantity 0%num) (inventory app).
Proof.
  unfold updateInventoryQuantity, runAsyncOperation.
  destruct u as [[] |]; simpl; repeat split; try reflexivity.
  rewrite map_map. apply map_ext. intros d.
  destruct (InventoryItem.id (doc d) =? id); reflexivity.
Qed.

Lemma stock_updates_frame (snapshot : list InventoryDoc) (u : nat -> Remote unit)
  (items : list SaleItem.t) :
  forall (i : nat) (app : AppState),
    sales (stockUpdates snapshot u i items app) = sales app
    /\ quoteForSale (stockUpdates snapshot u i items app) = quoteForSale app
    /\ activeView (stockUpdates snapshot u i items app) = activeView app
    /\ map (with_quantity 0%num) (inventory (stockUpdates snapshot u i items app))
       = map (with_quantity 0%num) (inventory app).
Proof.
  induction items as [| item rest IH]; intros i app; [repeat split |].
  cbn [stockUpdates].
  destruct (find _ snapshot) as [invItem |].
  - destruct (IH (S i) (updateInventoryQuantity (u i) (InventoryItem.id (doc invItem))
                          (InventoryItem.quantity (doc invItem)
                           - SaleItem.quantity item)%num
                          ("Stock updated for " ++ SaleItem.name item) app))
      as [H1 [H2 [H3 H4]]].
    destruct (update_quantity_frame (u i) (InventoryItem.id (doc invItem))
                ("Stock updated for " ++ SaleItem.name item)
                (InventoryItem.quantity (doc invItem) - SaleItem.quantity item)%num app)
      as [G1 [G2 [G3 G4]]].
    repeat split; congruence.
  - apply IH.
Qed.

Lemma stock_updates_app (snapshot : list InventoryDoc) (u : nat -> Remote unit)
  (l1 l2 : list SaleItem.t) :
  forall (i : nat) (app : AppState),
    stockUpdates snapshot u i (l1 ++ l2) app
    = stockUpdates snapshot u (i + List.length l1) l2
        (stockUpdates snapshot u i l1 app).
Proof.
  induction l1 as [| x l1 IH]; intros i app.
  - simpl. rewrite Nat.add_0_r. reflexivity.
  - cbn [List.app stockUpdates List.length]. rewrite IH. f_equal. lia.
Qed.

Lemma add_sale_sales (addDoc : Remote string) (u : nat -> Remote unit)
  (saleData : SaleData.t) (app : AppState) :
  sales (handleAddSale addDoc u saleData app)
  = match addDoc with
    | Resolves docId => Sale.make docId saleData :: sales app
    | Rejects => sales app
    end.
Proof.
  unfold handleAddSale, createSaleDocument, runAsyncOperation.
  destruct addDoc as [docId |]; simpl; [| reflexivity].
  match goal with
  | |- context [stockUpdates ?s ?f ?i ?l ?a] =>
      destruct (stock_updates_frame s f l i a) as [H1 _]
  end.
  rewrite H1. reflexivity.
Qed.

(** Storing a sale never adds, removes, reorders or renames a product: up
    to the quantities the inventory is what it was, whatever the store
    answers.  The sale list is either what it was (the sale could not be
    stored) or has the new sale in front. *)
Theorem add_sale_keeps_products (addDoc : Remote string) (u : nat -> Remote unit)
  (saleData : SaleData.t) (app : AppState) :
  map (with_quantity 0%num) (inventory (handleAddSale addDoc u saleData app))
  = map (with_quantity 0%num) (inventory app)
  /\ quoteForSale (handleAddSale addDoc u saleData app) = quoteForSale app
  /\ match addDoc with
     | Resolves docId =>
         sales (handleAddSale addDoc u saleData app)
         = Sale.make docId saleData :: sales app
     | Rejects =>
         sales (handleAddSale addDoc u saleData app) = sales app
         /\ inventory (handleAddSale addDoc u saleData app) = inventory app
     end.
Proof.
  unfold handleAddSale, createSaleDocument, runAsyncOperation.
  destruct addDoc as [docId |]; simpl.
  - match goal with
    | |- context [stockUpdates ?s ?f ?i ?l ?a] =>
        destruct (stock_updates_frame s f l i a) as [H1 [H2 [H3 H4]]]
    end.
    rewrite H1, H2, H4. repeat split.
  - repeat split.
Qed.

(** When the sale is stored and the stock updates go through, the quantity
    left for the product of the last line is the quantity the product had
    when the sale was submitted minus the quantity of that line, whatever
    the lines before it: an earlier line for the same product is not
    counted. *)
Theorem add_sale_last_line_wins (docId pid : string) (u : nat -> Remote unit)
  (saleData : SaleData.t) (app : AppState) (earlier : list SaleItem.t)
  (item : SaleItem.t) (d d' : InventoryDoc) :
  (forall i : nat, u i = Resolves tt) ->
  SaleData.items saleData = (earlier ++ [item])%list ->
  trueId item = Some pid ->
  find (fun x => (InventoryItem.id (doc x) =? pid)%string) (inventory app) = Some d ->
  In d' (inventory (handleAddSale (Resolves docId) u saleData app)) ->
  InventoryItem.id (doc d') = pid ->
  InventoryItem.quantity (doc d')
  = (InventoryItem.quantity (doc d) - SaleItem.quantity item)%num.
Proof.
  intros Hu Hitems Hid Hfind Hin Hpid. revert Hin.
  unfold handleAddSale, createSaleDocument, runAsyncOperation. simpl.
  rewrite Hitems, stock_updates_app. cbn [stockUpdates]. rewrite Hid, Hfind.
  assert (Hd : InventoryItem.id (doc d) = pid).
  { apply find_some in Hfind. destruct Hfind as [_ H].
    apply String.eqb_eq in H. exact H. }
  unfold updateInventoryQuantity, runAsyncOperation. rewrite Hu. simpl.
  rewrite in_map_iff. intros [x [Hx _]]. rewrite Hd in Hx.
  destruct (InventoryItem.id (doc x) =? pid) eqn:E.
  - subst d'. reflexivity.
  - subst d'. apply String.eqb_neq in E. contradiction.
Qed.

(** Two lines for the mug, 2 and 3 copies, out of 20 in stock: 17 are
    left, not 15. *)
Lemma add_sale_last_line_wins_witness :
  let data := newSaleData clerk "2024-01-01" "pay-1" "2024-01-01"
                (with_customer "C-1" 0%num sample_sales_view) mug_app in
  let final := inventory (handleAddSale (Resolves "S-1") (fun _ => Resolves tt)
                            data mug_app) in
  InventoryItem.quantity
    (doc (nth 0 final {| doc := sticker; isConsumable := None |}))
  = (Fin 20 - Fin 3)%num.
Proof.
  intros data final.
  apply (@add_sale_last_line_wins "S-1" "k3Jx9QpLm2" (fun _ => Resolves tt) data
           mug_app
           [SaleItem.make "simple-k3Jx9QpLm2-1700000000000" "Mug" (Fin 2) (Fin 15000)]
           (SaleItem.make "simple-k3Jx9QpLm2-1700000000500" "Mug" (Fin 3) (Fin 14000))
           {| doc := mug; isConsumable := Some false |});
    try reflexivity.
  left. reflexivity.
Defined.

Example mug_stock_after_two_lines :
  map (fun d => (InventoryItem.id (doc d),
                 Num.eqb (InventoryItem.quantity (doc d)) (Fin 17),
                 Num.eqb (InventoryItem.quantity (doc d)) (Fin 500)))
      (inventory
         (handleAddSale (Resolves "S-1") (fun _ => Resolves tt)
            (newSaleData clerk "2024-01-01" "pay-1" "2024-01-01"
               (with_customer "C-1" 0%num sample_sales_view) mug_app) mug_app))
  = [("k3Jx9QpLm2", true, false); ("P-3", false, true)].
Proof. reflexivity. Qed.

Lemma filter_map_fixed {A : Type} (f : A -> bool) (g : A -> A) (l : list A) :
  (forall x, f (g x) = f x) -> (forall x, f x = true -> g x = x) ->
  filter f (map g l) = filter f l.
Proof.
  intros Hf Hg. induction l as [| x r IH]; [reflexivity |].
  simpl. rewrite Hf. destruct (f x) eqn:E; [rewrite (Hg x E), IH | rewrite IH];
    reflexivity.
Qed.

Lemma stock_updates_other (snapshot : list InventoryDoc) (u : nat -> Remote unit)
  (pid : string) (items : list SaleItem.t) :
  (forall item, In item items -> trueId item <> Some pid) ->
  forall (i : nat) (app : AppState),
    filter (fun d => (InventoryItem.id (doc d) =? pid)%string)
           (inventory (stockUpdates snapshot u i items app))
    = filter (fun d => (InventoryItem.id (doc d) =? pid)%string) (inventory app).
Proof.
  induction items as [| item rest IH]; intros Hno i app; [reflexivity |].
  cbn [stockUpdates].
  rewrite IH by (intros x Hx; apply Hno; right; exact Hx).
  destruct (find _ snapshot) as [invItem |] eqn:Efind; [| reflexivity].
  apply find_some in Efind. destruct Efind as [_ Hid].
  destruct (trueId item) as [t |] eqn:Et; [| discriminate].
  apply String.eqb_eq in Hid.
  assert (Hne : InventoryItem.id (doc invItem) <> pid).
  { intros H. apply (Hno item (or_introl eq_refl)). congruence. }
  unfold updateInventoryQuantity, runAsyncOperation.
  destruct (u i) as [[] |]; simpl; [| reflexivity].
  apply filter_map_fixed.
  - intros x. destruct (InventoryItem.id (doc x) =? InventoryItem.id (doc invItem));
      reflexivity.
  - intros x Hx. apply String.eqb_eq in Hx.
    destruct (InventoryItem.id (doc x) =? InventoryItem.id (doc invItem)) eqn:E;
      [| reflexivity].
    apply String.eqb_eq in E. congruence.
Qed.

(** A product that no line of the sale decodes to keeps its stock: the
    documents with its id are what they were, whatever the store answers. *)
Theorem add_sale_leaves_other_products (addDoc : Remote string)
  (u : nat -> Remote unit) (saleData : SaleData.t) (app : AppState) (pid : string) :
  (forall item, In item (SaleData.items saleData) -> trueId item <> Some pid) ->
  filter (fun d => (InventoryItem.id (doc d) =? pid)%string)
         (inventory (handleAddSale addDoc u saleData app))
  = filter (fun d => (InventoryItem.id (doc d) =? pid)%string) (inventory app).
Proof.
  intros Hno. unfold handleAddSale, createSaleDocument, runAsyncOperation.
  destruct addDoc as [docId |]; simpl; [| reflexivity].
  rewrite stock_updates_other by exact Hno. reflexivity.
Qed.

Lemma add_sale_leaves_other_products_witness :
  filter (fun d => (InventoryItem.id (doc d) =? "P-3")%string)
         (inventory
            (handleAddSale (Resolves "S-1") (fun _ => Resolves tt)
               (newSaleData clerk "2024-01-01" "pay-1" "2024-01-01"
                  (with_customer "C-1" 0%num sample_sales_view) mug_app) mug_app))
  = [{| doc := sticker; isConsumable := Some false |}].
Proof.
  apply (@add_sale_leaves_other_products (Resolves "S-1") (fun _ => Resolves tt)
           (newSaleData clerk "2024-01-01" "pay-1" "2024-01-01"
              (with_customer "C-1" 0%num sample_sales_view) mug_app) mug_app "P-3").
  intros item [<- | [<- | []]]; discriminate.
Defined.

(** ** Creating the sale from the handed-off quote *)

(** Without a customer, "create sale" does nothing.  With one, the form is
    reset and the handed-off quote is cleared whatever the store answers:
    when the sale is stored it sits in front of the sale list with the
    quote's lines and their total; when it is not, the sale list is what it
    was and the quote is gone all the same. *)
Theorem create_sale_clears_quote (currentUser : User.t)
  (saleDate paymentId paymentDate : string) (addDoc : Remote string)
  (u : nat -> Remote unit) (sv : SalesState) (app : AppState) :
  (customerId sv = "" ->
   handleCreateSale currentUser saleDate paymentId paymentDate addDoc u sv app
   = (sv, app))
  /\ (customerId sv <> "" ->
      let r := handleCreateSale currentUser saleDate paymentId paymentDate addDoc u
                 sv app in
      quoteForSale (snd r) = []
      /\ isAddSaleOpen (fst r) = false
      /\ customerId (fst r) = ""
      /\ amountPaid (fst r) = 0%num
      /\ match addDoc with
         | Resolves docId =>
             exists sale : Sale.t,
               sales (snd r) = sale :: sales app
               /\ Sale.id sale = docId
               /\ SaleData.items (Sale.data sale) = quoteForSale app
               /\ SaleData.total (Sale.data sale) = totalQuote app
               /\ SaleData.customerId (Sale.data sale) = customerId sv
         | Rejects => sales (snd r) = sales app
         end).
Proof.
  unfold handleCreateSale. split.
  - intros H. rewrite H. reflexivity.
  - intros H. apply String.eqb_neq in H. rewrite H. cbv zeta.
    cbn [fst snd].
    pose proof (add_sale_sales addDoc u
                  (newSaleData currentUser saleDate paymentId paymentDate sv app) app)
      as Hs.
    repeat split.
    destruct addDoc as [docId |]; simpl in *.
    + eexists. split; [exact Hs |]. repeat split.
    + exact Hs.
Qed.

Lemma create_sale_clears_quote_witness :
  let sv := with_customer "C-1" 0%num sample_sales_view in
  let lost := handleCreateSale clerk "2024-01-01" "pay-1" "2024-01-01" Rejects
                (fun _ => Rejects) sv mug_app in
  handleCreateSale clerk "2024-01-01" "pay-1" "2024-01-01" (Resolves "S-1")
    (fun _ => Resolves tt) sample_sales_view mug_app
  = (sample_sales_view, mug_app)
  /\ quoteForSale (snd lost) = []
  /\ sales (snd lost) = [].
Proof.
  intros sv lost.
  destruct (@create_sale_clears_quote clerk "2024-01-01" "pay-1" "2024-01-01"
              (Resolves "S-1") (fun _ => Resolves tt) sample_sales_view mug_app)
    as [H1 _].
  destruct (@create_sale_clears_quote clerk "2024-01-01" "pay-1" "2024-01-01"
              Rejects (fun _ => Rejects) sv mug_app) as [_ H2].
  split; [exact (H1 eq_refl) |].
  destruct (H2 ltac:(discriminate)) as [Hq [_ [_ [_ Hs]]]].
  split; [exact Hq | exact Hs].
Defined.

(** The sale built from the form: it is "Paid" exactly when the amount paid
    is at least the total, "Partially Paid" exactly when it is not but
    something was paid, and "Unpaid" exactly when neither holds; it is
    never "Pending".  It carries one initial payment, of the amount paid
    and in the user's name, exactly when the amount paid is above zero, and
    none otherwise; for an amount paid of zero or more the payments add up
    to the amount paid. *)
Theorem new_sale_status (currentUser : User.t)
  (saleDate paymentId paymentDate : string) (sv : SalesState) (app : AppState) :
  let d := newSaleData currentUser saleDate paymentId paymentDate sv app in
  (SaleData.status d = Paid <-> (amountPaid sv >=? totalQuote app)%num = true)
  /\ SaleData.status d <> Pending
  /\ ((amountPaid sv >? 0)%num = true ->
      SaleData.payments d
      = Some [Payment.make paymentId paymentDate (amountPaid sv)
                           (User.username currentUser) (Some "Initial payment")])
  /\ ((amountPaid sv >? 0)%num = false -> SaleData.payments d = Some [])
  /\ (SaleData.status d = PartiallyPaid <->
      (amountPaid sv >=? totalQuote app)%num = false
      /\ (amountPaid sv >? 0)%num = true)
  /\ (SaleData.status d = Unpaid <->
      (amountPaid sv >=? totalQuote app)%num = false
      /\ (amountPaid sv >? 0)%num = false)
  /\ ((0 <=? amountPaid sv)%num = true ->
      exists l : list Payment.t,
        SaleData.payments d = Some l
        /\ Num.same (payments_total l) (amountPaid sv)).
Proof.
  cbv zeta. unfold newSaleData. cbn [SaleData.status SaleData.payments].
  split; [| split; [| split; [| split; [| split; [| split]]]]].
  - destruct (amountPaid sv >=? totalQuote app)%num; [tauto |].
    destruct (amountPaid sv >? 0)%num; split; discriminate.
  - destruct (amountPaid sv >=? totalQuote app)%num; [discriminate |].
    destruct (amountPaid sv >? 0)%num; discriminate.
  - intros H. rewrite H. reflexivity.
  - intros H. rewrite H. reflexivity.
  - destruct (amountPaid sv >=? totalQuote app)%num;
      [split; [discriminate | intros [H _]; discriminate H] |].
    destruct (amountPaid sv >? 0)%num; split; try tauto; try discriminate.
    intros [_ H]. discriminate H.
  - destruct (amountPaid sv >=? totalQuote app)%num;
      [split; [discriminate | intros [H _]; discriminate H] |].
    destruct (amountPaid sv >? 0)%num; split; try tauto; try discriminate.
    intros [_ H]. discriminate H.
  - intros Hpos. eexists. split; [reflexivity |].
    unfold num_gtb. destruct (amountPaid sv) as [| |a|]; simpl in *;
      try discriminate; try exact I.
    destruct (Num.Qltb 0 a) eqn:E; simpl; qprop; lra.
Qed.

(** 20000 paid on a quote of 72000 is "Partially Paid", with the one
    initial payment; nothing paid on it is "Unpaid". *)
Lemma new_sale_status_witness :
  let partial := newSaleData clerk "2024-01-01" "pay-1" "2024-01-01"
                   (with_customer "C-1" (Fin 20000) sample_sales_view) mug_app in
  let unpaid := newSaleData clerk "2024-01-01" "pay-1" "2024-01-01"
                  (with_customer "C-1" 0%num sample_sales_view) mug_app in
  totalQuote mug_app = Fin (0 + 15000 * 2 + 14000 * 3)
  /\ SaleData.status partial = PartiallyPaid
  /\ SaleData.payments partial
     = Some [Payment.make "pay-1" "2024-01-01" (Fin 20000) "amina"
                          (Some "Initial payment")]
  /\ SaleData.status unpaid = Unpaid.
Proof.
  intros partial unpaid.
  destruct (@new_sale_status clerk "2024-01-01" "pay-1" "2024-01-01"
              (with_customer "C-1" (Fin 20000) sample_sales_view) mug_app)
    as [_ [_ [Hpay [_ [Hpartial _]]]]].
  destruct (@new_sale_status clerk "2024-01-01" "pay-1" "2024-01-01"
              (with_customer "C-1" 0%num sample_sales_view) mug_app)
    as [_ [_ [_ [_ [_ [Hunpaid _]]]]]].
  split; [reflexivity |].
  split; [apply Hpartial; split; reflexivity |].
  split; [apply Hpay; reflexivity |].
  apply Hunpaid. split; reflexivity.
Defined.

(** ** Recording a payment *)

Lemma payments_total_snoc (l : list Payment.t) (pay : Payment.t) :
  Num.same (payments_total (l ++ [pay]))
           (payments_total l + Payment.amount pay)%num.
Proof.
  induction l as [| x r IH]; simpl.
  - eapply same_trans; [apply add_same_comm | apply same_refl].
  - eapply same_trans; [| apply same_sym, add_same_assoc].
    apply add_same_compat; [apply same_refl | exact IH].
Qed.

(** The sale a payment produces: the amount is added to what was paid, one
    payment is added at the end of the list, and the status is "Paid" when
    the new amount reaches the total and "Partially Paid" otherwise, never
    "Unpaid" or "Pending".  If the payments added up to the amount paid
    before, they still do. *)
Theorem recorded_payment (currentUser : User.t)
  (paymentId paymentDate : string) (sv : SalesState) (sale : Sale.t)
  (before : list Payment.t) :
  SaleData.payments (Sale.data sale) = Some before ->
  let after := Sale.data (recordedSale currentUser paymentId paymentDate sv sale) in
  SaleData.amountPaid after = Some (paid_so_far sale + paymentAmount sv)%num
  /\ SaleData.payments after
     = Some (before ++ [Payment.make paymentId paymentDate (paymentAmount sv)
                                     (User.username currentUser)
                                     (Some (paymentNote sv))])%list
  /\ (SaleData.status after = Paid \/ SaleData.status after = PartiallyPaid)
  /\ (SaleData.status after = Paid <->
      (paid_so_far sale + paymentAmount sv >=? SaleData.total (Sale.data sale))%num
      = true)
  /\ SaleData.items after = SaleData.items (Sale.data sale)
  /\ SaleData.total after = SaleData.total (Sale.data sale)
  /\ (Num.same (payments_total before) (paid_so_far sale) ->
      exists l : list Payment.t,
        SaleData.payments after = Some l
        /\ Num.same (payments_total l) (paid_so_far sale + paymentAmount sv)%num).
Proof.
  intros Hbefore. cbv zeta. unfold recordedSale. simpl. rewrite Hbefore.
  split; [reflexivity |]. split; [reflexivity |].
  split; [destruct (_ >=? _)%num; [left | right]; reflexivity |].
  split; [destruct (_ >=? _)%num; split; try discriminate; reflexivity |].
  split; [reflexivity |]. split; [reflexivity |].
  intros Hsum. eexists. split; [reflexivity |].
  eapply same_trans; [apply payments_total_snoc |].
  apply add_same_compat; [exact Hsum | apply same_refl].
Qed.

Lemma recorded_payment_witness :
  let sv := handleOpenPayment open_sale sample_sales_view in
  let after := Sale.data (recordedSale clerk "pay-2" "2024-02-01" sv open_sale) in
  List.length (match SaleData.payments after with Some l => l | None => [] end)
  = 2%nat
  /\ exists l : list Payment.t,
      SaleData.payments after = Some l
      /\ Num.same (payments_total l) (Fin 20000 + (Fin 72000 - Fin 20000))%num.
Proof.
  intros sv after.
  destruct (@recorded_payment clerk "pay-2" "2024-02-01" sv open_sale
              [Payment.make "pay-1" "2024-01-01" (Fin 20000) "amina"
                            (Some "Initial payment")] eq_refl)
    as [_ [Hp [_ [_ [_ [_ Hsum]]]]]].
  split; [unfold after; rewrite Hp; reflexivity |].
  destruct (Hsum ltac:(simpl; lra)) as [l [Hl Hs]].
  exists l. split; [exact Hl |].
  eapply same_trans; [exact Hs |]. simpl. lra.
Defined.

(** Recording is refused, with nothing changed, when no sale is being paid
    or the amount is zero or less.  Otherwise the dialog is closed and the
    "Payment of ... recorded" toast is raised last, whether or not the
    store took the update: when it did, the sale with that id is replaced
    in place and the other sales are left alone; when it did not, the sale
    list is what it was. *)
Theorem record_payment_outcome {rt : Runtime} (currentUser : User.t)
  (paymentId paymentDate : string) (u : Remote unit) (sv : SalesState)
  (app : AppState) :
  (payingSale sv = None \/ (paymentAmount sv <=? 0)%num = true ->
   handleRecordPayment currentUser paymentId paymentDate u sv app = (sv, app))
  /\ (forall sale : Sale.t,
        payingSale sv = Some sale ->
        (paymentAmount sv <=? 0)%num = false ->
        let r := handleRecordPayment currentUser paymentId paymentDate u sv app in
        isPaymentModalOpen (fst r) = false
        /\ payingSale (fst r) = None
        /\ last (toasts (snd r)) ("", "")
           = ("Payment of " ++ formatUGX (paymentAmount sv)
                ++ " recorded for Invoice #" ++ substring 0 8 (Sale.id sale),
              "success")
        /\ List.length (sales (snd r)) = List.length (sales app)
        /\ map Sale.id (sales (snd r)) = map Sale.id (sales app)
        /\ (forall other : Sale.t,
              In other (sales app) -> Sale.id other <> Sale.id sale ->
              In other (sales (snd r)))
        /\ (u = Rejects -> sales (snd r) = sales app)).
Proof.
  unfold handleRecordPayment. split.
  - intros [H | H].
    + rewrite H. reflexivity.
    + destruct (payingSale sv); [rewrite H |]; reflexivity.
  - intros sale Hsale Hamt. rewrite Hsale, Hamt. cbv zeta. cbn [fst snd].
    split; [reflexivity |]. split; [reflexivity |].
    split; [unfold addToast; simpl; apply last_last |].
    unfold handleUpdateSale, runAsyncOperation.
    destruct u as [[] |]; simpl.
    + split; [apply length_map |]. split.
      * rewrite map_map. apply map_ext. intros x.
        destruct (Sale.id x =? _); reflexivity.
      * split; [| discriminate].
        intros other Hin Hne. apply in_map_iff. exists other.
        apply String.eqb_neq in Hne. rewrite Hne. split; [reflexivity | exact Hin].
    + repeat split. intros other Hin _. exact Hin.
Qed.

Lemma record_payment_outcome_witness :
  let sv := handleOpenPayment open_sale sample_sales_view in
  let failed := handleRecordPayment (rt := Reference.runtime) clerk "pay-2"
                  "2024-02-01" Rejects sv sales_app in
  handleRecordPayment (rt := Reference.runtime) clerk "pay-2" "2024-02-01"
    (Resolves tt) sample_sales_view sales_app
  = (sample_sales_view, sales_app)
  /\ sales (snd failed) = [open_sale]
  /\ last (toasts (snd failed)) ("", "")
     = ("Payment of 52,000 UGX recorded for Invoice #S-1abcde", "success").
Proof.
  intros sv failed.
  destruct (@record_payment_outcome Reference.runtime clerk "pay-2" "2024-02-01"
              (Resolves tt) sample_sales_view sales_app) as [H1 _].
  destruct (@record_payment_outcome Reference.runtime clerk "pay-2" "2024-02-01"
              Rejects sv sales_app) as [_ H2].
  split; [apply H1; left; reflexivity |].
  destruct (H2 open_sale eq_refl eq_refl) as [_ [_ [Ht [_ [_ [_ Hs]]]]]].
  split; [exact (Hs eq_refl) | exact Ht].
Defined.

(** The amount the payment dialog proposes is what is still owed: recording
    it unchanged, for a finite total with less than the total paid so far,
    brings the amount paid to the total and marks the sale "Paid". *)
Theorem proposed_payment_settles (currentUser : User.t)
  (paymentId paymentDate : string) (sv : SalesState) (sale : Sale.t) (t a : Q) :
  SaleData.total (Sale.data sale) = Fin t ->
  paid_so_far sale = Fin a ->
  a < t ->
  let sv' := handleOpenPayment sale sv in
  let after := Sale.data (recordedSale currentUser paymentId paymentDate sv' sale) in
  (paymentAmount sv' <=? 0)%num = false
  /\ SaleData.status after = Paid
  /\ exists paid : number,
      SaleData.amountPaid after = Some paid /\ paid =n= Fin t.
Proof.
  intros Ht Ha Hlt. cbv zeta. unfold recordedSale, handleOpenPayment. simpl.
  rewrite Ht, Ha. simpl. split; [qprop; lra |]. split.
  - unfold num_geb. simpl.
    replace (Qle_bool t (a + (t + - a))) with true; [reflexivity |].
    symmetry. qprop. lra.
  - eexists. split; [reflexivity |]. simpl. lra.
Qed.

Lemma proposed_payment_settles_witness :
  let sv' := handleOpenPayment open_sale sample_sales_view in
  SaleData.status (Sale.data (recordedSale clerk "pay-2" "2024-02-01" sv' open_sale))
  = Paid.
Proof.
  intros sv'.
  apply (@proposed_payment_settles clerk "pay-2" "2024-02-01" sample_sales_view
           open_sale (0 + 15000 * 2 + 14000 * 3) 20000); reflexivity.
Defined.

(** ** From the calculator to the stored sale *)

Lemma create_sale_stored (currentUser : User.t)
  (saleDate paymentId paymentDate docId : string) (u : nat -> Remote unit)
  (sv : SalesState) (app : AppState) :
  customerId sv <> "" ->
  sales (snd (handleCreateSale currentUser saleDate paymentId paymentDate
                (Resolves docId) u sv app))
  = Sale.make docId (newSaleData currentUser saleDate paymentId paymentDate sv app)
      :: sales app.
Proof.
  intros H. apply String.eqb_neq in H. unfold handleCreateSale. rewrite H.
  cbv zeta. cbn [snd]. unfold clearQuote, setQuoteForSale. cbn [sales].
  apply (add_sale_sales (Resolves docId)).
Qed.

(** Posting an empty quote only raises the error toast.  Posting a quote
    with items empties the calculator, puts the items, in order, into the
    shell's [quoteForSale], switches to the sales view and opens its
    dialog.  The sale then created for a chosen customer and stored by
    the document store holds those items, and its total is the provisional
    total the calculator displayed. *)
Theorem handoff_end_to_end (st : State) (app : AppState) (sv : SalesState)
  (currentUser : User.t) (saleDate paymentId paymentDate docId : string)
  (u : nat -> Remote unit) :
  (quoteItems st = [] ->
   postOrder st app
   = (st, addToast "Your quote is empty. Add items to create a sale." "error" app))
  /\ (quoteItems st <> [] ->
      let st' := fst (postOrder st app) in
      let app' := snd (postOrder st app) in
      quoteItems st' = []
      /\ quoteForSale app' = quoteItems st
      /\ activeView app' = "Sales"
      /\ toasts app' = toasts app
      /\ isAddSaleOpen (quoteEffect app' sv) = true
      /\ totalQuote app' = totalQuotePrice st
      /\ (customerId sv <> "" ->
          exists sale : Sale.t,
            sales (snd (handleCreateSale currentUser saleDate paymentId paymentDate
                          (Resolves docId) u (quoteEffect app' sv) app'))
            = sale :: sales app
            /\ SaleData.items (Sale.data sale) = quoteItems st
            /\ SaleData.total (Sale.data sale) = totalQuotePrice st)).
Proof.
  unfold postOrder, handleCreateSaleClick. split.
  - intros H. rewrite H. reflexivity.
  - intros H. destruct (quoteItems st) as [| x l] eqn:E; [congruence |].
    cbv zeta. cbn [List.length Nat.eqb next effects fst snd fold_left perform].
    split; [reflexivity |]. split; [reflexivity |]. split; [reflexivity |].
    split; [reflexivity |]. split; [reflexivity |].
    split; [unfold totalQuote, totalQuotePrice; simpl; rewrite E; reflexivity |].
    intros Hc. eexists. split.
    + apply (@create_sale_stored currentUser saleDate paymentId paymentDate docId u
               (quoteEffect (onCreateSale (x :: l) app) sv)
               (onCreateSale (x :: l) app)).
      exact Hc.
    + split; [reflexivity |].
      unfold totalQuote, totalQuotePrice. simpl. rewrite E. reflexivity.
Qed.

Lemma handoff_end_to_end_witness :
  let st := with_quote initial_state [poster; delivery] in
  let app' := snd (postOrder st sample_app) in
  let sv := with_customer "C-1" 0%num sample_sales_view in
  quoteForSale app' = [poster; delivery]
  /\ activeView app' = "Sales"
  /\ exists sale : Sale.t,
      sales (snd (handleCreateSale clerk "2024-01-01" "pay-1" "2024-01-01"
                    (Resolves "S-7") (fun _ => Resolves tt)
                    (quoteEffect app' sv) app'))
      = [sale]
      /\ SaleData.items (Sale.data sale) = [poster; delivery]
      /\ SaleData.total (Sale.data sale) = totalQuotePrice st.
Proof.
  intros st app' sv.
  destruct (@handoff_end_to_end st sample_app sv clerk "2024-01-01" "pay-1"
              "2024-01-01" "S-7" (fun _ => Resolves tt)) as [_ H].
  destruct (H ltac:(discriminate)) as [_ [Hq [Hv [_ [_ [_ Hsale]]]]]].
  split; [exact Hq |]. split; [exact Hv |].
  exact (Hsale ltac:(discriminate)).
Defined.

(** ** Submission *)

(** C7, as the code has it.  With an empty quote the submission is refused:
    an error toast, no call to the sale-creation callback, state unchanged.
    With a non-empty quote the callback is called once with the whole list
    in order, and the quote is cleared as soon as the call has returned:
    the handler does not wait for the sale to be created.  With the
    callback the shell passes, the calculator's quote is empty after the
    click; when the store then refuses the sale, no sale is added, the
    calculator's quote stays empty and the handed-off copy is cleared as
    well. *)
Theorem submit_clears_on_return (callback : list SaleItem.t -> Completion)
  (st : State) (app : AppState) (sv : SalesState) (currentUser : User.t)
  (saleDate paymentId paymentDate : string) (u : nat -> Remote unit) :
  (quoteItems st = [] ->
   handleCreateSaleClick callback st
   = reject st "Your quote is empty. Add items to create a sale.")
  /\ (quoteItems st <> [] ->
      effects (handleCreateSaleClick callback st) = [CreateSale (quoteItems st)]
      /\ (callback (quoteItems st) = Returns ->
          quoteItems (next (handleCreateSaleClick callback st)) = []
          /\ completion (handleCreateSaleClick callback st) = Returns))
  /\ (quoteItems st <> [] ->
      customerId sv <> "" ->
      let st' := fst (postOrder st app) in
      let app' := snd (postOrder st app) in
      let r := handleCreateSale currentUser saleDate paymentId paymentDate
                 Rejects u (quoteEffect app' sv) app' in
      quoteForSale app' = quoteItems st
      /\ quoteItems st' = []
      /\ sales (snd r) = sales app
      /\ quoteForSale (snd r) = []).
Proof.
  split; [| split].
  - unfold handleCreateSaleClick. intros H. rewrite H. reflexivity.
  - unfold handleCreateSaleClick. intros H.
    destruct (quoteItems st) as [| x l] eqn:E; [congruence |]. simpl.
    split; [destruct (callback (x :: l)); reflexivity |].
    intros Hc. rewrite Hc. split; reflexivity.
  - intros H Hc. unfold postOrder, handleCreateSaleClick.
    destruct (quoteItems st) as [| x l] eqn:E; [congruence |].
    cbv zeta. cbn [List.length Nat.eqb next effects fst snd fold_left perform].
    split; [reflexivity |]. split; [reflexivity |].
    assert (Hc' : customerId (quoteEffect (onCreateSale (x :: l) app) sv) <> "")
      by exact Hc.
    apply String.eqb_neq in Hc'. unfold handleCreateSale. rewrite Hc'.
    cbv zeta. cbn [snd]. split; [| reflexivity].
    unfold clearQuote, setQuoteForSale. cbn [sales].
    rewrite (add_sale_sales Rejects). reflexivity.
Qed.

Lemma submit_clears_on_return_witness :
  let st := with_quote initial_state [poster; delivery] in
  let sv := with_customer "C-1" 0%num sample_sales_view in
  handleCreateSaleClick (fun _ => Returns) initial_state
  = reject initial_state "Your quote is empty. Add items to create a sale."
  /\ effects (handleCreateSaleClick (fun _ => Returns) st)
     = [CreateSale [poster; delivery]]
  /\ quoteItems (next (handleCreateSaleClick (fun _ => Returns) st)) = []
  /\ quoteItems (fst (postOrder st sample_app)) = []
  /\ quoteForSale
       (snd (handleCreateSale clerk "2024-01-01" "pay-1" "2024-01-01" Rejects
               (fun _ => Rejects)
               (quoteEffect (snd (postOrder st sample_app)) sv)
               (snd (postOrder st sample_app))))
     = [].
Proof.
  intros st sv.
  destruct (@submit_clears_on_return (fun _ => Returns) initial_state sample_app sv
              clerk "2024-01-01" "pay-1" "2024-01-01" (fun _ => Rejects))
    as [H1 _].
  destruct (@submit_clears_on_return (fun _ => Returns) st sample_app sv
              clerk "2024-01-01" "pay-1" "2024-01-01" (fun _ => Rejects))
    as [_ [H2 H3]].
  assert (Hne : quoteItems st <> []) by discriminate.
  split; [exact (H1 eq_refl) |].
  split; [exact (proj1 (H2 Hne)) |].
  split; [exact (proj1 (proj2 (H2 Hne) eq_refl)) |].
  destruct (H3 Hne ltac:(discriminate)) as [_ [Hq [_ Hf]]].
  split; [exact Hq | exact Hf].
Defined.

(** A quote of two lines is posted and a customer is chosen, but the store
    refuses the sale: the error toast is raised and no sale is added, that
    is, the hand-off failed; yet the calculator's quote was emptied at the
    click, and the copy handed to the sales view is cleared too. *)
Lemma failed_sale_loses_quote :
  let st := with_quote initial_state [poster; delivery] in
  let sv := with_customer "C-1" 0%num sample_sales_view in
  let st' := fst (postOrder st sample_app) in
  let app' := snd (postOrder st sample_app) in
  let r := handleCreateSale clerk "2024-01-01" "pay-1" "2024-01-01" Rejects
             (fun _ => Rejects) (quoteEffect app' sv) app' in
  quoteItems st = [poster; delivery]
  /\ quoteForSale app' = [poster; delivery]
  /\ sales (snd r) = []
  /\ toasts (snd r) = [("An error occurred. Please try again.", "error")]
  /\ quoteItems st' = []
  /\ quoteForSale (snd r) = [].
Proof.
  repeat split.
Qed.
